(** * csv2ofx: conversion of CSV statements to OFX

    A shallow embedding of [csv2ofx.py] and the properties of its three
    stages: the line-repair preprocessor
    ([preprocessar_csv_corrigindo_linhas]), the transaction extractor
    ([analisar_transacoes]) and the document generator ([gerar_ofx]).

    Python strings are sequences of Unicode code points; exceptions are
    an explicit result type; [print] is a log of diagnostics returned next
    to the result. *)

From Stdlib Require Import String Ascii.
From Stdlib Require Import List NArith ZArith Bool Lia.
From Stdlib Require Import Sorting.Sorted Sorting.Permutation.
From Stdlib Require Import Floats.SpecFloat.
Import ListNotations.

(** ** Strings *)

(** A Python [str]: the list of its code points, which are scalar values
    (no lone surrogate), as the decoding of a file gives them. *)
Definition char := N.
Definition str := list char.

Definition char_eqb (a b : char) : bool := N.eqb a b.

Fixpoint str_eqb (a b : str) : bool :=
  match a, b with
  | [], [] => true
  | x :: a', y :: b' => char_eqb x y && str_eqb a' b'
  | _, _ => false
  end.

(** Decoding of the UTF-8 bytes of a literal of this file into code points. *)
Fixpoint utf8_decode (bs : list N) : str :=
  match bs with
  | [] => []
  | b :: r =>
    if (b <? 128)%N then b :: utf8_decode r
    else if (b <? 224)%N then
      match r with
      | b1 :: r1 =>
        N.lor (N.shiftl (N.land b 31) 6) (N.land b1 63) :: utf8_decode r1
      | [] => []
      end
    else if (b <? 240)%N then
      match r with
      | b1 :: b2 :: r2 =>
        N.lor (N.shiftl (N.land b 15) 12)
          (N.lor (N.shiftl (N.land b1 63) 6) (N.land b2 63)) :: utf8_decode r2
      | _ => []
      end
    else
      match r with
      | b1 :: b2 :: b3 :: r3 =>
        N.lor (N.shiftl (N.land b 7) 18)
          (N.lor (N.shiftl (N.land b1 63) 12)
             (N.lor (N.shiftl (N.land b2 63) 6) (N.land b3 63))) :: utf8_decode r3
      | _ => []
      end
  end.

Fixpoint bytes_of_string (s : string) : list N :=
  match s with
  | EmptyString => []
  | String a s' => N_of_ascii a :: bytes_of_string s'
  end.

Definition u8 (s : string) : str := utf8_decode (bytes_of_string s).

(** Encoding of a [str] as UTF-8 bytes ([str.encode('utf-8')]). *)
Definition utf8_encode_char (c : char) : list N :=
  if (c <? 128)%N then [c]
  else if (c <? 2048)%N then
    [N.lor 192 (N.shiftr c 6); N.lor 128 (N.land c 63)]
  else if (c <? 65536)%N then
    [N.lor 224 (N.shiftr c 12); N.lor 128 (N.land (N.shiftr c 6) 63);
     N.lor 128 (N.land c 63)]
  else
    [N.lor 240 (N.shiftr c 18); N.lor 128 (N.land (N.shiftr c 12) 63);
     N.lor 128 (N.land (N.shiftr c 6) 63); N.lor 128 (N.land c 63)].

Definition utf8_encode (s : str) : list N := flat_map utf8_encode_char s.

Definition ch_semicolon : char := 59%N.
Definition ch_space : char := 32%N.
Definition ch_asterisk : char := 42%N.
Definition ch_comma : char := 44%N.
Definition ch_dot : char := 46%N.
Definition ch_hyphen : char := 45%N.

(** [str.isspace] on one code point: the whitespace of [strip] and of
    [split] without argument. *)
Definition isspace (c : char) : bool :=
  ((9 <=? c) && (c <=? 13) || (28 <=? c) && (c <=? 32)
   || (c =? 133) || (c =? 160) || (c =? 5760)
   || (8192 <=? c) && (c <=? 8202)
   || (c =? 8232) || (c =? 8233) || (c =? 8239) || (c =? 8287)
   || (c =? 12288))%N.

Fixpoint lstrip (s : str) : str :=
  match s with
  | [] => []
  | c :: s' => if isspace c then lstrip s' else s
  end.

Definition rstrip (s : str) : str := rev (lstrip (rev s)).

(** [s.strip()] *)
Definition strip (s : str) : str := rstrip (lstrip s).

(** [s.count(c)] for a one-character [c]. *)
Fixpoint count (c : char) (s : str) : nat :=
  match s with
  | [] => 0
  | x :: s' => (if char_eqb x c then 1 else 0) + count c s'
  end.

(** [s.split(c)] for a one-character separator: never empty. *)
Fixpoint split (c : char) (s : str) : list str :=
  match s with
  | [] => [[]]
  | x :: s' =>
    if char_eqb x c then [] :: split c s'
    else match split c s' with
         | p :: ps => (x :: p) :: ps
         | [] => [[x]]
         end
  end.

(** [sep.join(parts)] *)
Fixpoint join (sep : str) (parts : list str) : str :=
  match parts with
  | [] => []
  | [p] => p
  | p :: ps => p ++ sep ++ join sep ps
  end.

(** [s.replace(a, b)] for one-character [a] and [b]. *)
Definition replace (a b : char) (s : str) : str :=
  map (fun c => if char_eqb c a then b else c) s.

(** [s.split()]: the maximal runs of non-whitespace. *)
Fixpoint split_ws_aux (cur : str) (s : str) : list str :=
  match s with
  | [] => match cur with [] => [] | _ => [rev cur] end
  | c :: s' =>
    if isspace c
    then match cur with
         | [] => split_ws_aux [] s'
         | _ => rev cur :: split_ws_aux [] s'
         end
    else split_ws_aux (c :: cur) s'
  end.

Definition split_ws (s : str) : list str := split_ws_aux [] s.

(** [str(n)] for a non-negative integer. *)
Fixpoint digits_aux (fuel : nat) (n : N) (acc : str) : str :=
  match fuel with
  | O => acc
  | S f =>
    let acc' := (48 + n mod 10)%N :: acc in
    if (n <? 10)%N then acc' else digits_aux f (n / 10)%N acc'
  end.

Definition str_of_nat (n : nat) : str :=
  digits_aux (S n) (N.of_nat n) [].

(** ** Exceptions and diagnostics *)

Inductive exn :=
| FileNotFoundError
| PermissionError
| UnicodeDecodeError
| ValueError
| IndexError
| KeyError
| AttributeError
| TypeError
| CsvError.

Inductive res (A : Type) :=
| Ok (a : A)
| Raise (e : exn).
Arguments Ok {A} a.
Arguments Raise {A} e.

Definition bind {A B} (m : res A) (f : A -> res B) : res B :=
  match m with
  | Ok a => f a
  | Raise e => Raise e
  end.

Notation "x <- m ;; k" := (bind m (fun x => k))
  (at level 61, m at next level, right associativity).

(** [l[-1]] and [l[-2]] *)
Definition ultimo {A} (l : list A) : res A :=
  match rev l with
  | x :: _ => Ok x
  | [] => Raise IndexError
  end.

Definition penultimo {A} (l : list A) : res A :=
  match rev l with
  | _ :: x :: _ => Ok x
  | _ => Raise IndexError
  end.

(** [l[-2] = v] *)
Definition set_penultimo {A} (l : list A) (v : A) : res (list A) :=
  match rev l with
  | z :: _ :: r => Ok (rev (z :: v :: r))
  | _ => Raise IndexError
  end.

(** [l[-1] = v] *)
Definition set_ultimo {A} (l : list A) (v : A) : res (list A) :=
  match rev l with
  | _ :: r => Ok (rev (v :: r))
  | [] => Raise IndexError
  end.

(** [l[0]] *)
Definition primeiro {A} (l : list A) : res A :=
  match l with
  | x :: _ => Ok x
  | [] => Raise IndexError
  end.

(** [except FileNotFoundError] of the preprocessor. *)
Definition capturada_na_leitura (e : exn) : bool :=
  match e with
  | FileNotFoundError => true
  | _ => false
  end.

(** [except (ValueError, IndexError, KeyError)] of the row loop;
    [UnicodeDecodeError] is a subclass of [ValueError]. *)
Definition capturada_na_linha (e : exn) : bool :=
  match e with
  | ValueError | UnicodeDecodeError | IndexError | KeyError => true
  | _ => false
  end.

(** ** Data model *)

(** The keys of [MAPEAMENTO_CAMPOS]: the semantic fields. *)
Inductive campo :=
| c_data
| c_descricao
| c_valor
| c_id_transacao
| c_bank_id
| c_agencia
| c_acct_id.

Definition campo_eqb (a b : campo) : bool :=
  match a, b with
  | c_data, c_data | c_descricao, c_descricao | c_valor, c_valor
  | c_id_transacao, c_id_transacao | c_bank_id, c_bank_id
  | c_agencia, c_agencia | c_acct_id, c_acct_id => true
  | _, _ => false
  end.

(** A value of a row dictionary of [csv.DictReader]: a cell, [None] (the
    [restval] of a cell the row lacks) or the list of the cells beyond the
    header (stored under the [restkey]). *)
Inductive valor_csv :=
| VStr (s : str)
| VNone
| VLista (l : list str).

(** A row dictionary: keys are header names, or [None] (the [restkey]);
    insertion order is kept and an assignment to a present key replaces
    its value. *)
Definition chave := option str.
Definition dict := list (chave * valor_csv).

Definition chave_eqb (a b : chave) : bool :=
  match a, b with
  | Some x, Some y => str_eqb x y
  | None, None => true
  | _, _ => false
  end.

Fixpoint dict_set (d : dict) (k : chave) (v : valor_csv) : dict :=
  match d with
  | [] => [(k, v)]
  | (k', v') :: d' =>
    if chave_eqb k' k then (k', v) :: d' else (k', v') :: dict_set d' k v
  end.

Fixpoint dict_get (d : dict) (k : chave) : option valor_csv :=
  match d with
  | [] => None
  | (k', v') :: d' => if chave_eqb k' k then Some v' else dict_get d' k
  end.

(** [d[k]] *)
Definition dict_index (d : dict) (k : chave) : res valor_csv :=
  match dict_get d k with
  | Some v => Ok v
  | None => Raise KeyError
  end.

(** A naive [datetime] as [strptime] with ['%d/%m/%Y'] builds it: the time
    of day is midnight, so the calendar date is all of it. *)
Record datetime := mk_datetime { ano : N; mes : N; dia : N }.

(** [a < b] on such values. *)
Definition datetime_ltb (a b : datetime) : bool :=
  ((ano a <? ano b)
   || (ano a =? ano b) && ((mes a <? mes b)
                           || (mes a =? mes b) && (dia a <? dia b)))%N.

(** Python's [float] is IEEE 754 binary64. *)
Definition float := spec_float.

(** [-x] *)
Definition float_neg (x : float) : float := SFopp x.

(** [x > 0] *)
Definition float_gt0 (x : float) : bool := SFltb (S754_zero false) x.

(** [x < 0] *)
Definition float_lt0 (x : float) : bool := SFltb x (S754_zero false).

(** One transaction: the dictionary appended to [transacoes]. *)
Record transacao := mk_transacao {
  data : datetime;
  descricao : str;
  valor : float;
  id_transacao : valor_csv;
  fitid : str
}.

(** What the program prints. *)
Inductive diag :=
| ErroArquivoVazio
| ErroColunaNaoEncontrada (c : campo)
| ErroOpcoesAceitas (c : campo) (opcoes : list str)
| AvisoLinhaIgnorada (linha : dict) (e : exn)
| NenhumaTransacao
| ArquivoGerado (n : nat)
| ProcessoFinalizado.

(** The library functions the program calls whose results depend on the
    Unicode database, on the parsing and printing of floating-point numbers
    or on a digest. [None] stands for [ValueError]. *)
Class PyLib := {
  (** [s.lower()] *)
  lower : str -> str;
  (** [datetime.strptime(s, '%d/%m/%Y')] *)
  strptime_dmY : str -> option datetime;
  (** [float(s)] *)
  float_of_str : str -> option float;
  (** [hashlib.md5(b).hexdigest()] *)
  md5_hexdigest : list N -> str;
  (** [f"{x:.2f}"] *)
  format_2f : float -> str;
  (** [str(l)] for a list of strings *)
  repr_lista : list str -> str;
  (** [d.strftime('%Y%m%d')] *)
  strftime_Ymd : datetime -> str
}.

(** ** Line repair *)

(** The three statements under [if linhas_corrigidas:]. *)
Definition anexar_a_anterior (linhas_corrigidas : list str) (linha_limpa : str)
  : res (list str) :=
  anterior <- ultimo linhas_corrigidas ;;
  let partes := split ch_semicolon anterior in
  p <- penultimo partes ;;
  frag <- primeiro (split ch_semicolon linha_limpa) ;;
  partes' <- set_penultimo partes (p ++ [ch_space] ++ frag) ;;
  set_ultimo linhas_corrigidas (join [ch_semicolon] partes').

(** One iteration of the loop over [linhas_de_dados]. *)
Definition corrigir_linha (linhas_corrigidas : list str) (linha : str)
  : res (list str) :=
  let linha_limpa := strip linha in
  match linha_limpa with
  | [] => Ok linhas_corrigidas
  | _ :: _ =>
    if Nat.ltb (count ch_semicolon linha_limpa) 2 then
      match linhas_corrigidas with
      | [] => Ok linhas_corrigidas
      | _ :: _ => anexar_a_anterior linhas_corrigidas linha_limpa
      end
    else Ok (linhas_corrigidas ++ [linha_limpa])
  end.

Fixpoint corrigir_linhas (linhas_corrigidas : list str) (linhas : list str)
  : res (list str) :=
  match linhas with
  | [] => Ok linhas_corrigidas
  | linha :: resto =>
    acc <- corrigir_linha linhas_corrigidas linha ;;
    corrigir_linhas acc resto
  end.

(** The argument is what [open] and [readlines] give for the path: the
    lines of the file (the byte-order mark removed by the codec) or the
    exception raised. The result is the printed diagnostics and the
    returned pair. *)
Definition preprocessar_csv_corrigindo_linhas (arquivo : res (list str))
  : list diag * res (option str * option (list str)) :=
  match arquivo with
  | Raise e =>
    if capturada_na_leitura e then ([], Ok (None, None)) else ([], Raise e)
  | Ok [] => ([ErroArquivoVazio], Ok (None, None))
  | Ok (linha0 :: linhas_de_dados) =>
    let cabecalho := strip linha0 in
    ([], linhas_corrigidas <- corrigir_linhas [] linhas_de_dados ;;
         Ok (Some cabecalho, Some linhas_corrigidas))
  end.

(** ** The csv reader

    [csv.reader(lines, delimiter=';')] with the other settings of the
    default dialect: the double quote as quote character, doubled inside a
    quoted field, no escape character, not strict. A NUL character is a
    character like another, as from Python 3.11 on. *)

Inductive parser_state :=
| START_RECORD
| START_FIELD
| IN_FIELD
| IN_QUOTED_FIELD
| QUOTE_IN_QUOTED_FIELD
| EAT_CRNL.

Definition parser_state_eqb (a b : parser_state) : bool :=
  match a, b with
  | START_RECORD, START_RECORD | START_FIELD, START_FIELD
  | IN_FIELD, IN_FIELD | IN_QUOTED_FIELD, IN_QUOTED_FIELD
  | QUOTE_IN_QUOTED_FIELD, QUOTE_IN_QUOTED_FIELD | EAT_CRNL, EAT_CRNL => true
  | _, _ => false
  end.

(** The field being read and the fields read, both most recent first. *)
Record reader := mk_reader {
  state : parser_state;
  field : str;
  fields : list str
}.

Definition ch_quote : char := 34%N.
Definition field_limit : N := 131072%N.

Definition is_newline (c : char) : bool := ((c =? 10) || (c =? 13))%N.

Definition parse_reset : reader := mk_reader START_RECORD [] [].

Definition parse_save_field (st : parser_state) (r : reader) : reader :=
  mk_reader st [] (rev (field r) :: fields r).

Definition parse_add_char (st : parser_state) (r : reader) (c : char)
  : res reader :=
  if (field_limit <=? N.of_nat (length (field r)))%N then Raise CsvError
  else Ok (mk_reader st (c :: field r) (fields r)).

Definition after_eol (c : option char) : parser_state :=
  match c with
  | None => START_RECORD
  | Some _ => EAT_CRNL
  end.

Definition is_eol_or_newline (c : option char) : bool :=
  match c with
  | None => true
  | Some x => is_newline x
  end.

Definition is_char (c : option char) (x : char) : bool :=
  match c with
  | None => false
  | Some y => char_eqb y x
  end.

Definition parse_start_field (r : reader) (c : option char) : res reader :=
  if is_eol_or_newline c then Ok (parse_save_field (after_eol c) r)
  else if is_char c ch_quote then Ok (mk_reader IN_QUOTED_FIELD (field r) (fields r))
  else if is_char c ch_semicolon then Ok (parse_save_field START_FIELD r)
  else match c with
       | Some x => parse_add_char IN_FIELD r x
       | None => Ok r
       end.

(** One character, or the end of the line ([None]). *)
Definition parse_process_char (r : reader) (c : option char) : res reader :=
  match state r with
  | START_RECORD =>
    match c with
    | None => Ok r
    | Some x =>
      if is_newline x then Ok (mk_reader EAT_CRNL (field r) (fields r))
      else parse_start_field r c
    end
  | START_FIELD => parse_start_field r c
  | IN_FIELD =>
    if is_eol_or_newline c then Ok (parse_save_field (after_eol c) r)
    else if is_char c ch_semicolon then Ok (parse_save_field START_FIELD r)
    else match c with
         | Some x => parse_add_char IN_FIELD r x
         | None => Ok r
         end
  | IN_QUOTED_FIELD =>
    match c with
    | None => Ok r
    | Some x =>
      if char_eqb x ch_quote
      then Ok (mk_reader QUOTE_IN_QUOTED_FIELD (field r) (fields r))
      else parse_add_char IN_QUOTED_FIELD r x
    end
  | QUOTE_IN_QUOTED_FIELD =>
    if is_char c ch_quote then
      match c with
      | Some x => parse_add_char IN_QUOTED_FIELD r x
      | None => Ok r
      end
    else if is_char c ch_semicolon then Ok (parse_save_field START_FIELD r)
    else if is_eol_or_newline c then Ok (parse_save_field (after_eol c) r)
    else match c with
         | Some x => parse_add_char IN_FIELD r x
         | None => Ok r
         end
  | EAT_CRNL =>
    match c with
    | None => Ok (mk_reader START_RECORD (field r) (fields r))
    | Some x => if is_newline x then Ok r else Raise CsvError
    end
  end.

Fixpoint parse_line (r : reader) (linha : str) : res reader :=
  match linha with
  | [] => parse_process_char r None
  | c :: resto =>
    r' <- parse_process_char r (Some c) ;;
    parse_line r' resto
  end.

(** The rows the reader yields, in order, and the exception that ends the
    iteration, if one does. *)
Fixpoint csv_reader_from (r : reader) (linhas : list str)
  : list (list str) * option exn :=
  match linhas with
  | [] =>
    match field r, parser_state_eqb (state r) IN_QUOTED_FIELD with
    | [], false => ([], None)
    | _, _ => ([rev (fields (parse_save_field START_RECORD r))], None)
    end
  | linha :: resto =>
    match parse_line r linha with
    | Raise e => ([], Some e)
    | Ok r' =>
      if parser_state_eqb (state r') START_RECORD then
        let (rows, e) := csv_reader_from parse_reset resto in
        (rev (fields r') :: rows, e)
      else csv_reader_from r' resto
    end
  end.

Definition csv_reader (linhas : list str) : list (list str) * option exn :=
  csv_reader_from parse_reset linhas.

(** The dictionary [csv.DictReader] builds from one row. *)
Definition dict_of_row (fieldnames : list str) (row : list str) : dict :=
  let d := fold_left (fun d kv => dict_set d (Some (fst kv)) (VStr (snd kv)))
                     (combine fieldnames row) [] in
  let lf := length fieldnames in
  let lr := length row in
  if Nat.ltb lf lr then dict_set d None (VLista (skipn lf row))
  else if Nat.ltb lr lf then
    fold_left (fun d k => dict_set d (Some k) VNone) (skipn lr fieldnames) d
  else d.

Definition row_nonempty (row : list str) : bool :=
  match row with
  | [] => false
  | _ :: _ => true
  end.

(** [csv.DictReader(linhas, fieldnames=fieldnames, delimiter=';')]: empty
    rows are not yielded. *)
Definition DictReader (linhas : list str) (fieldnames : list str)
  : list dict * option exn :=
  let (rows, e) := csv_reader linhas in
  (map (dict_of_row fieldnames) (filter row_nonempty rows), e).

(** ** Transaction extraction *)

Definition MAPEAMENTO_CAMPOS : list (campo * list str) :=
  [ (c_data, [u8 "data"; u8 "date"]);
    (c_descricao, [u8 "histórico"; u8 "historico"; u8 "descrição";
                   u8 "descricao"; u8 "description"; u8 "memo"]);
    (c_valor, [u8 "valor"; u8 "montante"; u8 "amount"; u8 "value"]);
    (c_id_transacao, [u8 "id"; u8 "id da transação"; u8 "id_da_transacao";
                      u8 "checknum"]);
    (c_bank_id, [u8 "banco"; u8 "bankid"; u8 "código do banco";
                 u8 "codigo_banco"]);
    (c_agencia, [u8 "agência"; u8 "agencia"]);
    (c_acct_id, [u8 "conta"; u8 "acctid"; u8 "número da conta";
                 u8 "numero_da_conta"; u8 "cartão"; u8 "cartao"]) ].

(** [MAPEAMENTO_CAMPOS[c]] *)
Fixpoint nomes_de (tabela : list (campo * list str)) (c : campo) : list str :=
  match tabela with
  | [] => []
  | (c', nomes) :: resto => if campo_eqb c' c then nomes else nomes_de resto c
  end.

(** [x in l] *)
Definition str_in (x : str) (l : list str) : bool := existsb (str_eqb x) l.

Fixpoint index_of (x : str) (l : list str) : option nat :=
  match l with
  | [] => None
  | y :: l' => if str_eqb y x then Some 0 else option_map S (index_of x l')
  end.

(** [l.index(x)] *)
Definition list_index (l : list str) (x : str) : res nat :=
  match index_of x l with
  | Some i => Ok i
  | None => Raise ValueError
  end.

(** [l[i]] for [i >= 0] *)
Definition list_item {A} (l : list A) (i : nat) : res A :=
  match nth_error l i with
  | Some v => Ok v
  | None => Raise IndexError
  end.

(** The resolved field map: semantic field to the header's own name. *)
Definition mapa := list (campo * str).

Fixpoint mapa_get (m : mapa) (c : campo) : option str :=
  match m with
  | [] => None
  | (c', nome) :: m' => if campo_eqb c' c then Some nome else mapa_get m' c
  end.

(** The inner loop over [possiveis_nomes]: the first candidate that is in
    the case-folded header gives the original name at its first index. *)
Fixpoint resolver_campo (cabecalho_original cabecalho_busca : list str)
  (possiveis_nomes : list str) : res (option str) :=
  match possiveis_nomes with
  | [] => Ok None
  | nome_candidato :: resto =>
    if str_in nome_candidato cabecalho_busca then
      index <- list_index cabecalho_busca nome_candidato ;;
      nome_original <- list_item cabecalho_original index ;;
      Ok (Some nome_original)
    else resolver_campo cabecalho_original cabecalho_busca resto
  end.

(** The outer loop over [MAPEAMENTO_CAMPOS.items()]. *)
Fixpoint construir_mapa (cabecalho_original cabecalho_busca : list str)
  (tabela : list (campo * list str)) : res mapa :=
  match tabela with
  | [] => Ok []
  | (campo_interno, possiveis_nomes) :: resto =>
    r <- resolver_campo cabecalho_original cabecalho_busca possiveis_nomes ;;
    m <- construir_mapa cabecalho_original cabecalho_busca resto ;;
    Ok match r with
       | Some nome_original => (campo_interno, nome_original) :: m
       | None => m
       end
  end.

Definition campos_obrigatorios : list campo := [c_data; c_descricao; c_valor].

(** The first mandatory field that is not in the map. *)
Fixpoint campo_ausente (m : mapa) (campos : list campo) : option campo :=
  match campos with
  | [] => None
  | c :: resto =>
    match mapa_get m c with
    | None => Some c
    | Some _ => campo_ausente m resto
    end
  end.

(** One of the three blocks that read the first data row: the column of
    the field, stripped; a row too short leaves the value absent. *)
Definition extrair_da_primeira_linha (m : mapa)
  (cabecalho_original primeira_linha_dados : list str) (c : campo)
  : res (option str) :=
  match mapa_get m c with
  | None => Ok None
  | Some nome =>
    index <- list_index cabecalho_original nome ;;
    match list_item primeira_linha_dados index with
    | Ok v => Ok (Some (strip v))
    | Raise e => if match e with IndexError => true | _ => false end
                 then Ok None else Raise e
    end
  end.

(** Truth value of a string or [None]. *)
Definition verdadeiro (o : option str) : bool :=
  match o with
  | Some (_ :: _) => true
  | _ => false
  end.

(** [bank_id_encontrado] and [acct_id_final]. *)
Definition extrair_conta (m : mapa) (cabecalho_original linhas_csv : list str)
  : res (option str * option str) :=
  match linhas_csv with
  | [] => Ok (None, None)
  | linha0 :: _ =>
    let primeira_linha_dados := split ch_semicolon linha0 in
    bank_id_encontrado <-
      extrair_da_primeira_linha m cabecalho_original primeira_linha_dados c_bank_id ;;
    agencia_encontrada <-
      extrair_da_primeira_linha m cabecalho_original primeira_linha_dados c_agencia ;;
    conta_encontrada <-
      extrair_da_primeira_linha m cabecalho_original primeira_linha_dados c_acct_id ;;
    let acct_id_final :=
      if verdadeiro agencia_encontrada && verdadeiro conta_encontrada then
        match agencia_encontrada, conta_encontrada with
        | Some a, Some c => Some (a ++ [ch_hyphen] ++ c)
        | _, _ => None
        end
      else if verdadeiro conta_encontrada then conta_encontrada
      else None in
    Ok (bank_id_encontrado, acct_id_final)
  end.

(** [m[c]] *)
Definition mapa_index (m : mapa) (c : campo) : res str :=
  match mapa_get m c with
  | Some nome => Ok nome
  | None => Raise KeyError
  end.

(** [v.strip()] on a cell of a row dictionary. *)
Definition valor_strip (v : valor_csv) : res str :=
  match v with
  | VStr s => Ok (strip s)
  | _ => Raise AttributeError
  end.

(** [' '.join(descricao.replace('*', ' ').split())] *)
Definition limpar_descricao (descricao : str) : str :=
  join [ch_space] (split_ws (replace ch_asterisk ch_space descricao)).

Definition credito : str := u8 "credito".

(** [linha.get(k, '')] *)
Definition dict_get_default (d : dict) (k : chave) : valor_csv :=
  match dict_get d k with
  | Some v => v
  | None => VStr []
  end.

Section Extractor.
Context `{PyLib}.

(** [datetime.strptime(v, '%d/%m/%Y')] on a cell. *)
Definition valor_strptime (v : valor_csv) : res (str * datetime) :=
  match v with
  | VStr s =>
    match strptime_dmY s with
    | Some d => Ok (s, d)
    | None => Raise ValueError
    end
  | _ => Raise TypeError
  end.

(** [float(v.replace(',', '.'))] on a cell. *)
Definition valor_float (v : valor_csv) : res (str * float) :=
  match v with
  | VStr s =>
    match float_of_str (replace ch_comma ch_dot s) with
    | Some x => Ok (s, x)
    | None => Raise ValueError
    end
  | _ => Raise AttributeError
  end.

(** The text hashed for the identifier of row [i]. *)
Definition texto_fitid (data_str descricao valor_str : str) (i : nat) : str :=
  data_str ++ descricao ++ valor_str ++ str_of_nat i.

(** The body of the [try] for row [i]. *)
Definition processar_linha (m : mapa) (tipo_conta : str) (i : nat)
  (linha : dict) : res transacao :=
  k_data <- mapa_index m c_data ;;
  data_v <- dict_index linha (Some k_data) ;;
  k_descricao <- mapa_index m c_descricao ;;
  descricao_v <- dict_index linha (Some k_descricao) ;;
  descricao <- valor_strip descricao_v ;;
  k_valor <- mapa_index m c_valor ;;
  valor_v <- dict_index linha (Some k_valor) ;;
  let id_transacao := dict_get_default linha (mapa_get m c_id_transacao) in
  let descricao_limpa := limpar_descricao descricao in
  dd <- valor_strptime data_v ;;
  let (data_str, data_obj) := dd : str * datetime in
  vv <- valor_float valor_v ;;
  let (valor_str, valor_lido) := vv : str * float in
  let valor_final :=
    if str_eqb tipo_conta credito then float_neg valor_lido else valor_lido in
  let fitid_hash :=
    md5_hexdigest (utf8_encode (texto_fitid data_str descricao valor_str i)) in
  Ok (mk_transacao data_obj descricao_limpa valor_final id_transacao fitid_hash).

(** The loop over [enumerate(leitor_csv)] from index [i] on: the
    transactions appended, in row order, and the warnings printed; an
    exception the [except] clause does not name ends the loop. *)
Fixpoint processar_linhas (m : mapa) (tipo_conta : str) (i : nat)
  (linhas : list dict) : list diag * res (list transacao) :=
  match linhas with
  | [] => ([], Ok [])
  | linha :: resto =>
    match processar_linha m tipo_conta i linha with
    | Ok t =>
      let (avisos, r) := processar_linhas m tipo_conta (S i) resto in
      (avisos, ts <- r ;; Ok (t :: ts))
    | Raise e =>
      if capturada_na_linha e then
        let (avisos, r) := processar_linhas m tipo_conta (S i) resto in
        (AvisoLinhaIgnorada linha e :: avisos, r)
      else ([], Raise e)
    end
  end.

(** [l.sort(key=...)]: the sort is stable and compares keys with [<]; on a
    total order the stable sorted arrangement is unique, and insertion from
    the right computes it. *)
Fixpoint inserir (t : transacao) (l : list transacao) : list transacao :=
  match l with
  | [] => [t]
  | y :: l' =>
    if datetime_ltb (data y) (data t) then y :: inserir t l' else t :: l
  end.

Fixpoint ordenar_por_data (l : list transacao) : list transacao :=
  match l with
  | [] => []
  | t :: l' => inserir t (ordenar_por_data l')
  end.

(** The rows read and the transactions collected before the sort. *)
Definition coletar_transacoes (m : mapa) (cabecalho_original : list str)
  (linhas_csv : list str) (tipo_conta : str)
  : list diag * res (list transacao) :=
  let (linhas, erro) := DictReader linhas_csv cabecalho_original in
  let (avisos, r) := processar_linhas m tipo_conta 0 linhas in
  (avisos, transacoes <- r ;;
           match erro with
           | Some e => Raise e
           | None => Ok transacoes
           end).

(** [[h.strip() for h in cabecalho_str.split(';')]] *)
Definition cabecalho_original (cabecalho_str : str) : list str :=
  map strip (split ch_semicolon cabecalho_str).

(** [[h.lower() for h in cabecalho_original]] *)
Definition cabecalho_busca (cabecalho_str : str) : list str :=
  map lower (cabecalho_original cabecalho_str).

Definition mapa_final (cabecalho_str : str) : res mapa :=
  construir_mapa (cabecalho_original cabecalho_str)
    (cabecalho_busca cabecalho_str) MAPEAMENTO_CAMPOS.

Definition analisar_transacoes (cabecalho_str : str) (linhas_csv : list str)
  (tipo_conta : str)
  : list diag * res (list transacao * option str * option str) :=
  match mapa_final cabecalho_str with
  | Raise e => ([], Raise e)
  | Ok m =>
    match campo_ausente m campos_obrigatorios with
    | Some c =>
      ([ErroColunaNaoEncontrada c;
        ErroOpcoesAceitas c (nomes_de MAPEAMENTO_CAMPOS c)],
       Ok ([], None, None))
    | None =>
      match extrair_conta m (cabecalho_original cabecalho_str) linhas_csv with
      | Raise e => ([], Raise e)
      | Ok (bank_id_encontrado, acct_id_final) =>
        let (avisos, r) :=
          coletar_transacoes m (cabecalho_original cabecalho_str) linhas_csv
            tipo_conta in
        (avisos, transacoes <- r ;;
                 Ok (ordenar_por_data transacoes, bank_id_encontrado, acct_id_final))
      end
    end
  end.

End Extractor.

(** ** Document generation *)

Definition nl : str := [10%N].

(** The lines of a template, joined by line feeds. *)
Definition texto (linhas : list str) : str := join nl linhas.

(** What [str.format] writes for a value of a row dictionary. *)
Definition formatar_valor `{PyLib} (v : valor_csv) : str :=
  match v with
  | VStr s => s
  | VNone => u8 "None"
  | VLista l => repr_lista l
  end.

Definition template_conta_header_credito (acct_id_final : str) : str :=
  texto [ u8 "  <CREDITCARDMSGSRSV1>";
          u8 "    <CCSTMTTRNRS>";
          u8 "      <TRNUID>1</TRNUID>";
          u8 "      <STATUS>";
          u8 "        <CODE>0</CODE>";
          u8 "        <SEVERITY>INFO</SEVERITY>";
          u8 "      </STATUS>";
          u8 "      <CCSTMTRS>";
          u8 "        <CURDEF>BRL</CURDEF>";
          u8 "        <CCACCTFROM>";
          u8 "          <ACCTID>" ++ acct_id_final ++ u8 "</ACCTID>";
          u8 "        </CCACCTFROM>" ].

Definition template_conta_footer_credito : str :=
  texto [ u8 "      </CCSTMTRS>";
          u8 "    </CCSTMTTRNRS>";
          u8 "  </CREDITCARDMSGSRSV1>" ].

Definition template_conta_header_banco (bank_id_final acct_id_final : str) : str :=
  texto [ u8 "  <BANKMSGSRSV1>";
          u8 "    <STMTTRNRS>";
          u8 "      <TRNUID>1</TRNUID>";
          u8 "      <STATUS>";
          u8 "        <CODE>0</CODE>";
          u8 "        <SEVERITY>INFO</SEVERITY>";
          u8 "      </STATUS>";
          u8 "      <STMTRS>";
          u8 "        <CURDEF>BRL</CURDEF>";
          u8 "        <BANKACCTFROM>";
          u8 "          <BANKID>" ++ bank_id_final ++ u8 "</BANKID>";
          u8 "          <ACCTID>" ++ acct_id_final ++ u8 "</ACCTID>";
          u8 "          <ACCTTYPE>CHECKING</ACCTTYPE>";
          u8 "        </BANKACCTFROM>" ].

Definition template_conta_footer_banco : str :=
  texto [ u8 "      </STMTRS>";
          u8 "    </STMTTRNRS>";
          u8 "  </BANKMSGSRSV1>" ].

Definition template_cabecalho_geral (data_servidor : str) : str :=
  texto [ u8 "OFXHEADER:100";
          u8 "DATA:OFXSGML";
          u8 "VERSION:102";
          u8 "SECURITY:NONE";
          u8 "ENCODING:USASCII";
          u8 "CHARSET:1252";
          u8 "COMPRESSION:NONE";
          u8 "OLDFILEUID:NONE";
          u8 "NEWFILEUID:NONE";
          [];
          u8 "<OFX>";
          u8 "  <SIGNONMSGSRSV1>";
          u8 "    <SONRS>";
          u8 "      <STATUS>";
          u8 "        <CODE>0</CODE>";
          u8 "        <SEVERITY>INFO</SEVERITY>";
          u8 "      </STATUS>";
          u8 "      <DTSERVER>" ++ data_servidor ++ u8 "</DTSERVER>";
          u8 "      <LANGUAGE>POR</LANGUAGE>";
          u8 "    </SONRS>";
          u8 "  </SIGNONMSGSRSV1>";
          [] ].

Definition template_transacao (trntype dtposted trnamt fitid checknum memo : str)
  : str :=
  texto [ u8 "          <STMTTRN>";
          u8 "            <TRNTYPE>" ++ trntype ++ u8 "</TRNTYPE>";
          u8 "            <DTPOSTED>" ++ dtposted ++ u8 "</DTPOSTED>";
          u8 "            <TRNAMT>" ++ trnamt ++ u8 "</TRNAMT>";
          u8 "            <FITID>" ++ fitid ++ u8 "</FITID>";
          u8 "            <CHECKNUM>" ++ checknum ++ u8 "</CHECKNUM>";
          u8 "            <MEMO>" ++ memo ++ u8 "</MEMO>";
          u8 "          </STMTTRN>";
          [] ].

Definition template_rodape_geral (data_fim template_conta_footer : str) : str :=
  texto [ u8 "        <LEDGERBAL>";
          u8 "          <BALAMT>0.00</BALAMT>";
          u8 "          <DTASOF>" ++ data_fim ++ u8 "</DTASOF>";
          u8 "        </LEDGERBAL>";
          template_conta_footer;
          u8 "</OFX>";
          [] ].

Definition template_lista_transacoes (data_inicio data_fim : str) : str :=
  texto [ u8 "        <BANKTRANLIST>";
          u8 "          <DTSTART>" ++ data_inicio ++ u8 "</DTSTART>";
          u8 "          <DTEND>" ++ data_fim ++ u8 "</DTEND>";
          [] ].

(** [x if x is not None else d] *)
Definition ou_padrao (x : option str) (d : str) : str :=
  match x with
  | Some v => v
  | None => d
  end.

Section Generator.
Context `{PyLib}.

(** ["CREDIT" if t['valor'] > 0 else "DEBIT"] *)
Definition tipo_transacao (t : transacao) : str :=
  if float_gt0 (valor t) then u8 "CREDIT" else u8 "DEBIT".

(** The block written for one transaction. *)
Definition bloco_transacao (t : transacao) : str :=
  let valor_ofx := replace ch_dot ch_comma (format_2f (valor t)) in
  let data_transacao := strftime_Ymd (data t) in
  template_transacao (tipo_transacao t) data_transacao valor_ofx (fitid t)
    (formatar_valor (id_transacao t)) (descricao t).

(** The result is the text handed to [f.write], or nothing when no file is
    written; the file layer then turns line feeds into CR LF pairs and
    encodes the text as cp1252, which fails on a character that code page
    lacks. *)
Definition gerar_ofx (transacoes : list transacao) (tipo_conta : str)
  (bank_id acct_id : option str) : list diag * option str :=
  match transacoes with
  | [] => ([NenhumaTransacao], None)
  | t0 :: _ =>
    let data_inicio := strftime_Ymd (data t0) in
    let data_fim := strftime_Ymd (data (last transacoes t0)) in
    let data_servidor := strftime_Ymd (data (last transacoes t0)) in
    let (template_conta_header, template_conta_footer) :=
      if str_eqb tipo_conta credito then
        let acct_id_final := ou_padrao acct_id (u8 "XXXX-CARTAO-NAO-DEFINIDO") in
        (template_conta_header_credito acct_id_final,
         template_conta_footer_credito)
      else
        let bank_id_final := ou_padrao bank_id (u8 "000") in
        let acct_id_final := ou_padrao acct_id (u8 "XXXX-CONTA-NAO-DEFINIDA") in
        (template_conta_header_banco bank_id_final acct_id_final,
         template_conta_footer_banco) in
    ([ArquivoGerado (length transacoes)],
     Some (template_cabecalho_geral data_servidor
           ++ template_conta_header
           ++ template_lista_transacoes data_inicio data_fim
           ++ concat (map bloco_transacao transacoes)
           ++ u8 "        </BANKTRANLIST>" ++ nl
           ++ template_rodape_geral data_fim template_conta_footer))
  end.

(** Truth value of the pair the preprocessor returns, as the main block
    tests it: [cabecalho and linhas_processadas]. *)
Definition cabecalho_e_linhas (c : option str) (l : option (list str))
  : option (str * list str) :=
  match c, l with
  | Some (x :: c'), Some (y :: l') => Some (x :: c', y :: l')
  | _, _ => None
  end.

(** The main block from the call of the preprocessor on: the diagnostics
    printed and the document written, if one is. *)
Definition converter (arquivo : res (list str)) (tipo_conta : str)
  : list diag * res (option str) :=
  let (d1, r1) := preprocessar_csv_corrigindo_linhas arquivo in
  match r1 with
  | Raise e => (d1, Raise e)
  | Ok (cabecalho, linhas_processadas) =>
    match cabecalho_e_linhas cabecalho linhas_processadas with
    | None => (d1 ++ [ProcessoFinalizado], Ok None)
    | Some (cab, linhas) =>
      let (d2, r2) := analisar_transacoes cab linhas tipo_conta in
      match r2 with
      | Raise e => (d1 ++ d2, Raise e)
      | Ok (lista_transacoes, bank_id, acct_id) =>
        let (d3, doc) := gerar_ofx lista_transacoes tipo_conta bank_id acct_id in
        (d1 ++ d2 ++ d3 ++ [ProcessoFinalizado], Ok doc)
      end
    end
  end.

End Generator.

(** ** Predicates of the statements *)

(** An accepted line: at least two delimiters. *)
Definition aceita (l : str) : Prop := 2 <= count ch_semicolon l.

(** The first candidate spelling that the case-folded header contains. *)
Definition primeiro_presente (busca nomes : list str) : option str :=
  find (fun n => str_in n busca) nomes.

(** The case-folded name each field resolves to, entry by entry of the
    table. *)
Fixpoint resolvido (busca : list str) (tabela : list (campo * list str))
  (c : campo) : option str :=
  match tabela with
  | [] => None
  | (c', nomes) :: resto =>
    match primeiro_presente busca nomes with
    | Some n => if campo_eqb c' c then Some n else resolvido busca resto c
    | None => resolvido busca resto c
    end
  end.

(** The cells of a row under the columns the three mandatory fields
    resolve to. *)
Definition celulas (m : mapa) (linha : dict) (data_str desc valor_str : str)
  : Prop :=
  exists k_data k_descricao k_valor,
    mapa_get m c_data = Some k_data /\
    dict_get linha (Some k_data) = Some (VStr data_str) /\
    mapa_get m c_descricao = Some k_descricao /\
    dict_get linha (Some k_descricao) = Some (VStr desc) /\
    mapa_get m c_valor = Some k_valor /\
    dict_get linha (Some k_valor) = Some (VStr valor_str).

(** Equal dates. *)
Definition datetime_eqb (a b : datetime) : bool :=
  ((ano a =? ano b) && (mes a =? mes b) && (dia a =? dia b))%N.

(** [a <= b] on dates, as the sort sees it: not [b < a]. *)
Definition data_le (x y : transacao) : Prop :=
  datetime_ltb (data y) (data x) = false.

(** A text in which the only whitespace is single spaces between words. *)
Definition palavra (w : str) : Prop :=
  w <> [] /\ Forall (fun c => isspace c = false) w.

(** No two whitespace characters next to each other. *)
Fixpoint espacos_simples (s : str) : bool :=
  match s with
  | [] => true
  | c1 :: r =>
    match r with
    | [] => true
    | c2 :: _ => negb (isspace c1 && isspace c2) && espacos_simples r
    end
  end.

(** A data line the repair loop keeps as a line of its own: not blank once
    trimmed, and with at least two delimiters. *)
Definition linha_aceita (linha : str) : bool :=
  match strip linha with
  | [] => false
  | _ :: _ => negb (Nat.ltb (count ch_semicolon (strip linha)) 2)
  end.

(** A data line that is blank once trimmed. *)
Definition linha_em_branco (linha : str) : bool :=
  match strip linha with
  | [] => true
  | _ :: _ => false
  end.

(** A text with nothing to trim: neither its first nor its last character
    is whitespace. *)
Definition bordas_ok (s : str) : Prop :=
  match s with
  | [] => True
  | c :: _ => isspace c = false
  end /\
  match rev s with
  | [] => True
  | d :: _ => isspace d = false
  end.

(** A character that the csv reader takes as it is: not the quote
    character, not a line break. *)
Definition char_simples (c : char) : Prop :=
  c <> ch_quote /\ c <> 10%N /\ c <> 13%N.

(** A data line without quoting: not empty, of such characters only, and
    shorter than the reader's field limit. *)
Definition linha_simples (l : str) : Prop :=
  l <> [] /\ Forall char_simples l /\
  (N.of_nat (List.length l) < field_limit)%N.

(** The same, decided. *)
Definition linha_simplesb (l : str) : bool :=
  negb (match l with [] => true | _ :: _ => false end)
  && forallb (fun c => negb (c =? ch_quote)%N && negb (c =? 10)%N
                       && negb (c =? 13)%N) l
  && (N.of_nat (List.length l) <? field_limit)%N.

(** The message that a document was written. *)
Definition relata_arquivo (a : diag) : bool :=
  match a with
  | ArquivoGerado _ => true
  | _ => false
  end.


(** ** Sample data *)

(** The map of the header [Data;Histórico;Valor] and a row under it. *)
Definition mapa_exemplo : mapa :=
  [(c_data, u8 "Data"); (c_descricao, u8 "Histórico"); (c_valor, u8 "Valor")].


Definition linha_exemplo : dict :=
  dict_of_row [u8 "Data"; u8 "Histórico"; u8 "Valor"]
    [u8 "01/03/2024"; u8 "Compra Loja X"; u8 "150,00"].

(** ** The specification's wording, where it differs from the code *)

(** The repair of a broken line as the specification words it: the whole
    content of the broken line goes to the second-to-last field of the
    previous accepted line. *)
Definition reparo_spec (anterior linha_limpa : str) : res str :=
  let partes := split ch_semicolon anterior in
  p <- penultimo partes ;;
  partes' <- set_penultimo partes (p ++ [ch_space] ++ linha_limpa) ;;
  Ok (join [ch_semicolon] partes').

(** The stored description as the specification words it: asterisks
    removed, whitespace runs collapsed to single spaces, ends trimmed. *)
Definition limpar_descricao_spec (descricao : str) : str :=
  join [ch_space]
    (split_ws (filter (fun c => negb (char_eqb c ch_asterisk)) descricao)).

(** ** Reference library

    An executable instance of [PyLib], on which the program is evaluated:
    MD5 as RFC 1321 defines it, and the other functions on ASCII digits and
    Latin-1 letters. *)

Module Ref.

Local Open Scope N_scope.

Definition mask32 : N := 0xffffffff.

Definition add32 (a b : N) : N := N.land (a + b) mask32.

Definition rotl32 (x : N) (c : N) : N :=
  N.land (N.lor (N.shiftl x c) (N.shiftr x (32 - c))) mask32.

Definition not32 (x : N) : N := N.lxor x mask32.

Definition md5_K : list N :=
  [
    0xd76aa478; 0xe8c7b756; 0x242070db; 0xc1bdceee;
    0xf57c0faf; 0x4787c62a; 0xa8304613; 0xfd469501;
    0x698098d8; 0x8b44f7af; 0xffff5bb1; 0x895cd7be;
    0x6b901122; 0xfd987193; 0xa679438e; 0x49b40821;
    0xf61e2562; 0xc040b340; 0x265e5a51; 0xe9b6c7aa;
    0xd62f105d; 0x02441453; 0xd8a1e681; 0xe7d3fbc8;
    0x21e1cde6; 0xc33707d6; 0xf4d50d87; 0x455a14ed;
    0xa9e3e905; 0xfcefa3f8; 0x676f02d9; 0x8d2a4c8a;
    0xfffa3942; 0x8771f681; 0x6d9d6122; 0xfde5380c;
    0xa4beea44; 0x4bdecfa9; 0xf6bb4b60; 0xbebfbc70;
    0x289b7ec6; 0xeaa127fa; 0xd4ef3085; 0x04881d05;
    0xd9d4d039; 0xe6db99e5; 0x1fa27cf8; 0xc4ac5665;
    0xf4292244; 0x432aff97; 0xab9423a7; 0xfc93a039;
    0x655b59c3; 0x8f0ccc92; 0xffeff47d; 0x85845dd1;
    0x6fa87e4f; 0xfe2ce6e0; 0xa3014314; 0x4e0811a1;
    0xf7537e82; 0xbd3af235; 0x2ad7d2bb; 0xeb86d391 ].

Definition md5_s : list N :=
  [ 7; 12; 17; 22; 7; 12; 17; 22; 7; 12; 17; 22; 7; 12; 17; 22;
    5; 9; 14; 20; 5; 9; 14; 20; 5; 9; 14; 20; 5; 9; 14; 20;
    4; 11; 16; 23; 4; 11; 16; 23; 4; 11; 16; 23; 4; 11; 16; 23;
    6; 10; 15; 21; 6; 10; 15; 21; 6; 10; 15; 21; 6; 10; 15; 21 ].

(** Little-endian words of a block of bytes. *)
Fixpoint words_le (bs : list N) : list N :=
  match bs with
  | b0 :: b1 :: b2 :: b3 :: r =>
    (b0 + N.shiftl b1 8 + N.shiftl b2 16 + N.shiftl b3 24) :: words_le r
  | _ => []
  end.

Definition bytes_le (n : nat) (x : N) : list N :=
  map (fun i => N.land (N.shiftr x (8 * N.of_nat i)) 255) (seq 0 n).

Definition md5_pad (msg : list N) : list N :=
  let len := N.of_nat (List.length msg) in
  let zeros := (119 - len mod 64) mod 64 in
  msg ++ [128] ++ repeat 0 (N.to_nat zeros) ++ bytes_le 8 (N.land (8 * len) 0xffffffffffffffff).

Definition md5_round (M : list N) (st : N * N * N * N) (i : nat)
  : N * N * N * N :=
  let '(A, B, C, D) := st in
  let i' := N.of_nat i in
  let '(F, g) :=
    if i' <? 16 then (N.lor (N.land B C) (N.land (not32 B) D), i')
    else if i' <? 32 then
      (N.lor (N.land D B) (N.land (not32 D) C), (5 * i' + 1) mod 16)
    else if i' <? 48 then (N.lxor B (N.lxor C D), (3 * i' + 5) mod 16)
    else (N.lxor C (N.lor B (not32 D)), (7 * i') mod 16) in
  let F' := add32 (add32 (add32 F A) (nth i md5_K 0)) (nth (N.to_nat g) M 0) in
  (D, add32 B (rotl32 F' (nth i md5_s 0)), B, C).

Definition md5_block (st : N * N * N * N) (M : list N) : N * N * N * N :=
  let '(a0, b0, c0, d0) := st in
  let '(A, B, C, D) := fold_left (md5_round M) (seq 0 64) st in
  (add32 a0 A, add32 b0 B, add32 c0 C, add32 d0 D).

Fixpoint blocks (n : nat) (ws : list N) : list (list N) :=
  match n with
  | O => []
  | S n' => firstn 16 ws :: blocks n' (skipn 16 ws)
  end.

Definition hex_digit (x : N) : N := if x <? 10 then 48 + x else 87 + x.

Definition hex_byte (b : N) : str := [hex_digit (b / 16); hex_digit (b mod 16)].

Definition md5 (msg : list N) : str :=
  let ws := words_le (md5_pad msg) in
  let '(a, b, c, d) :=
    fold_left md5_block (blocks (List.length ws / 16) ws)
      (0x67452301, 0xefcdab89, 0x98badcfe, 0x10325476) in
  flat_map hex_byte (bytes_le 4 a ++ bytes_le 4 b ++ bytes_le 4 c ++ bytes_le 4 d).

(** [str.lower] on the letters of ASCII and Latin-1. *)
Definition lower_char (c : char) : char :=
  if (65 <=? c) && (c <=? 90) || (192 <=? c) && (c <=? 222) && negb (c =? 215)
  then c + 32 else c.

Definition lower (s : str) : str := map lower_char s.

Definition is_digit (c : char) : bool := (48 <=? c) && (c <=? 57).

Definition digit_in (lo hi : N) (c : char) : bool := (48 + lo <=? c) && (c <=? 48 + hi).

Definition valor_digitos (ds : str) : N :=
  fold_left (fun a c => 10 * a + (c - 48)) ds 0.

(** The field of a date pattern: what [%d], [%m] and [%Y] accept. *)
Definition campo_dia (s : str) : bool :=
  match s with
  | [a] => digit_in 1 9 a
  | [a; b] =>
    (a =? 51) && digit_in 0 1 b || digit_in 1 2 a && is_digit b
    || (a =? 48) && digit_in 1 9 b || (a =? 32) && digit_in 1 9 b
  | _ => false
  end.

Definition campo_mes (s : str) : bool :=
  match s with
  | [a] => digit_in 1 9 a
  | [a; b] => (a =? 49) && digit_in 0 2 b || (a =? 48) && digit_in 1 9 b
  | _ => false
  end.

Definition campo_ano (s : str) : bool :=
  match s with
  | [a; b; c; d] => is_digit a && is_digit b && is_digit c && is_digit d
  | _ => false
  end.

Definition bissexto (y : N) : bool :=
  (y mod 4 =? 0) && (negb (y mod 100 =? 0) || (y mod 400 =? 0)).

Definition dias_no_mes (y m : N) : N :=
  if m =? 2 then (if bissexto y then 29 else 28)
  else if (m =? 4) || (m =? 6) || (m =? 9) || (m =? 11) then 30
  else 31.

(** [datetime.strptime(s, '%d/%m/%Y')] *)
Definition strptime_dmY (s : str) : option datetime :=
  match split 47 s with
  | [d; m; y] =>
    if campo_dia d && campo_mes m && campo_ano y then
      let d' := valor_digitos (lstrip d) in
      let m' := valor_digitos m in
      let y' := valor_digitos y in
      if (1 <=? y') && (d' <=? dias_no_mes y' m')
      then Some (mk_datetime y' m' d') else None
    else None
  | _ => None
  end.

(** Underscores of a numeric literal: allowed between digits only. *)
Fixpoint sem_sublinhados (prev : char) (s : str) : option str :=
  match s with
  | [] => if prev =? 95 then None else Some []
  | c :: r =>
    if c =? 95 then
      if is_digit prev then sem_sublinhados c r else None
    else if (prev =? 95) && negb (is_digit c) then None
    else option_map (cons c) (sem_sublinhados c r)
  end.

Fixpoint span_digits (s : str) : str * str :=
  match s with
  | c :: r =>
    if is_digit c then let (a, b) := span_digits r in (c :: a, b) else ([], s)
  | [] => ([], [])
  end.

Definition parse_sign (s : str) : bool * str :=
  match s with
  | 45 :: r => (true, r)
  | 43 :: r => (false, r)
  | _ => (false, s)
  end.

Definition is_nil {A} (l : list A) : bool :=
  match l with
  | [] => true
  | _ :: _ => false
  end.

(** The binary64 nearest to [(-1)^neg * D * 10^e10], ties to even. *)
Definition decimal_to_float (neg : bool) (D : N) (e10 : Z) : float :=
  match D with
  | N0 => S754_zero neg
  | Npos p =>
    if (0 <=? e10)%Z then
      match (Zpos p * 10 ^ e10)%Z with
      | Zpos m => binary_round 53 1024 neg m 0
      | _ => S754_zero neg
      end
    else
      let d := (10 ^ (- e10))%Z in
      let s := Z.max 0 (Z.log2 d - Z.log2 (Zpos p) + 64) in
      let n := (Zpos p * 2 ^ s)%Z in
      match (2 * (n / d) + (if (n mod d =? 0)%Z then 0 else 1))%Z with
      | Zpos m => binary_round 53 1024 neg m (- s - 1)
      | _ => S754_zero neg
      end
  end.

(** The exponent part of a numeric literal, or the end of the text. *)
Definition parse_exponent (s : str) : option Z :=
  match s with
  | [] => Some 0%Z
  | c :: r =>
    if (c =? 101) || (c =? 69) then
      let (eneg, r1) := parse_sign r in
      let (ed, r2) := span_digits r1 in
      if is_nil ed || negb (is_nil r2) then None
      else Some (if eneg then - Z.of_N (valor_digitos ed)
                 else Z.of_N (valor_digitos ed))%Z
    else None
  end.

(** [float(s)] *)
Definition float_of_str (s0 : str) : option float :=
  match sem_sublinhados 0 (strip s0) with
  | None => None
  | Some s =>
    let (neg, s1) := parse_sign s in
    let low := lower s1 in
    if str_eqb low (u8 "inf") || str_eqb low (u8 "infinity")
    then Some (S754_infinity neg)
    else if str_eqb low (u8 "nan") then Some S754_nan
    else
      let (ip, r1) := span_digits s1 in
      let (fp, r2) := match r1 with
                      | 46 :: r => span_digits r
                      | _ => ([], r1)
                      end in
      if is_nil ip && is_nil fp then None
      else match parse_exponent r2 with
           | None => None
           | Some e =>
             Some (decimal_to_float neg (valor_digitos (ip ++ fp))
                     (e - Z.of_nat (List.length fp)))
           end
  end.

Definition str_of_N (n : N) : str := digits_aux (S (N.to_nat (N.size n))) n [].

Definition zero_pad (w : nat) (s : str) : str :=
  repeat 48 (w - List.length s) ++ s.

(** The integer nearest to [100 * m * 2^e], ties to even. *)
Definition centesimos (m : positive) (e : Z) : N :=
  let n := (100 * Zpos m)%Z in
  if (0 <=? e)%Z then Z.to_N (n * 2 ^ e)
  else
    let d := (2 ^ (- e))%Z in
    let q := (n / d)%Z in
    let r := (n mod d)%Z in
    Z.to_N (match (2 * r ?= d)%Z with
            | Lt => q
            | Eq => if Z.even q then q else q + 1
            | Gt => q + 1
            end)%Z.

Definition com_sinal (neg : bool) (s : str) : str :=
  if neg then 45 :: s else s.

(** [f"{x:.2f}"] *)
Definition format_2f (x : float) : str :=
  match x with
  | S754_nan => u8 "nan"
  | S754_infinity neg => com_sinal neg (u8 "inf")
  | S754_zero neg => com_sinal neg (u8 "0.00")
  | S754_finite neg m e =>
    let c := centesimos m e in
    com_sinal neg (str_of_N (c / 100) ++ [46] ++ zero_pad 2 (str_of_N (c mod 100)))
  end.

(** [str(l)] for strings that [repr] writes between single quotes
    unchanged. *)
Definition repr_lista (l : list str) : str :=
  [91] ++ join (u8 ", ") (map (fun s => [39] ++ s ++ [39]) l) ++ [93].

(** [d.strftime('%Y%m%d')], the year on four digits. *)
Definition strftime_Ymd (d : datetime) : str :=
  zero_pad 4 (str_of_N (ano d)) ++ zero_pad 2 (str_of_N (mes d))
  ++ zero_pad 2 (str_of_N (dia d)).

End Ref.

#[global] Instance ref_lib : PyLib := {
  lower := Ref.lower;
  strptime_dmY := Ref.strptime_dmY;
  float_of_str := Ref.float_of_str;
  md5_hexdigest := Ref.md5;
  format_2f := Ref.format_2f;
  repr_lista := Ref.repr_lista;
  strftime_Ymd := Ref.strftime_Ymd
}.

(** ** A file of identical rows *)

(** All the texts of a given length over an alphabet. *)
Fixpoint textos_de (alfabeto : list char) (n : nat) : list str :=
  match n with
  | O => [[]]
  | S n' => flat_map (fun c => map (cons c) (textos_de alfabeto n')) alfabeto
  end.

(** The sixteen characters a digest is written with. *)
Definition alfabeto_hex : list char :=
  map Ref.hex_digit (map N.of_nat (seq 0 16)).

(** The data line of the sample row, and the transaction it gives at
    position [k] of a bank statement. *)
Definition linha_csv_exemplo : str := u8 "01/03/2024;Compra Loja X;150,00".

Definition transacao_exemplo (k : nat) : transacao :=
  mk_transacao (mk_datetime 2024 3 1) (u8 "Compra Loja X")
    (S754_finite false 5277655813324800 (-45)) (VStr [])
    (md5_hexdigest
       (utf8_encode
          (texto_fitid (u8 "01/03/2024") (u8 "Compra Loja X") (u8 "150,00") k))).

(** * Properties *)

(** ** Strings and lists *)

Lemma char_eqb_eq (a b : char) : char_eqb a b = true <-> a = b.
Proof. apply N.eqb_eq. Qed.

Lemma char_eqb_refl (a : char) : char_eqb a a = true.
Proof. apply N.eqb_refl. Qed.

Lemma str_eqb_eq (a b : str) : str_eqb a b = true <-> a = b.
Proof.
  revert b; induction a as [|x a IH]; intros [|y b]; simpl;
    try (split; [discriminate | discriminate]); [tauto|].
  rewrite andb_true_iff, char_eqb_eq, IH.
  split; [intros [-> ->]; reflexivity | intros E; inversion E; auto].
Qed.

Lemma str_eqb_refl (a : str) : str_eqb a a = true.
Proof. apply str_eqb_eq; reflexivity. Qed.

Lemma str_eqb_neq (a b : str) : str_eqb a b = false <-> a <> b.
Proof.
  rewrite <- str_eqb_eq. destruct (str_eqb a b); split; congruence.
Qed.

Lemma split_not_nil (c : char) (s : str) : split c s <> [].
Proof.
  destruct s as [|x s]; simpl; [discriminate|].
  destruct (char_eqb x c); [discriminate|].
  destruct (split c s); discriminate.
Qed.

Lemma split_length (c : char) (s : str) :
  List.length (split c s) = S (count c s).
Proof.
  induction s as [|x s IH]; simpl; [reflexivity|].
  destruct (char_eqb x c); simpl; [now rewrite IH|].
  destruct (split c s) eqn:E; simpl in *; [discriminate | assumption].
Qed.

Lemma split_count (c : char) (s : str) :
  Forall (fun p => count c p = 0) (split c s).
Proof.
  induction s as [|x s IH]; simpl.
  - constructor; [reflexivity | constructor].
  - destruct (char_eqb x c) eqn:E.
    + constructor; [reflexivity | assumption].
    + destruct (split c s) as [|p ps].
      * constructor; [simpl; now rewrite E | constructor].
      * inversion IH; subst. constructor; [simpl; now rewrite E | assumption].
Qed.

Lemma join_cons (sep p : str) (ps : list str) :
  ps <> [] -> join sep (p :: ps) = p ++ sep ++ join sep ps.
Proof. destruct ps; [congruence | reflexivity]. Qed.

Lemma join_split (c : char) (s : str) : join [c] (split c s) = s.
Proof.
  induction s as [|x s IH]; simpl; [reflexivity|].
  destruct (char_eqb x c) eqn:E.
  - apply char_eqb_eq in E; subst x.
    rewrite join_cons by apply split_not_nil. now rewrite IH.
  - destruct (split c s) as [|p ps] eqn:Es; [now destruct (split_not_nil _ _ Es)|].
    destruct ps as [|q qs]; simpl in *; now rewrite <- IH.
Qed.

Lemma count_app (c : char) (a b : str) :
  count c (a ++ b) = count c a + count c b.
Proof. induction a as [|x a IH]; simpl; [reflexivity | rewrite IH; lia]. Qed.

Lemma count_join_ge (c : char) (ps : list str) :
  pred (List.length ps) <= count c (join [c] ps).
Proof.
  induction ps as [|p ps IH]; simpl; [lia|].
  destruct ps as [|q qs]; [simpl; lia|].
  rewrite !count_app. simpl count at 2. rewrite char_eqb_refl.
  simpl in *. lia.
Qed.

Lemma hd_split_count (c : char) (s : str) : count c (hd [] (split c s)) = 0.
Proof.
  pose proof (split_count c s) as F.
  destruct (split c s); [reflexivity | now inversion F].
Qed.

Lemma split_count_zero (c : char) (s : str) :
  count c s = 0 -> split c s = [s].
Proof.
  induction s as [|x s IH]; simpl; [reflexivity|].
  destruct (char_eqb x c); [discriminate|].
  intros E. now rewrite IH.
Qed.

Lemma ultimo_app {A} (l : list A) (x : A) : ultimo (l ++ [x]) = Ok x.
Proof. unfold ultimo. now rewrite rev_app_distr. Qed.

Lemma set_ultimo_app {A} (l : list A) (x v : A) :
  set_ultimo (l ++ [x]) v = Ok (l ++ [v]).
Proof.
  unfold set_ultimo. rewrite rev_app_distr. simpl. now rewrite rev_involutive.
Qed.

Lemma penultimo_app {A} (l : list A) (p z : A) :
  penultimo (l ++ [p; z]) = Ok p.
Proof. unfold penultimo. now rewrite rev_app_distr. Qed.

Lemma set_penultimo_app {A} (l : list A) (p z v : A) :
  set_penultimo (l ++ [p; z]) v = Ok (l ++ [v; z]).
Proof.
  unfold set_penultimo. rewrite rev_app_distr. simpl.
  rewrite rev_involutive, <- !app_assoc. reflexivity.
Qed.

Lemma two_last {A} (l : list A) :
  2 <= List.length l -> exists l' p z, l = l' ++ [p; z].
Proof.
  intros L. rewrite <- (rev_involutive l), length_rev in *.
  destruct (rev l) as [|z [|p r]]; simpl in L; try lia.
  exists (rev r), p, z. simpl. now rewrite <- app_assoc.
Qed.

Lemma one_last {A} (l : list A) : l <> [] -> exists l' x, l = l' ++ [x].
Proof.
  intros N. destruct (exists_last N) as [l' [x E]]. now exists l', x.
Qed.

(** ** Line repair *)

Lemma corrigir_linhas_app (acc : list str) (l1 l2 : list str) :
  corrigir_linhas acc (l1 ++ l2) =
  (acc' <- corrigir_linhas acc l1 ;; corrigir_linhas acc' l2).
Proof.
  revert acc; induction l1 as [|x l1 IH]; intros acc; simpl; [reflexivity|].
  destruct (corrigir_linha acc x); simpl; [apply IH | reflexivity].
Qed.

(** The merge on a previous line whose last two fields are [p] and [z]. *)
Lemma anexar_a_anterior_eq (anteriores : list str) (anterior : str)
  (campos : list str) (p z linha_limpa : str) :
  split ch_semicolon anterior = campos ++ [p; z] ->
  anexar_a_anterior (anteriores ++ [anterior]) linha_limpa =
  Ok (anteriores ++
      [join [ch_semicolon]
         (campos ++ [p ++ [ch_space] ++ hd [] (split ch_semicolon linha_limpa); z])]).
Proof.
  intros E. unfold anexar_a_anterior.
  rewrite ultimo_app; simpl bind. rewrite E, penultimo_app; simpl bind.
  destruct (split ch_semicolon linha_limpa) as [|f fs] eqn:Ef;
    [now destruct (split_not_nil _ _ Ef)|].
  simpl primeiro; simpl bind. rewrite set_penultimo_app; simpl bind.
  apply set_ultimo_app.
Qed.

Lemma aceita_campos (anterior : str) :
  aceita anterior ->
  exists campos p z, split ch_semicolon anterior = campos ++ [p; z]
                     /\ campos <> [].
Proof.
  intros A. pose proof (split_length ch_semicolon anterior) as L.
  destruct (@two_last _ (split ch_semicolon anterior)) as (campos & p & z & E);
    [unfold aceita in A; lia|].
  exists campos, p, z; split; [assumption|].
  intros ->. rewrite E in L. simpl in L. unfold aceita in A. lia.
Qed.

Lemma anexar_a_anterior_aceitas (acc : list str) (linha_limpa : str) :
  Forall aceita acc -> acc <> [] ->
  exists acc', anexar_a_anterior acc linha_limpa = Ok acc'
               /\ Forall aceita acc' /\ List.length acc' = List.length acc.
Proof.
  intros F N. destruct (one_last _ N) as (anteriores & anterior & ->).
  apply Forall_app in F as [Fa Fl]. inversion Fl as [|? ? A _]; subst.
  destruct (aceita_campos _ A) as (campos & p & z & E & Nc).
  rewrite (anexar_a_anterior_eq _ _ _ _ _ _ E). eexists; split; [reflexivity|].
  split.
  - apply Forall_app; split; [assumption|]. constructor; [|constructor].
    unfold aceita.
    etransitivity; [|apply count_join_ge]. rewrite length_app. simpl.
    destruct campos; [congruence | simpl; lia].
  - rewrite !length_app. reflexivity.
Qed.

Lemma corrigir_linha_aceitas (acc : list str) (linha : str) :
  Forall aceita acc ->
  exists acc', corrigir_linha acc linha = Ok acc' /\ Forall aceita acc'.
Proof.
  intros F. unfold corrigir_linha.
  destruct (strip linha) as [|c r] eqn:E; [now exists acc|].
  destruct (Nat.ltb (count ch_semicolon (c :: r)) 2) eqn:B.
  - destruct acc as [|a acc0] eqn:Ea; [now exists []|].
    rewrite <- Ea in *.
    destruct (anexar_a_anterior_aceitas acc (c :: r) F) as (acc' & H1 & H2 & _);
      [subst; discriminate|].
    now exists acc'.
  - eexists; split; [reflexivity|]. apply Forall_app; split; [assumption|].
    constructor; [|constructor]. apply Nat.ltb_ge in B. exact B.
Qed.

Lemma corrigir_linhas_aceitas (linhas : list str) (acc : list str) :
  Forall aceita acc ->
  exists acc', corrigir_linhas acc linhas = Ok acc' /\ Forall aceita acc'.
Proof.
  revert acc; induction linhas as [|l linhas IH]; intros acc F; simpl.
  - now exists acc.
  - destruct (corrigir_linha_aceitas _ l F) as (acc1 & -> & F1). simpl.
    apply IH, F1.
Qed.

Lemma hd_split_prefix (c : char) (s : str) :
  s = hd [] (split c s) \/ exists r, s = hd [] (split c s) ++ c :: r.
Proof.
  pose proof (join_split c s) as J.
  destruct (split c s) as [|f [|g gs]]; simpl in *.
  - now left.
  - now left.
  - right. now exists (join [c] (g :: gs)).
Qed.

(** C2 (amended): a broken line that follows at least one accepted line is
    merged into the previous accepted line and is not kept as a line of its
    own: what is appended to the second-to-last field, after one space, is
    the broken line up to its first delimiter, which is the whole line when
    it has no delimiter. *)
Theorem linha_quebrada_anexada_a_anterior :
  forall (antes : list str) (linha : str) (acc : list str),
    corrigir_linhas [] antes = Ok acc ->
    acc <> [] ->
    strip linha <> [] ->
    count ch_semicolon (strip linha) < 2 ->
    exists anteriores anterior campos p z frag,
      acc = anteriores ++ [anterior] /\
      split ch_semicolon anterior = campos ++ [p; z] /\
      frag = hd [] (split ch_semicolon (strip linha)) /\
      count ch_semicolon frag = 0 /\
      (strip linha = frag \/ exists r, strip linha = frag ++ ch_semicolon :: r) /\
      (count ch_semicolon (strip linha) = 0 -> frag = strip linha) /\
      corrigir_linhas [] (antes ++ [linha]) =
        Ok (anteriores ++
            [join [ch_semicolon] (campos ++ [p ++ [ch_space] ++ frag; z])]).
Proof.
  intros antes linha acc Hrun Hne Hs Hc.
  destruct (corrigir_linhas_aceitas antes [] (Forall_nil _)) as (acc0 & E0 & F).
  rewrite Hrun in E0; inversion E0; subst acc0; clear E0.
  destruct (one_last _ Hne) as (anteriores & anterior & ->).
  assert (A : aceita anterior).
  { apply Forall_app in F as [_ Fl]. now inversion Fl. }
  destruct (aceita_campos _ A) as (campos & p & z & E & _).
  exists anteriores, anterior, campos, p, z, (hd [] (split ch_semicolon (strip linha))).
  repeat split; try assumption.
  - apply hd_split_count.
  - apply hd_split_prefix.
  - intros Z. now rewrite (split_count_zero _ _ Z).
  - rewrite corrigir_linhas_app, Hrun. simpl.
    unfold corrigir_linha.
    destruct (strip linha) as [|c r] eqn:Es; [congruence|].
    apply Nat.ltb_lt in Hc. rewrite Hc.
    destruct (anteriores ++ [anterior]) as [|a l] eqn:Ea;
      [now destruct anteriores|].
    rewrite <- Ea. rewrite (anexar_a_anterior_eq _ _ _ _ _ _ E). reflexivity.
Qed.

Lemma linha_quebrada_anexada_witness :
  corrigir_linhas [] [u8 "01/03/2024;Compra Loja X;150,00"]
    = Ok [u8 "01/03/2024;Compra Loja X;150,00"] /\
  [u8 "01/03/2024;Compra Loja X;150,00"] <> [] /\
  strip (u8 " continua" ++ nl) <> [] /\
  count ch_semicolon (strip (u8 " continua" ++ nl)) < 2 /\
  exists anteriores anterior campos p z frag,
    [u8 "01/03/2024;Compra Loja X;150,00"] = anteriores ++ [anterior] /\
    split ch_semicolon anterior = campos ++ [p; z] /\
    frag = hd [] (split ch_semicolon (strip (u8 " continua" ++ nl))) /\
    count ch_semicolon frag = 0 /\
    (strip (u8 " continua" ++ nl) = frag
     \/ exists r, strip (u8 " continua" ++ nl) = frag ++ ch_semicolon :: r) /\
    (count ch_semicolon (strip (u8 " continua" ++ nl)) = 0 ->
     frag = strip (u8 " continua" ++ nl)) /\
    corrigir_linhas [] ([u8 "01/03/2024;Compra Loja X;150,00"]
                        ++ [u8 " continua" ++ nl]) =
      Ok (anteriores ++
          [join [ch_semicolon] (campos ++ [p ++ [ch_space] ++ frag; z])]).
Proof.
  assert (H1 : corrigir_linhas [] [u8 "01/03/2024;Compra Loja X;150,00"]
               = Ok [u8 "01/03/2024;Compra Loja X;150,00"])
    by (vm_compute; reflexivity).
  assert (H2 : [u8 "01/03/2024;Compra Loja X;150,00"] <> []) by discriminate.
  assert (H3 : strip (u8 " continua" ++ nl) <> []) by (vm_compute; discriminate).
  assert (H4 : count ch_semicolon (strip (u8 " continua" ++ nl)) < 2)
    by (vm_compute; lia).
  repeat (split; [assumption|]).
  exact (linha_quebrada_anexada_a_anterior _ _ _ H1 H2 H3 H4).
Defined.

(** C2 (as stated) fails: of a broken line with one delimiter only the part
    before the delimiter is appended, not the entire content. *)
Lemma linha_quebrada_conteudo_inteiro_counterexample :
  count ch_semicolon (strip (u8 "foo;bar")) < 2 /\
  corrigir_linhas [] [u8 "a;b;c"; u8 "foo;bar"] = Ok [u8 "a;b foo;c"] /\
  reparo_spec (u8 "a;b;c") (strip (u8 "foo;bar")) = Ok (u8 "a;b foo;bar;c") /\
  u8 "a;b foo;c" <> u8 "a;b foo;bar;c".
Proof.
  split; [vm_compute; lia|].
  split; [vm_compute; reflexivity|].
  split; [vm_compute; reflexivity | vm_compute; discriminate].
Qed.

(** C10: a broken line met while no line has been accepted yet is dropped:
    the preprocessor returns what it returns for the file without that
    line, and prints nothing. *)
Theorem linha_quebrada_inicial_descartada :
  forall (linha0 : str) (antes : list str) (linha : str) (resto : list str),
    corrigir_linhas [] antes = Ok [] ->
    strip linha <> [] ->
    count ch_semicolon (strip linha) < 2 ->
    corrigir_linha [] linha = Ok [] /\
    corrigir_linhas [] (antes ++ linha :: resto) = corrigir_linhas [] resto /\
    preprocessar_csv_corrigindo_linhas (Ok (linha0 :: antes ++ linha :: resto))
      = preprocessar_csv_corrigindo_linhas (Ok (linha0 :: antes ++ resto)) /\
    fst (preprocessar_csv_corrigindo_linhas
           (Ok (linha0 :: antes ++ linha :: resto))) = [].
Proof.
  intros linha0 antes linha resto Hrun Hs Hc.
  assert (Hstep : corrigir_linha [] linha = Ok []).
  { unfold corrigir_linha. destruct (strip linha); [reflexivity|].
    apply Nat.ltb_lt in Hc. now rewrite Hc. }
  assert (Hall : corrigir_linhas [] (antes ++ linha :: resto)
                 = corrigir_linhas [] resto).
  { rewrite corrigir_linhas_app, Hrun. simpl. now rewrite Hstep. }
  repeat split; try assumption.
  unfold preprocessar_csv_corrigindo_linhas.
  rewrite Hall, corrigir_linhas_app, Hrun. reflexivity.
Qed.

Lemma linha_quebrada_inicial_witness :
  corrigir_linhas [] [nl] = Ok [] /\
  strip (u8 "Saldo anterior") <> [] /\
  count ch_semicolon (strip (u8 "Saldo anterior")) < 2 /\
  preprocessar_csv_corrigindo_linhas
    (Ok (u8 "Data;Valor;Memo" :: [nl] ++ u8 "Saldo anterior" :: [u8 "01/03/2024;1,00;x"]))
  = preprocessar_csv_corrigindo_linhas
    (Ok (u8 "Data;Valor;Memo" :: [nl] ++ [u8 "01/03/2024;1,00;x"])).
Proof.
  assert (H1 : corrigir_linhas [] [nl] = Ok []) by (vm_compute; reflexivity).
  assert (H2 : strip (u8 "Saldo anterior") <> []) by (vm_compute; discriminate).
  assert (H3 : count ch_semicolon (strip (u8 "Saldo anterior")) < 2)
    by (vm_compute; lia).
  repeat (split; [assumption|]).
  exact (proj1 (proj2 (proj2
    (linha_quebrada_inicial_descartada (u8 "Data;Valor;Memo") [nl]
       (u8 "Saldo anterior") [u8 "01/03/2024;1,00;x"] H1 H2 H3)))).
Defined.

(** ** Header resolution *)

Lemma str_in_In (x : str) (l : list str) : str_in x l = true <-> In x l.
Proof.
  unfold str_in. rewrite existsb_exists. split.
  - intros (y & I & E). apply str_eqb_eq in E. now subst.
  - intros I. exists x. split; [assumption | apply str_eqb_refl].
Qed.

Lemma index_of_map (f : str -> str) (orig : list str) (x : str) :
  In x (map f orig) ->
  exists i o, index_of x (map f orig) = Some i
              /\ nth_error orig i = Some o /\ f o = x.
Proof.
  induction orig as [|y orig IH]; simpl; [tauto|].
  intros I. destruct (str_eqb (f y) x) eqn:E.
  - apply str_eqb_eq in E. now exists 0, y.
  - destruct I as [I|I]; [apply str_eqb_neq in E; congruence|].
    destruct (IH I) as (i & o & -> & N & F). now exists (S i), o.
Qed.

Lemma resolver_campo_find (f : str -> str) (orig nomes : list str) :
  exists r, resolver_campo orig (map f orig) nomes = Ok r
            /\ option_map f r = primeiro_presente (map f orig) nomes
            /\ (forall o, r = Some o -> In o orig).
Proof.
  induction nomes as [|n nomes IH]; simpl.
  - exists None. repeat split. discriminate.
  - destruct (str_in n (map f orig)) eqn:E; [|exact IH].
    apply str_in_In in E.
    destruct (index_of_map f orig n E) as (i & o & Hi & Hn & Hf).
    exists (Some o). unfold list_index, list_item. rewrite Hi. simpl.
    rewrite Hn. simpl. repeat split; [now rewrite Hf|].
    intros o' [= <-]. eapply nth_error_In, Hn.
Qed.

Lemma construir_mapa_resolvido (f : str -> str) (orig : list str)
  (tabela : list (campo * list str)) :
  exists m, construir_mapa orig (map f orig) tabela = Ok m
            /\ (forall c, option_map f (mapa_get m c)
                          = resolvido (map f orig) tabela c)
            /\ (forall c o, mapa_get m c = Some o -> In o orig).
Proof.
  induction tabela as [|[c' nomes] tabela (m & E & G & I)]; simpl.
  - exists []. repeat split. discriminate.
  - destruct (resolver_campo_find f orig nomes) as (r & -> & Rf & Ri). simpl.
    rewrite E. simpl. rewrite <- Rf.
    destruct r as [o|]; simpl.
    + exists ((c', o) :: m). repeat split.
      * intros c. simpl. destruct (campo_eqb c' c); [reflexivity | apply G].
      * intros c o'. simpl. destruct (campo_eqb c' c); [|apply I].
        intros [= <-]. now apply Ri.
    + exists m. repeat split; assumption.
Qed.

Lemma resolvido_MAPEAMENTO (busca : list str) (c : campo) :
  resolvido busca MAPEAMENTO_CAMPOS c
  = primeiro_presente busca (nomes_de MAPEAMENTO_CAMPOS c).
Proof.
  destruct c; unfold MAPEAMENTO_CAMPOS; cbn [resolvido nomes_de campo_eqb];
    repeat match goal with
           | |- context [match primeiro_presente ?b ?n with _ => _ end] =>
             destruct (primeiro_presente b n)
           end; reflexivity.
Qed.


Lemma primeiro_presente_none (busca nomes : list str) :
  primeiro_presente busca nomes = None <->
  (forall n, In n nomes -> ~ In n busca).
Proof.
  unfold primeiro_presente. induction nomes as [|n nomes IH]; simpl.
  - tauto.
  - destruct (str_in n busca) eqn:E.
    + split; [discriminate|]. intros H. apply str_in_In in E.
      now destruct (H n (or_introl eq_refl)).
    + rewrite IH. split.
      * intros H x [<-|I]; [|now apply H].
        intros I. apply str_in_In in I. congruence.
      * intros H x I. apply H. now right.
Qed.


Lemma campo_ausente_some (m : mapa) (campos : list campo) (c : campo) :
  In c campos -> mapa_get m c = None ->
  exists c', campo_ausente m campos = Some c'
             /\ In c' campos /\ mapa_get m c' = None.
Proof.
  induction campos as [|x campos IH]; simpl; [tauto|].
  intros I N. destruct (mapa_get m x) eqn:E.
  - destruct I as [->|I]; [congruence|].
    destruct (IH I N) as (c' & -> & I' & N'). exists c'. auto.
  - exists x. auto.
Qed.

Section Resolucao.
Context `{PyLib}.

Lemma mapa_final_resolvido (cabecalho_str : str) :
  exists m, mapa_final cabecalho_str = Ok m
            /\ (forall c, option_map lower (mapa_get m c)
                          = primeiro_presente (cabecalho_busca cabecalho_str)
                              (nomes_de MAPEAMENTO_CAMPOS c))
            /\ (forall c o, mapa_get m c = Some o
                            -> In o (cabecalho_original cabecalho_str)).
Proof.
  unfold mapa_final, cabecalho_busca.
  destruct (construir_mapa_resolvido lower (cabecalho_original cabecalho_str)
              MAPEAMENTO_CAMPOS) as (m & E & G & I).
  exists m. repeat split; [assumption | | assumption].
  intros c. rewrite G. apply resolvido_MAPEAMENTO.
Qed.

(** C4: when one of the three mandatory fields does not resolve, the
    extractor returns no transaction and no account metadata whatever the
    data lines are, and prints which field is missing and the spellings
    accepted for it; nothing is printed about any row. *)
Theorem campo_obrigatorio_ausente_aborta :
  forall (cabecalho_str : str) (linhas_csv : list str) (tipo_conta : str)
         (c : campo),
    In c campos_obrigatorios ->
    (forall nome, In nome (nomes_de MAPEAMENTO_CAMPOS c) ->
                  ~ In nome (cabecalho_busca cabecalho_str)) ->
    exists c',
      In c' campos_obrigatorios /\
      (forall nome, In nome (nomes_de MAPEAMENTO_CAMPOS c') ->
                    ~ In nome (cabecalho_busca cabecalho_str)) /\
      analisar_transacoes cabecalho_str linhas_csv tipo_conta =
        ([ErroColunaNaoEncontrada c';
          ErroOpcoesAceitas c' (nomes_de MAPEAMENTO_CAMPOS c')],
         Ok ([], None, None)).
Proof.
  intros cab linhas tipo c Ic Hn.
  destruct (mapa_final_resolvido cab) as (m & E & G & _).
  assert (N : mapa_get m c = None).
  { apply primeiro_presente_none in Hn. rewrite <- G in Hn.
    destruct (mapa_get m c); [discriminate | reflexivity]. }
  destruct (campo_ausente_some m _ c Ic N) as (c' & A & I' & N').
  exists c'. split; [assumption|]. split.
  - apply primeiro_presente_none. rewrite <- G, N'. reflexivity.
  - unfold analisar_transacoes. rewrite E, A. reflexivity.
Qed.






End Resolucao.

(** ** The preprocessor's result *)

Section Resultado.
Context `{PyLib}.

(** C3 (amended): the preprocessor returns the absent pair when the file is
    not found or has no line at all; any other failure to read the file
    propagates; for a file with at least one line it returns the trimmed
    first line and the repaired data lines, each with at least two
    delimiters, and raises nothing. When no data line is left, or the first
    line is blank, the returned pair is not absent: it is the main block
    that then generates no document. *)
Theorem preprocessar_resultado :
  forall (arquivo : res (list str)) (tipo_conta : str),
    match arquivo with
    | Raise e =>
      preprocessar_csv_corrigindo_linhas arquivo =
        ([], if capturada_na_leitura e then Ok (None, None) else Raise e)
    | Ok [] =>
      preprocessar_csv_corrigindo_linhas arquivo
        = ([ErroArquivoVazio], Ok (None, None)) /\
      converter arquivo tipo_conta
        = ([ErroArquivoVazio; ProcessoFinalizado], Ok None)
    | Ok (linha0 :: linhas_de_dados) =>
      exists linhas_corrigidas,
        corrigir_linhas [] linhas_de_dados = Ok linhas_corrigidas /\
        Forall aceita linhas_corrigidas /\
        preprocessar_csv_corrigindo_linhas arquivo
          = ([], Ok (Some (strip linha0), Some linhas_corrigidas)) /\
        (strip linha0 = [] \/ linhas_corrigidas = [] ->
         converter arquivo tipo_conta = ([ProcessoFinalizado], Ok None))
    end.
Proof.
  intros [[|linha0 dados]|e] tipo.
  - split; reflexivity.
  - destruct (corrigir_linhas_aceitas dados [] (Forall_nil _)) as (lc & E & F).
    exists lc. split; [assumption|]. split; [assumption|].
    assert (P : preprocessar_csv_corrigindo_linhas (Ok (linha0 :: dados))
                = ([], Ok (Some (strip linha0), Some lc))).
    { unfold preprocessar_csv_corrigindo_linhas. now rewrite E. }
    split; [assumption|].
    intros V. unfold converter. rewrite P.
    assert (C : cabecalho_e_linhas (Some (strip linha0)) (Some lc) = None).
    { destruct V as [-> | ->]; [reflexivity|].
      now destruct (strip linha0). }
    now rewrite C.
  - unfold preprocessar_csv_corrigindo_linhas.
    destruct (capturada_na_leitura e); reflexivity.
Qed.

End Resultado.

Lemma preprocessar_resultado_witness :
  converter (Ok [u8 "Data;Histórico;Valor" ++ nl]) (u8 "banco")
  = ([ProcessoFinalizado], Ok None).
Proof.
  destruct (preprocessar_resultado (Ok [u8 "Data;Histórico;Valor" ++ nl])
              (u8 "banco")) as (lc & E & _ & _ & C).
  apply C. right. simpl in E. now injection E as <-.
Defined.

(** C3 (as stated) fails: for a file that holds a header and no data line
    the preprocessor returns the header and an empty list, not the absent
    pair; and a file that cannot be read for a reason other than not being
    found gives an exception, not a result. *)
Lemma preprocessar_sem_dados_counterexample :
  preprocessar_csv_corrigindo_linhas (Ok [u8 "Data;Histórico;Valor" ++ nl])
    = ([], Ok (Some (u8 "Data;Histórico;Valor"), Some [])) /\
  snd (preprocessar_csv_corrigindo_linhas (Ok [u8 "Data;Histórico;Valor" ++ nl]))
    <> Ok (None, None) /\
  snd (preprocessar_csv_corrigindo_linhas (Raise PermissionError))
    <> Ok (None, None).
Proof.
  split; [vm_compute; reflexivity|].
  split; vm_compute; discriminate.
Qed.

(** ** One row *)

Section Linha.
Context `{PyLib}.

Lemma processar_linha_ok (m : mapa) (tipo_conta : str) (i : nat)
  (linha : dict) (t : transacao) :
  processar_linha m tipo_conta i linha = Ok t ->
  exists data_str desc valor_str data_obj v,
    celulas m linha data_str desc valor_str /\
    strptime_dmY data_str = Some data_obj /\
    float_of_str (replace ch_comma ch_dot valor_str) = Some v /\
    t = mk_transacao data_obj (limpar_descricao (strip desc))
          (if str_eqb tipo_conta credito then float_neg v else v)
          (dict_get_default linha (mapa_get m c_id_transacao))
          (md5_hexdigest
             (utf8_encode (texto_fitid data_str (strip desc) valor_str i))).
Proof.
  unfold processar_linha, mapa_index, dict_index.
  destruct (mapa_get m c_data) as [kd|] eqn:Kd; simpl; [|discriminate].
  destruct (dict_get linha (Some kd)) as [vd|] eqn:Vd; simpl; [|discriminate].
  destruct (mapa_get m c_descricao) as [ks|] eqn:Ks; simpl; [|discriminate].
  destruct (dict_get linha (Some ks)) as [vs|] eqn:Vs; simpl; [|discriminate].
  destruct vs as [desc| |]; simpl; try discriminate.
  destruct (mapa_get m c_valor) as [kv|] eqn:Kv; simpl; [|discriminate].
  destruct (dict_get linha (Some kv)) as [vv|] eqn:Vv; simpl; [|discriminate].
  destruct vd as [data_str| |]; simpl; try discriminate.
  destruct (strptime_dmY data_str) as [data_obj|] eqn:P; simpl; [|discriminate].
  destruct vv as [valor_str| |]; simpl; try discriminate.
  destruct (float_of_str (replace ch_comma ch_dot valor_str)) as [v|] eqn:F;
    simpl; [|discriminate].
  intros [= <-].
  exists data_str, desc, valor_str, data_obj, v.
  split; [now exists kd, ks, kv|]. auto.
Qed.

Lemma float_gt0_neg (v : float) :
  float_gt0 v = true ->
  float_gt0 (float_neg v) = false /\ float_lt0 (float_neg v) = true.
Proof.
  unfold float_gt0, float_lt0, float_neg, SFltb.
  destruct v as [s|s| |s m e]; try destruct s; simpl;
    (split; congruence).
Qed.

Lemma linha_com_erro_capturado_ignorada (m : mapa) (tipo_conta : str)
  (i : nat) (linha : dict) (resto : list dict) (e : exn) :
  processar_linha m tipo_conta i linha = Raise e ->
  capturada_na_linha e = true ->
  processar_linhas m tipo_conta i (linha :: resto)
  = (AvisoLinhaIgnorada linha e
       :: fst (processar_linhas m tipo_conta (S i) resto),
     snd (processar_linhas m tipo_conta (S i) resto)).
Proof.
  intros E C. cbn [processar_linhas]. rewrite E, C.
  now destruct (processar_linhas m tipo_conta (S i) resto).
Qed.

Lemma banco_nao_credito : str_eqb (u8 "banco") credito = false.
Proof. vm_compute. reflexivity. Qed.

(** C5: the amount of a parsed row is the number read from the amount cell,
    with its sign flipped when the account type is ['credito'] and as read
    otherwise (so for ['banco']): a positive amount of a credit-card row
    becomes the negative number of the same magnitude and is written as
    DEBIT, a positive amount of a bank row is written as CREDIT. The
    direction written for a transaction is CREDIT for a positive number or
    positive infinity and DEBIT for everything else: a negative number, a
    zero of either sign, negative infinity and not-a-number. *)
Theorem sinal_do_valor_e_direcao :
  forall (m : mapa) (tipo_conta : str) (i : nat) (linha : dict) (t : transacao),
    processar_linha m tipo_conta i linha = Ok t ->
    exists data_str desc valor_str v,
      celulas m linha data_str desc valor_str /\
      float_of_str (replace ch_comma ch_dot valor_str) = Some v /\
      (tipo_conta = credito -> valor t = SFopp v) /\
      (tipo_conta <> credito -> valor t = v) /\
      (tipo_conta = u8 "banco" -> valor t = v) /\
      (tipo_conta = credito ->
       forall mt e, v = S754_finite false mt e ->
                    valor t = S754_finite true mt e /\
                    tipo_transacao t = u8 "DEBIT") /\
      (tipo_conta <> credito ->
       forall mt e, v = S754_finite false mt e ->
                    valor t = S754_finite false mt e /\
                    tipo_transacao t = u8 "CREDIT") /\
      tipo_transacao t
        = match valor t with
          | S754_finite false _ _ | S754_infinity false => u8 "CREDIT"
          | _ => u8 "DEBIT"
          end /\
      (forall s, valor t = S754_zero s -> tipo_transacao t = u8 "DEBIT") /\
      exists resto,
        bloco_transacao t =
          u8 "          <STMTTRN>" ++ nl ++
          u8 "            <TRNTYPE>" ++ tipo_transacao t ++ u8 "</TRNTYPE>" ++ nl
          ++ resto.
Proof.
  intros m tipo i linha t E.
  destruct (processar_linha_ok _ _ _ _ _ E) as (ds & desc & vs & d & v & C & _ & F & ->).
  exists ds, desc, vs, v. simpl valor.
  split; [assumption|]. split; [assumption|].
  split; [intros ->; now rewrite str_eqb_refl|].
  split; [intros N; apply str_eqb_neq in N; now rewrite N|].
  split; [intros ->; now rewrite banco_nao_credito|].
  split.
  { intros -> mt e ->. rewrite str_eqb_refl. unfold tipo_transacao.
    simpl valor. split; reflexivity. }
  split.
  { intros N mt e ->. apply str_eqb_neq in N. rewrite N.
    unfold tipo_transacao. simpl valor. split; reflexivity. }
  split.
  { unfold tipo_transacao. simpl valor.
    generalize (if str_eqb tipo credito then float_neg v else v).
    intros [s|s| |s mt e]; try destruct s; reflexivity. }
  split.
  { intros s Z. unfold tipo_transacao. simpl valor. rewrite Z. reflexivity. }
  unfold bloco_transacao, template_transacao, texto. cbn [join].
  rewrite <- !app_assoc. eexists. reflexivity.
Qed.

End Linha.

Lemma sinal_do_valor_witness :
  exists t1 t2,
    processar_linha mapa_exemplo credito 0 linha_exemplo = Ok t1 /\
    valor t1 = S754_finite true 5277655813324800 (-45) /\
    tipo_transacao t1 = u8 "DEBIT" /\
    processar_linha mapa_exemplo (u8 "banco") 0 linha_exemplo = Ok t2 /\
    valor t2 = S754_finite false 5277655813324800 (-45) /\
    tipo_transacao t2 = u8 "CREDIT".
Proof.
  assert (V : Ref.float_of_str
                (replace ch_comma ch_dot (u8 "150,00"))
              = Some (S754_finite false 5277655813324800 (-45)))
    by (vm_compute; reflexivity).
  destruct (processar_linha mapa_exemplo credito 0 linha_exemplo) as [t1|e] eqn:E1;
    [|vm_compute in E1; discriminate].
  destruct (processar_linha mapa_exemplo (u8 "banco") 0 linha_exemplo)
    as [t2|e] eqn:E2; [|vm_compute in E2; discriminate].
  exists t1, t2.
  destruct (sinal_do_valor_e_direcao _ _ _ _ _ E1)
    as (ds1 & desc1 & vs1 & v1 & (kd1 & ks1 & kv1 & _ & _ & _ & _ & K1 & C1)
        & F1 & _ & _ & _ & D1 & _).
  destruct (sinal_do_valor_e_direcao _ _ _ _ _ E2)
    as (ds2 & desc2 & vs2 & v2 & (kd2 & ks2 & kv2 & _ & _ & _ & _ & K2 & C2)
        & F2 & _ & _ & _ & _ & D2 & _).
  assert (K : mapa_get mapa_exemplo c_valor = Some (u8 "Valor"))
    by (vm_compute; reflexivity).
  assert (L : dict_get linha_exemplo (Some (u8 "Valor"))
              = Some (VStr (u8 "150,00"))) by (vm_compute; reflexivity).
  rewrite K in K1, K2. injection K1 as <-. injection K2 as <-.
  rewrite L in C1, C2. injection C1 as <-. injection C2 as <-.
  change (@float_of_str ref_lib) with Ref.float_of_str in F1, F2.
  rewrite V in F1, F2. injection F1 as <-. injection F2 as <-.
  destruct (D1 eq_refl _ _ eq_refl) as [A1 B1].
  assert (NC : u8 "banco" <> credito) by (vm_compute; discriminate).
  destruct (D2 NC _ _ eq_refl) as [A2 B2].
  split; [reflexivity|]. split; [exact A1|]. split; [exact B1|].
  split; [reflexivity|]. split; [exact A2 | exact B2].
Defined.

(** ** The sort by date *)

Lemma datetime_ltb_spec (a b : datetime) :
  datetime_ltb a b = true <->
  (ano a < ano b \/
   ano a = ano b /\ (mes a < mes b \/ mes a = mes b /\ dia a < dia b))%N.
Proof.
  unfold datetime_ltb.
  rewrite !orb_true_iff, !andb_true_iff, !orb_true_iff, !andb_true_iff,
    !N.ltb_lt, !N.eqb_eq.
  tauto.
Qed.

Lemma datetime_ltb_false (a b : datetime) :
  datetime_ltb a b = false <->
  (ano b < ano a \/
   ano a = ano b /\ (mes b < mes a \/ mes a = mes b /\ dia b <= dia a))%N.
Proof.
  destruct (datetime_ltb a b) eqn:E.
  - apply datetime_ltb_spec in E. split; [discriminate | lia].
  - split; [intros _ | reflexivity].
    assert (N : ~ (ano a < ano b \/
                   ano a = ano b /\
                   (mes a < mes b \/ mes a = mes b /\ dia a < dia b))%N).
    { intros C. apply datetime_ltb_spec in C. congruence. }
    lia.
Qed.

Lemma datetime_eqb_eq (a b : datetime) : datetime_eqb a b = true <-> a = b.
Proof.
  unfold datetime_eqb. rewrite !andb_true_iff, !N.eqb_eq.
  destruct a, b; simpl. split.
  - intros [[-> ->] ->]. reflexivity.
  - intros [= -> -> ->]. auto.
Qed.

Lemma datetime_ltb_irrefl (a : datetime) : datetime_ltb a a = false.
Proof. apply datetime_ltb_false. lia. Qed.

Lemma data_le_trans (x y z : transacao) :
  data_le x y -> data_le y z -> data_le x z.
Proof.
  unfold data_le. rewrite !datetime_ltb_false. lia.
Qed.

Lemma data_lt_le (x y : transacao) :
  datetime_ltb (data x) (data y) = true -> data_le x y.
Proof.
  unfold data_le. rewrite datetime_ltb_spec, datetime_ltb_false. lia.
Qed.

Lemma inserir_perm (t : transacao) (l : list transacao) :
  Permutation (t :: l) (inserir t l).
Proof.
  induction l as [|y l IH]; simpl; [reflexivity|].
  destruct (datetime_ltb (data y) (data t)); [|reflexivity].
  rewrite perm_swap. now constructor.
Qed.

Lemma ordenar_perm (l : list transacao) : Permutation l (ordenar_por_data l).
Proof.
  induction l as [|t l IH]; simpl; [constructor|].
  rewrite <- inserir_perm. now constructor.
Qed.

Lemma inserir_sorted (t : transacao) (l : list transacao) :
  StronglySorted data_le l -> StronglySorted data_le (inserir t l).
Proof.
  induction 1 as [|y l S IH F]; simpl.
  - constructor; constructor.
  - destruct (datetime_ltb (data y) (data t)) eqn:E.
    + constructor; [assumption|].
      eapply Permutation_Forall; [apply inserir_perm|].
      constructor; [now apply data_lt_le | assumption].
    + constructor; [now constructor|].
      constructor; [exact E|].
      eapply Forall_impl; [|exact F].
      intros z. apply data_le_trans. exact E.
Qed.

Lemma ordenar_sorted (l : list transacao) :
  StronglySorted data_le (ordenar_por_data l).
Proof.
  induction l as [|t l IH]; simpl; [constructor | now apply inserir_sorted].
Qed.

Lemma inserir_estavel (d : datetime) (t : transacao) (l : list transacao) :
  filter (fun x => datetime_eqb (data x) d) (inserir t l)
  = filter (fun x => datetime_eqb (data x) d) (t :: l).
Proof.
  induction l as [|y l IH]; [reflexivity|].
  cbn [inserir]. destruct (datetime_ltb (data y) (data t)) eqn:E; [|reflexivity].
  cbn [filter] in *. rewrite IH.
  destruct (datetime_eqb (data y) d) eqn:Ey, (datetime_eqb (data t) d) eqn:Et;
    try reflexivity.
  apply datetime_eqb_eq in Ey, Et. rewrite Ey, Et, datetime_ltb_irrefl in E.
  discriminate.
Qed.

Lemma ordenar_estavel (d : datetime) (l : list transacao) :
  filter (fun x => datetime_eqb (data x) d) (ordenar_por_data l)
  = filter (fun x => datetime_eqb (data x) d) l.
Proof.
  induction l as [|t l IH]; [reflexivity|].
  cbn [ordenar_por_data]. rewrite inserir_estavel. cbn [filter].
  now rewrite IH.
Qed.

Section Ordem.
Context `{PyLib}.

Lemma gerar_ofx_blocos (ts : list transacao) (tipo_conta : str)
  (bank_id acct_id : option str) :
  ts = [] /\ gerar_ofx ts tipo_conta bank_id acct_id = ([NenhumaTransacao], None)
  \/ exists antes depois,
       gerar_ofx ts tipo_conta bank_id acct_id =
         ([ArquivoGerado (List.length ts)],
          Some (antes ++ concat (map bloco_transacao ts) ++ depois)).
Proof.
  destruct ts as [|t0 ts]; [left; split; reflexivity | right].
  unfold gerar_ofx. destruct (str_eqb tipo_conta credito);
    match goal with
    | |- exists antes depois,
           (_, Some (?a ++ ?b ++ ?c ++ ?x ++ ?d)) = _ =>
      exists (a ++ b ++ c), d
    end; now rewrite <- !app_assoc.
Qed.

(** C6: the list the extractor returns is the list of the transactions of
    the rows, in row order, sorted by date: it is non-decreasing by date,
    holds the same transactions, and keeps the transactions of one date in
    their row order. The generator writes one block per transaction, in
    the order of that list. *)
Theorem transacoes_ordenadas_por_data :
  forall (cabecalho_str : str) (linhas_csv : list str) (tipo_conta : str)
         (avisos : list diag) (ts : list transacao) (bank_id acct_id : option str),
    analisar_transacoes cabecalho_str linhas_csv tipo_conta
      = (avisos, Ok (ts, bank_id, acct_id)) ->
    StronglySorted data_le ts /\
    (exists coletadas,
       (coletadas = [] \/
        exists m, mapa_final cabecalho_str = Ok m /\
                  coletar_transacoes m (cabecalho_original cabecalho_str)
                    linhas_csv tipo_conta = (avisos, Ok coletadas)) /\
       ts = ordenar_por_data coletadas /\
       Permutation coletadas ts /\
       forall d, filter (fun t => datetime_eqb (data t) d) ts
                 = filter (fun t => datetime_eqb (data t) d) coletadas) /\
    (ts = [] /\
     gerar_ofx ts tipo_conta bank_id acct_id = ([NenhumaTransacao], None)
     \/ exists antes depois,
          gerar_ofx ts tipo_conta bank_id acct_id =
            ([ArquivoGerado (List.length ts)],
             Some (antes ++ concat (map bloco_transacao ts) ++ depois))).
Proof.
  intros cab linhas tipo avisos ts b a E.
  assert (P : exists coletadas,
             (coletadas = [] \/
              exists m, mapa_final cab = Ok m /\
                        coletar_transacoes m (cabecalho_original cab) linhas tipo
                          = (avisos, Ok coletadas)) /\
             ts = ordenar_por_data coletadas).
  { unfold analisar_transacoes in E.
    destruct (mapa_final cab) as [m|e]; [|discriminate].
    destruct (campo_ausente m campos_obrigatorios).
    - injection E as _ <- _ _. exists []. split; [now left | reflexivity].
    - destruct (extrair_conta m (cabecalho_original cab) linhas)
        as [[b0 a0]|e]; [|discriminate].
      destruct (coletar_transacoes m (cabecalho_original cab) linhas tipo)
        as [av [pre|e]] eqn:C; simpl in E; [|discriminate].
      injection E as -> <- _ _. exists pre.
      split; [right; now exists m | reflexivity]. }
  destruct P as (pre & O & ->).
  split; [apply ordenar_sorted|]. split; [|apply gerar_ofx_blocos].
  exists pre. split; [assumption|]. split; [reflexivity|].
  split; [apply ordenar_perm | intros d; apply ordenar_estavel].
Qed.

End Ordem.

Lemma transacoes_ordenadas_witness :
  exists ts,
    analisar_transacoes (u8 "Data;Histórico;Valor")
      [u8 "02/03/2024;B;1,00"; u8 "01/03/2024;A;2,00"; u8 "02/03/2024;C;3,00"]
      (u8 "banco") = ([], Ok (ts, None, None)) /\
    map descricao ts = [u8 "A"; u8 "B"; u8 "C"] /\
    StronglySorted data_le ts.
Proof.
  destruct (analisar_transacoes (u8 "Data;Histórico;Valor")
      [u8 "02/03/2024;B;1,00"; u8 "01/03/2024;A;2,00"; u8 "02/03/2024;C;3,00"]
      (u8 "banco")) as [av [[[ts b] a]|e]] eqn:E;
    [|vm_compute in E; discriminate].
  assert (E' := E). vm_compute in E'. injection E' as <- <- <- <-.
  eexists. split; [reflexivity|]. split; [vm_compute; reflexivity|].
  exact (proj1 (transacoes_ordenadas_por_data _ _ _ _ _ _ _ E)).
Defined.

(** ** The identifier *)







Section Identificador.
Context `{PyLib}.

Lemma processar_linha_eq (m : mapa) (tipo_conta : str) (i : nat)
  (linha : dict) (data_str desc valor_str : str) (data_obj : datetime)
  (v : float) :
  celulas m linha data_str desc valor_str ->
  strptime_dmY data_str = Some data_obj ->
  float_of_str (replace ch_comma ch_dot valor_str) = Some v ->
  processar_linha m tipo_conta i linha =
    Ok (mk_transacao data_obj (limpar_descricao (strip desc))
          (if str_eqb tipo_conta credito then float_neg v else v)
          (dict_get_default linha (mapa_get m c_id_transacao))
          (md5_hexdigest
             (utf8_encode (texto_fitid data_str (strip desc) valor_str i)))).
Proof.
  intros (kd & ks & kv & Kd & Vd & Ks & Vs & Kv & Vv) P F.
  unfold processar_linha, mapa_index, dict_index.
  rewrite Kd, Ks, Kv. simpl. rewrite Vd, Vs, Vv. simpl.
  rewrite P. simpl. rewrite F. reflexivity.
Qed.




End Identificador.


(** ** The stored description *)

Lemma rev_not_nil {A} (x : A) (l : list A) : rev (x :: l) <> [].
Proof.
  intros E. apply (f_equal (@List.length A)) in E.
  rewrite length_rev in E. discriminate.
Qed.

Lemma split_ws_aux_palavras (s : str) :
  forall cur, Forall (fun c => isspace c = false) cur ->
              Forall palavra (split_ws_aux cur s).
Proof.
  induction s as [|c s IH]; intros cur F; cbn [split_ws_aux].
  - destruct cur as [|x cur']; [constructor|].
    constructor; [|constructor].
    split; [apply rev_not_nil | now apply Forall_rev].
  - destruct (isspace c) eqn:Ec.
    + destruct cur as [|x cur']; [apply IH; constructor|].
      constructor; [|apply IH; constructor].
      split; [apply rev_not_nil | now apply Forall_rev].
    + apply IH. now constructor.
Qed.

Lemma split_ws_aux_chars (P : char -> Prop) (s : str) :
  forall cur, Forall P s -> Forall P cur ->
              Forall (Forall P) (split_ws_aux cur s).
Proof.
  induction s as [|c s IH]; intros cur Fs Fc; cbn [split_ws_aux].
  - destruct cur as [|x cur']; [constructor|].
    constructor; [now apply Forall_rev | constructor].
  - inversion Fs; subst. destruct (isspace c).
    + destruct cur as [|x cur']; [apply IH; [assumption | constructor]|].
      constructor; [now apply Forall_rev | apply IH; [assumption | constructor]].
    + apply IH; [assumption | now constructor].
Qed.

Lemma join_chars (P : char -> Prop) (sep : str) (ws : list str) :
  Forall P sep -> Forall (Forall P) ws -> Forall P (join sep ws).
Proof.
  intros Fs. induction 1 as [|w ws Fw Fws IH]; [constructor|].
  destruct ws as [|w2 ws2]; [exact Fw|].
  rewrite join_cons by discriminate.
  apply Forall_app; split; [assumption|]. apply Forall_app; split; assumption.
Qed.

Lemma split_ws_aux_app_word (w : str) :
  forall cur s, Forall (fun c => isspace c = false) w ->
                split_ws_aux cur (w ++ s) = split_ws_aux (rev w ++ cur) s.
Proof.
  induction w as [|c w IH]; intros cur s F; [reflexivity|].
  inversion F as [|? ? Ec F']; subst.
  cbn [app split_ws_aux rev]. rewrite Ec, IH by assumption.
  now rewrite <- app_assoc.
Qed.

Lemma split_ws_join (ws : list str) :
  Forall palavra ws -> split_ws (join [ch_space] ws) = ws.
Proof.
  unfold split_ws.
  induction 1 as [|w ws [Wn Wf] F IH]; [reflexivity|].
  destruct w as [|x w']; [congruence|].
  destruct ws as [|w2 ws2].
  - cbn [join]. rewrite <- (app_nil_r (x :: w')) at 1.
    rewrite split_ws_aux_app_word, app_nil_r by assumption.
    cbn [split_ws_aux].
    destruct (rev (x :: w')) eqn:R; [now destruct (rev_not_nil _ _ R)|].
    now rewrite <- R, rev_involutive.
  - rewrite join_cons by discriminate.
    rewrite split_ws_aux_app_word, app_nil_r by assumption.
    cbn [app split_ws_aux]. change (isspace ch_space) with true. cbv iota.
    destruct (rev (x :: w')) eqn:R; [now destruct (rev_not_nil _ _ R)|].
    now rewrite <- R, rev_involutive, IH.
Qed.

Lemma espacos_simples_app_word (w r : str) :
  Forall (fun c => isspace c = false) w ->
  espacos_simples (w ++ r) = espacos_simples r.
Proof.
  induction 1 as [|c w Ec F IH]; [reflexivity|].
  cbn [app espacos_simples]. rewrite Ec. cbn [andb negb].
  destruct (w ++ r) eqn:E; [|exact IH].
  apply app_eq_nil in E as [_ ->]. reflexivity.
Qed.

Lemma espacos_simples_next (c y : char) (r : str) :
  isspace y = false ->
  espacos_simples (c :: y :: r) = espacos_simples (y :: r).
Proof.
  intros E.
  change (espacos_simples (c :: y :: r))
    with (negb (isspace c && isspace y) && espacos_simples (y :: r)).
  now rewrite E, andb_false_r.
Qed.

Lemma join_first (sep : str) (y : char) (w : str) (ws : list str) :
  exists r, join sep ((y :: w) :: ws) = y :: r.
Proof.
  destruct ws as [|v ws]; [now exists w|].
  rewrite join_cons by discriminate.
  now exists (w ++ sep ++ join sep (v :: ws)).
Qed.

Lemma espacos_simples_join (ws : list str) :
  Forall palavra ws -> espacos_simples (join [ch_space] ws) = true.
Proof.
  induction 1 as [|w ws [Wn Wf] F IH]; [reflexivity|].
  destruct ws as [|w2 ws2].
  - cbn [join]. rewrite <- (app_nil_r w). now rewrite espacos_simples_app_word.
  - rewrite join_cons by discriminate.
    rewrite espacos_simples_app_word by assumption.
    inversion F as [|? ? [W2n W2f] _]; subst.
    destruct w2 as [|y w2']; [congruence|]. inversion W2f; subst.
    destruct (join_first [ch_space] y w2' ws2) as (r & Er).
    assert (G : forall s, s = y :: r -> espacos_simples s = true ->
                          espacos_simples ([ch_space] ++ s) = true).
    { intros s -> Hs. cbn [app]. now rewrite espacos_simples_next. }
    exact (G _ Er IH).
Qed.

Lemma lstrip_first (c : char) (s : str) :
  isspace c = false -> lstrip (c :: s) = c :: s.
Proof. intros E. cbn [lstrip]. now rewrite E. Qed.

Lemma rstrip_last (s : str) (c : char) :
  isspace c = false -> rstrip (s ++ [c]) = s ++ [c].
Proof.
  intros E. unfold rstrip. rewrite rev_app_distr. cbn [rev app].
  rewrite lstrip_first by assumption. cbn [rev]. now rewrite rev_involutive.
Qed.

Lemma join_ends (ws : list str) (w : str) :
  exists pre, join [ch_space] (ws ++ [w]) = pre ++ w.
Proof.
  induction ws as [|v ws [pre E]]; [now exists []|].
  cbn [app]. rewrite join_cons by (now destruct ws).
  rewrite E. exists (v ++ [ch_space] ++ pre). now rewrite <- !app_assoc.
Qed.

Lemma strip_join (ws : list str) :
  Forall palavra ws -> strip (join [ch_space] ws) = join [ch_space] ws.
Proof.
  intros F. destruct ws as [|w ws]; [reflexivity|].
  assert (L : lstrip (join [ch_space] (w :: ws)) = join [ch_space] (w :: ws)).
  { inversion F as [|? ? [Wn Wf] _]; subst.
    destruct w as [|x w']; [congruence|]. inversion Wf; subst.
    destruct ws; [now apply lstrip_first|].
    rewrite join_cons by discriminate. now apply lstrip_first. }
  unfold strip. rewrite L.
  destruct (one_last (w :: ws)) as (ws' & u & E); [discriminate|].
  rewrite E in *. destruct (join_ends ws' u) as (pre & ->).
  apply Forall_app in F as [_ Fu]. inversion Fu as [|? ? [Un Uf] _]; subst.
  destruct (one_last u Un) as (u' & c & ->).
  apply Forall_app in Uf as [_ Fc]. inversion Fc; subst.
  rewrite app_assoc. now apply rstrip_last.
Qed.

Lemma replace_sem_asterisco (s : str) :
  Forall (fun c => c <> ch_asterisk) (replace ch_asterisk ch_space s).
Proof.
  unfold replace. apply Forall_map, Forall_forall. intros c _.
  destruct (char_eqb c ch_asterisk) eqn:E; [discriminate|].
  intros ->. now rewrite char_eqb_refl in E.
Qed.

Lemma limpar_descricao_normal (d : str) :
  split_ws (limpar_descricao d)
    = split_ws (replace ch_asterisk ch_space d) /\
  ~ In ch_asterisk (limpar_descricao d) /\
  Forall (fun c => isspace c = true -> c = ch_space) (limpar_descricao d) /\
  espacos_simples (limpar_descricao d) = true /\
  strip (limpar_descricao d) = limpar_descricao d.
Proof.
  unfold limpar_descricao.
  assert (W : Forall palavra (split_ws (replace ch_asterisk ch_space d)))
    by (apply split_ws_aux_palavras; constructor).
  split; [now apply split_ws_join|]. split.
  { assert (A : Forall (fun c => c <> ch_asterisk)
                  (join [ch_space] (split_ws (replace ch_asterisk ch_space d)))).
    { apply join_chars; [constructor; [discriminate | constructor]|].
      apply split_ws_aux_chars; [apply replace_sem_asterisco | constructor]. }
    intros I. rewrite Forall_forall in A. now apply (A _ I). }
  split.
  { apply join_chars; [constructor; [reflexivity | constructor]|].
    eapply Forall_impl; [|exact W]. intros w [_ Fw].
    eapply Forall_impl; [|exact Fw]. intros c E1 E2. congruence. }
  split; [now apply espacos_simples_join | now apply strip_join].
Qed.

Section Descricao.
Context `{PyLib}.

(** C8 (amended): the stored description of a parsed row is the description
    cell, ends trimmed, with every asterisk replaced by a space (not
    removed) and the words then joined by single spaces: it has the words
    of that text, no asterisk, no whitespace but single spaces between
    words, and nothing to trim at its ends. *)
Theorem descricao_armazenada :
  forall (m : mapa) (tipo_conta : str) (i : nat) (linha : dict) (t : transacao),
    processar_linha m tipo_conta i linha = Ok t ->
    exists data_str desc valor_str,
      celulas m linha data_str desc valor_str /\
      descricao t
        = join [ch_space] (split_ws (replace ch_asterisk ch_space (strip desc))) /\
      split_ws (descricao t)
        = split_ws (replace ch_asterisk ch_space (strip desc)) /\
      ~ In ch_asterisk (descricao t) /\
      Forall (fun c => isspace c = true -> c = ch_space) (descricao t) /\
      espacos_simples (descricao t) = true /\
      strip (descricao t) = descricao t.
Proof.
  intros m tipo i linha t E.
  destruct (processar_linha_ok _ _ _ _ _ E)
    as (ds & desc & vs & d & v & C & _ & _ & ->).
  exists ds, desc, vs. split; [assumption|]. split; [reflexivity|].
  apply limpar_descricao_normal.
Qed.

End Descricao.

Lemma descricao_armazenada_witness :
  exists t,
    processar_linha mapa_exemplo (u8 "banco") 0
      (dict_of_row [u8 "Data"; u8 "Histórico"; u8 "Valor"]
         [u8 "01/03/2024"; u8 "  PAG*LOJA   X "; u8 "1,00"]) = Ok t /\
    descricao t = u8 "PAG LOJA X" /\
    espacos_simples (descricao t) = true.
Proof.
  destruct (processar_linha mapa_exemplo (u8 "banco") 0
      (dict_of_row [u8 "Data"; u8 "Histórico"; u8 "Valor"]
         [u8 "01/03/2024"; u8 "  PAG*LOJA   X "; u8 "1,00"])) as [t|e] eqn:E;
    [|vm_compute in E; discriminate].
  destruct (descricao_armazenada _ _ _ _ _ E)
    as (ds & desc & vs & _ & _ & _ & _ & _ & S & _).
  exists t. split; [reflexivity|]. split; [|exact S].
  vm_compute in E. injection E as <-. vm_compute. reflexivity.
Defined.

(** C8 (as stated) fails: an asterisk between two letters is not removed
    but becomes a space, so the two letters end up in different words. *)
Lemma descricao_asterisco_counterexample :
  exists t,
    analisar_transacoes (u8 "Data;Histórico;Valor")
      [u8 "01/03/2024;PAG*LOJA;1,00"] (u8 "banco")
      = ([], Ok ([t], None, None)) /\
    descricao t = u8 "PAG LOJA" /\
    limpar_descricao_spec (u8 "PAG*LOJA") = u8 "PAGLOJA" /\
    descricao t <> limpar_descricao_spec (u8 "PAG*LOJA").
Proof.
  eexists. split; [vm_compute; reflexivity|].
  split; [vm_compute; reflexivity|].
  split; [vm_compute; reflexivity | vm_compute; discriminate].
Qed.

(** ** Rows that lack a cell *)

(** C1: a row with fewer cells than the header, so that the amount cell is
    absent, does not get skipped: the attribute error raised on the absent
    cell is not among the exceptions the row loop catches, the extraction
    ends with it and the rows that follow are not read; the same row makes
    the whole conversion end with that exception. A row with a malformed
    date, in the same place, is skipped with a warning and the next row is
    parsed. *)
Theorem linha_curta_interrompe_extracao :
  analisar_transacoes (u8 "Banco;Data;Histórico;Valor")
    [u8 "001;01/03/2024;Compra"; u8 "001;02/03/2024;Loja;10,00"] (u8 "banco")
    = ([], Raise AttributeError) /\
  converter
    (Ok [u8 "Banco;Data;Histórico;Valor" ++ nl;
         u8 "001;01/03/2024;Compra" ++ nl;
         u8 "001;02/03/2024;Loja;10,00" ++ nl]) (u8 "banco")
    = ([], Raise AttributeError) /\
  capturada_na_linha AttributeError = false /\
  exists aviso t,
    analisar_transacoes (u8 "Banco;Data;Histórico;Valor")
      [u8 "001;2024-03-01;Compra;5,00"; u8 "001;02/03/2024;Loja;10,00"]
      (u8 "banco")
      = ([aviso], Ok ([t], Some (u8 "001"), None)) /\
    descricao t = u8 "Loja".
Proof.
  split; [vm_compute; reflexivity|].
  split; [vm_compute; reflexivity|].
  split; [reflexivity|].
  eexists. eexists. split; vm_compute; reflexivity.
Qed.

(** ** The statements on headers, at concrete headers *)

Lemma campo_obrigatorio_ausente_witness :
  exists c',
    analisar_transacoes (u8 "Data;Valor") [u8 "01/03/2024;1,00;x"] (u8 "banco")
    = ([ErroColunaNaoEncontrada c';
        ErroOpcoesAceitas c' (nomes_de MAPEAMENTO_CAMPOS c')],
       Ok ([], None, None)).
Proof.
  assert (I : In c_descricao campos_obrigatorios) by (cbn; auto).
  assert (N : forall nome, In nome (nomes_de MAPEAMENTO_CAMPOS c_descricao) ->
                           ~ In nome (cabecalho_busca (u8 "Data;Valor"))).
  { apply primeiro_presente_none. vm_compute. reflexivity. }
  destruct (campo_obrigatorio_ausente_aborta (u8 "Data;Valor")
              [u8 "01/03/2024;1,00;x"] (u8 "banco") c_descricao I N)
    as (c' & _ & _ & E).
  exists c'. exact E.
Defined.


(** C7 (as stated) fails: the two headers below have the same four column
    names in another order, yet the date resolves to the column [Data] in
    one and to the column [DATA] in the other, the first of the two in
    each; of the same row, with its cells in the order of each header,
    the date read is the first of March under one header and the second
    of March under the other. *)
Lemma resolucao_depende_da_ordem_counterexample :
  cabecalho_original (u8 "Data;DATA;Histórico;Valor")
    = [u8 "Data"; u8 "DATA"; u8 "Histórico"; u8 "Valor"] /\
  cabecalho_original (u8 "DATA;Data;Histórico;Valor")
    = [u8 "DATA"; u8 "Data"; u8 "Histórico"; u8 "Valor"] /\
  cabecalho_busca (u8 "Data;DATA;Histórico;Valor")
    = [u8 "data"; u8 "data"; u8 "histórico"; u8 "valor"] /\
  cabecalho_busca (u8 "DATA;Data;Histórico;Valor")
    = [u8 "data"; u8 "data"; u8 "histórico"; u8 "valor"] /\
  exists m1 m2 t1 t2,
    mapa_final (u8 "Data;DATA;Histórico;Valor") = Ok m1 /\
    mapa_final (u8 "DATA;Data;Histórico;Valor") = Ok m2 /\
    mapa_get m1 c_data = Some (u8 "Data") /\
    mapa_get m2 c_data = Some (u8 "DATA") /\
    analisar_transacoes (u8 "Data;DATA;Histórico;Valor")
      [u8 "01/03/2024;02/03/2024;Compra;1,00"] (u8 "banco")
      = ([], Ok ([t1], None, None)) /\
    analisar_transacoes (u8 "DATA;Data;Histórico;Valor")
      [u8 "02/03/2024;01/03/2024;Compra;1,00"] (u8 "banco")
      = ([], Ok ([t2], None, None)) /\
    data t1 = mk_datetime 2024 3 1 /\
    data t2 = mk_datetime 2024 3 2.
Proof.
  split; [vm_compute; reflexivity|].
  split; [vm_compute; reflexivity|].
  split; [vm_compute; reflexivity|].
  split; [vm_compute; reflexivity|].
  eexists. eexists. eexists. eexists.
  split; [vm_compute; reflexivity|].
  split; [vm_compute; reflexivity|].
  split; [vm_compute; reflexivity|].
  split; [vm_compute; reflexivity|].
  split; [vm_compute; reflexivity|].
  split; [vm_compute; reflexivity|].
  split; vm_compute; reflexivity.
Qed.

(** ** The scenarios of the specification *)

Example cenario_banco :
  exists t doc,
    analisar_transacoes (u8 "Data;Histórico;Valor")
      [u8 "01/03/2024;Compra Loja X;150,00"] (u8 "banco")
    = ([], Ok ([t], None, None)) /\
    data t = mk_datetime 2024 3 1 /\
    descricao t = u8 "Compra Loja X" /\
    format_2f (valor t) = u8 "150.00" /\
    tipo_transacao t = u8 "CREDIT" /\
    gerar_ofx [t] (u8 "banco") None None = ([ArquivoGerado 1], Some doc) /\
    template_lista_transacoes (strftime_Ymd (data t)) (strftime_Ymd (data t))
    = texto [ u8 "        <BANKTRANLIST>";
              u8 "          <DTSTART>20240301</DTSTART>";
              u8 "          <DTEND>20240301</DTEND>";
              [] ] /\
    bloco_transacao t
    = texto [ u8 "          <STMTTRN>";
              u8 "            <TRNTYPE>CREDIT</TRNTYPE>";
              u8 "            <DTPOSTED>20240301</DTPOSTED>";
              u8 "            <TRNAMT>150,00</TRNAMT>";
              u8 "            <FITID>1037b2edd07b3c83ff01e7a4e9c97dde</FITID>";
              u8 "            <CHECKNUM></CHECKNUM>";
              u8 "            <MEMO>Compra Loja X</MEMO>";
              u8 "          </STMTTRN>";
              [] ].
Proof.
  eexists. eexists. split; [vm_compute; reflexivity|].
  repeat (split; [vm_compute; reflexivity|]).
  vm_compute. reflexivity.
Qed.

Example cenario_credito :
  exists t,
    analisar_transacoes (u8 "Data;Histórico;Valor")
      [u8 "01/03/2024;Compra Loja X;150,00"] credito
    = ([], Ok ([t], None, None)) /\
    format_2f (valor t) = u8 "-150.00" /\
    tipo_transacao t = u8 "DEBIT".
Proof.
  eexists. split; [vm_compute; reflexivity|].
  split; vm_compute; reflexivity.
Qed.

Example cenario_sem_dados :
  converter (Ok [u8 "Data;Histórico;Valor" ++ nl]) (u8 "banco")
  = ([ProcessoFinalizado], Ok None).
Proof. vm_compute. reflexivity. Qed.

(** * Further properties of the code *)

(** ** Line repair: what passes through, what is counted *)

Lemma corrigir_linha_aceita (acc : list str) (linha : str) :
  linha_aceita linha = true ->
  corrigir_linha acc linha = Ok (acc ++ [strip linha]).
Proof.
  unfold linha_aceita, corrigir_linha.
  destruct (strip linha) as [|c r]; [discriminate|].
  intros E. apply negb_true_iff in E. now rewrite E.
Qed.

Lemma corrigir_linha_em_branco (acc : list str) (linha : str) :
  linha_em_branco linha = true -> corrigir_linha acc linha = Ok acc.
Proof.
  unfold linha_em_branco, corrigir_linha.
  now destruct (strip linha).
Qed.

Lemma corrigir_linha_length (acc : list str) (linha : str) :
  Forall aceita acc ->
  exists acc', corrigir_linha acc linha = Ok acc' /\ Forall aceita acc' /\
               List.length acc' =
               List.length acc + (if linha_aceita linha then 1 else 0).
Proof.
  intros F. unfold corrigir_linha, linha_aceita.
  destruct (strip linha) as [|c r] eqn:E.
  - exists acc. repeat split; [assumption | lia].
  - destruct (Nat.ltb (count ch_semicolon (c :: r)) 2) eqn:B; cbn [negb].
    + destruct acc as [|a acc0] eqn:Ea.
      * exists []. repeat split; constructor.
      * rewrite <- Ea in *.
        destruct (anexar_a_anterior_aceitas acc (c :: r) F)
          as (acc' & H1 & H2 & H3); [subst; discriminate|].
        exists acc'. repeat split; [assumption.. | lia].
    + eexists. split; [reflexivity|]. split.
      * apply Forall_app; split; [assumption|].
        constructor; [|constructor]. apply Nat.ltb_ge in B. exact B.
      * rewrite length_app. reflexivity.
Qed.

Lemma corrigir_linhas_aceitas_passam (dados : list str) :
  Forall (fun l => linha_aceita l = true) dados ->
  forall acc, corrigir_linhas acc dados = Ok (acc ++ map strip dados).
Proof.
  induction 1 as [|l dados A F IH]; intros acc; cbn [corrigir_linhas map].
  - now rewrite app_nil_r.
  - rewrite (corrigir_linha_aceita acc l A). cbn [bind].
    rewrite IH, <- app_assoc. reflexivity.
Qed.

(** X1: data lines that all are, once trimmed, not blank and with at least
    two delimiters come out of the preprocessor trimmed and otherwise
    unchanged, one for one and in order. *)
Theorem linhas_bem_formadas_passam :
  forall (linha0 : str) (linhas_de_dados : list str),
    Forall (fun l => linha_aceita l = true) linhas_de_dados ->
    preprocessar_csv_corrigindo_linhas (Ok (linha0 :: linhas_de_dados))
    = ([], Ok (Some (strip linha0), Some (map strip linhas_de_dados))).
Proof.
  intros linha0 dados F.
  unfold preprocessar_csv_corrigindo_linhas.
  now rewrite (corrigir_linhas_aceitas_passam dados F).
Qed.

Lemma linhas_bem_formadas_witness :
  preprocessar_csv_corrigindo_linhas
    (Ok [u8 "Data;Valor;Memo" ++ nl; u8 "01/03/2024;1,00;x " ++ nl;
         u8 " 02/03/2024;2,00;y" ++ nl])
  = ([], Ok (Some (u8 "Data;Valor;Memo"),
             Some [u8 "01/03/2024;1,00;x"; u8 "02/03/2024;2,00;y"])).
Proof.
  assert (F : Forall (fun l => linha_aceita l = true)
                [u8 "01/03/2024;1,00;x " ++ nl; u8 " 02/03/2024;2,00;y" ++ nl]).
  { repeat constructor; vm_compute; reflexivity. }
  etransitivity;
    [exact (linhas_bem_formadas_passam (u8 "Data;Valor;Memo" ++ nl) _ F)|].
  vm_compute. reflexivity.
Defined.

(** X2: blank data lines do not take part in the repair: with or without
    them the preprocessor returns the same pair, so a blank line never
    separates a broken line from the line it is merged into. *)
Theorem linhas_em_branco_ignoradas :
  forall (linha0 : str) (linhas_de_dados : list str),
    preprocessar_csv_corrigindo_linhas
      (Ok (linha0 :: filter (fun l => negb (linha_em_branco l)) linhas_de_dados))
    = preprocessar_csv_corrigindo_linhas (Ok (linha0 :: linhas_de_dados)).
Proof.
  intros linha0 dados.
  assert (G : forall acc,
             corrigir_linhas acc
               (filter (fun l => negb (linha_em_branco l)) dados)
             = corrigir_linhas acc dados).
  { induction dados as [|l dados IH]; intros acc; [reflexivity|].
    cbn [filter]. destruct (linha_em_branco l) eqn:B; cbn [negb corrigir_linhas].
    - rewrite (corrigir_linha_em_branco acc l B). cbn [bind]. apply IH.
    - destruct (corrigir_linha acc l); cbn [bind]; [apply IH | reflexivity]. }
  unfold preprocessar_csv_corrigindo_linhas. now rewrite G.
Qed.

(** X3: the preprocessor returns exactly as many data lines as the file has
    data lines that are not blank and have at least two delimiters: a
    broken line never adds a line and a merge never removes one. *)
Theorem numero_de_linhas_corrigidas :
  forall (linha0 : str) (linhas_de_dados : list str),
    exists linhas_corrigidas,
      preprocessar_csv_corrigindo_linhas (Ok (linha0 :: linhas_de_dados))
      = ([], Ok (Some (strip linha0), Some linhas_corrigidas)) /\
      List.length linhas_corrigidas
      = List.length (filter linha_aceita linhas_de_dados).
Proof.
  intros linha0 dados.
  assert (G : forall acc, Forall aceita acc ->
             exists lc, corrigir_linhas acc dados = Ok lc /\
                        List.length lc
                        = List.length acc
                          + List.length (filter linha_aceita dados)).
  { induction dados as [|l dados IH]; intros acc F; cbn [corrigir_linhas filter].
    - exists acc. split; [reflexivity | cbn; lia].
    - destruct (corrigir_linha_length acc l F) as (acc1 & -> & F1 & L1).
      cbn [bind]. destruct (IH acc1 F1) as (lc & -> & L).
      exists lc. split; [reflexivity|].
      rewrite L, L1. destruct (linha_aceita l); cbn [List.length]; lia. }
  destruct (G [] (Forall_nil _)) as (lc & E & L).
  exists lc. unfold preprocessar_csv_corrigindo_linhas. rewrite E.
  split; [reflexivity | exact L].
Qed.

(** ** Line repair: the fields of a repaired line *)

Lemma split_app_sep (c : char) (p s : str) :
  count c p = 0 -> split c (p ++ c :: s) = p :: split c s.
Proof.
  induction p as [|x p IH]; cbn [app split count].
  - now rewrite char_eqb_refl.
  - destruct (char_eqb x c); [discriminate|]. intros Z.
    now rewrite (IH Z).
Qed.

Lemma split_join (c : char) (ps : list str) :
  ps <> [] -> Forall (fun p => count c p = 0) ps ->
  split c (join [c] ps) = ps.
Proof.
  intros N F. induction F as [|p ps Z F IH]; [congruence|].
  destruct ps as [|q qs].
  - cbn [join]. now apply split_count_zero.
  - rewrite join_cons by discriminate. cbn [app].
    rewrite split_app_sep by assumption. f_equal. apply IH. discriminate.
Qed.

(** X4: a merge changes one field only: a line that is split again after
    a broken line was merged into it has the fields it had, in the same
    number, all unchanged but the second-to-last, so the delimiter count
    of the line is kept. *)
Theorem reparo_preserva_campos :
  forall (anteriores : list str) (anterior linha : str),
    aceita anterior ->
    strip linha <> [] ->
    count ch_semicolon (strip linha) < 2 ->
    exists campos p z novo,
      split ch_semicolon anterior = campos ++ [p; z] /\
      corrigir_linha (anteriores ++ [anterior]) linha
        = Ok (anteriores ++ [novo]) /\
      split ch_semicolon novo
        = campos ++ [p ++ [ch_space]
                       ++ hd [] (split ch_semicolon (strip linha)); z] /\
      count ch_semicolon novo = count ch_semicolon anterior.
Proof.
  intros anteriores anterior linha A Hs Hc.
  destruct (aceita_campos _ A) as (campos & p & z & E & _).
  set (frag := hd [] (split ch_semicolon (strip linha))).
  exists campos, p, z,
    (join [ch_semicolon] (campos ++ [p ++ [ch_space] ++ frag; z])).
  split; [assumption|].
  assert (R : corrigir_linha (anteriores ++ [anterior]) linha
              = Ok (anteriores ++
                    [join [ch_semicolon]
                       (campos ++ [p ++ [ch_space] ++ frag; z])])).
  { unfold corrigir_linha.
    destruct (strip linha) as [|c r] eqn:Es; [congruence|].
    apply Nat.ltb_lt in Hc. rewrite Hc.
    destruct (anteriores ++ [anterior]) as [|a l] eqn:Ea;
      [now destruct anteriores|].
    rewrite <- Ea. apply (anexar_a_anterior_eq _ _ _ _ _ _ E). }
  split; [exact R|].
  assert (S : split ch_semicolon
                (join [ch_semicolon] (campos ++ [p ++ [ch_space] ++ frag; z]))
              = campos ++ [p ++ [ch_space] ++ frag; z]).
  { apply split_join; [now destruct campos|].
    pose proof (split_count ch_semicolon anterior) as F. rewrite E in F.
    apply Forall_app in F as [Fc Fpz].
    inversion Fpz as [|? ? Zp Fz]; subst. inversion Fz as [|? ? Zz _]; subst.
    apply Forall_app; split; [assumption|].
    constructor; [|constructor; [assumption | constructor]].
    rewrite !count_app, Zp. unfold frag. now rewrite hd_split_count. }
  split; [exact S|].
  pose proof (split_length ch_semicolon anterior) as L1.
  pose proof (split_length ch_semicolon
                (join [ch_semicolon]
                   (campos ++ [p ++ [ch_space] ++ frag; z]))) as L2.
  rewrite E in L1. rewrite S in L2. rewrite !length_app in *.
  cbn [List.length] in *. lia.
Qed.

Lemma reparo_preserva_campos_witness :
  exists novo,
    corrigir_linha ([] ++ [u8 "01/03/2024;Compra;150,00"]) (u8 " Loja X" ++ nl)
      = Ok ([] ++ [novo]) /\
    count ch_semicolon novo = count ch_semicolon (u8 "01/03/2024;Compra;150,00").
Proof.
  assert (A : aceita (u8 "01/03/2024;Compra;150,00"))
    by (unfold aceita; vm_compute; lia).
  assert (H2 : strip (u8 " Loja X" ++ nl) <> []) by (vm_compute; discriminate).
  assert (H3 : count ch_semicolon (strip (u8 " Loja X" ++ nl)) < 2)
    by (vm_compute; lia).
  destruct (reparo_preserva_campos [] _ _ A H2 H3)
    as (campos & p & z & novo & _ & R & _ & C).
  exists novo. split; assumption.
Defined.

(** ** Line repair: the output needs no repair *)

Lemma lstrip_head (s : str) :
  match lstrip s with
  | [] => True
  | c :: _ => isspace c = false
  end.
Proof.
  induction s as [|x s IH]; cbn [lstrip]; [exact I|].
  destruct (isspace x) eqn:E; [exact IH | exact E].
Qed.

Lemma lstrip_app_nonspace (u : str) (c : char) (v : str) :
  isspace c = false -> lstrip (u ++ c :: v) = lstrip u ++ c :: v.
Proof.
  intros E. induction u as [|x u IH]; cbn [app lstrip].
  - now rewrite E.
  - destruct (isspace x); [exact IH | reflexivity].
Qed.

Lemma bordas_ok_strip (s : str) : bordas_ok s -> strip s = s.
Proof.
  intros [Hh Hl]. destruct s as [|c s]; [reflexivity|].
  unfold strip. rewrite lstrip_first by assumption.
  destruct (rev (c :: s)) as [|d r] eqn:R; [now destruct (rev_not_nil _ _ R)|].
  apply (f_equal (@rev char)) in R. rewrite rev_involutive in R.
  cbn [rev] in R. rewrite R. now apply rstrip_last.
Qed.

Lemma strip_bordas_ok (s : str) : bordas_ok (strip s).
Proof.
  unfold strip, rstrip. split.
  - pose proof (lstrip_head s) as Hh.
    destruct (lstrip s) as [|c t]; [exact I|].
    cbn [rev]. rewrite lstrip_app_nonspace by assumption.
    rewrite rev_app_distr. cbn [rev app]. exact Hh.
  - rewrite rev_involutive. apply lstrip_head.
Qed.

Lemma strip_strip (s : str) : strip (strip s) = strip s.
Proof. apply bordas_ok_strip, strip_bordas_ok. Qed.

Lemma join_snoc (sep : str) (ws : list str) (z : str) :
  ws <> [] -> join sep (ws ++ [z]) = join sep ws ++ sep ++ z.
Proof.
  induction ws as [|w ws IH]; [congruence|]. intros _.
  destruct ws as [|v vs]; [reflexivity|].
  cbn [app]. rewrite (join_cons sep w (v :: vs ++ [z])) by discriminate.
  cbn [app] in IH. rewrite IH by discriminate.
  rewrite (join_cons sep w (v :: vs)) by discriminate.
  now rewrite <- !app_assoc.
Qed.

Lemma bordas_ok_meio (f : str) (c : char) (X Y z : str) :
  bordas_ok (f ++ c :: X ++ c :: z) -> bordas_ok (f ++ c :: Y ++ c :: z).
Proof.
  unfold bordas_ok. intros [Hh Hl]. split.
  - destruct f; exact Hh.
  - revert Hl.
    rewrite !rev_app_distr. cbn [rev]. rewrite !rev_app_distr. cbn [rev].
    rewrite <- !app_assoc. destruct (rev z); cbn [app]; auto.
Qed.

Lemma join_bordas (campos : list str) (p p' z : str) :
  campos <> [] ->
  bordas_ok (join [ch_semicolon] (campos ++ [p; z])) ->
  bordas_ok (join [ch_semicolon] (campos ++ [p'; z])).
Proof.
  intros N. destruct campos as [|f cs]; [congruence|].
  assert (J : forall q,
             join [ch_semicolon] ((f :: cs) ++ [q; z])
             = f ++ ch_semicolon :: join [ch_semicolon] (cs ++ [q])
                 ++ ch_semicolon :: z).
  { intros q.
    replace ((f :: cs) ++ [q; z]) with (f :: ((cs ++ [q]) ++ [z]))
      by (cbn [app]; now rewrite <- app_assoc).
    rewrite (join_cons [ch_semicolon] f ((cs ++ [q]) ++ [z]))
      by (intros H; symmetry in H; apply (app_cons_not_nil _ _ _ H)).
    rewrite (join_snoc [ch_semicolon] (cs ++ [q]) z)
      by (intros H; symmetry in H; apply (app_cons_not_nil _ _ _ H)).
    reflexivity. }
  rewrite !J. apply bordas_ok_meio.
Qed.

Lemma corrigir_linha_bordas (acc : list str) (linha : str) :
  Forall (fun l => bordas_ok l /\ aceita l) acc ->
  exists acc', corrigir_linha acc linha = Ok acc'
               /\ Forall (fun l => bordas_ok l /\ aceita l) acc'.
Proof.
  intros F. unfold corrigir_linha.
  destruct (strip linha) as [|c r] eqn:E; [now exists acc|].
  destruct (Nat.ltb (count ch_semicolon (c :: r)) 2) eqn:B.
  - destruct acc as [|a acc0] eqn:Ea; [now exists []|].
    rewrite <- Ea in *. assert (N : acc <> []) by (subst; discriminate).
    destruct (one_last _ N) as (anteriores & anterior & ->).
    apply Forall_app in F as [Fa Fl].
    inversion Fl as [|? ? [Bo A] _]; subst.
    destruct (aceita_campos _ A) as (campos & p & z & Es & Nc).
    rewrite (anexar_a_anterior_eq _ _ _ _ _ _ Es).
    eexists. split; [reflexivity|].
    apply Forall_app; split; [assumption|]. constructor; [|constructor].
    split.
    + apply (join_bordas campos p); [assumption|].
      rewrite <- Es, join_split. exact Bo.
    + unfold aceita. etransitivity; [|apply count_join_ge].
      rewrite length_app. cbn [List.length].
      destruct campos; [congruence | cbn [List.length]; lia].
  - eexists. split; [reflexivity|]. apply Forall_app; split; [assumption|].
    constructor; [|constructor]. split.
    + rewrite <- E. apply strip_bordas_ok.
    + apply Nat.ltb_ge in B. exact B.
Qed.

Lemma corrigir_linhas_bordas (linhas : list str) :
  forall acc,
    Forall (fun l => bordas_ok l /\ aceita l) acc ->
    exists acc', corrigir_linhas acc linhas = Ok acc'
                 /\ Forall (fun l => bordas_ok l /\ aceita l) acc'.
Proof.
  induction linhas as [|l linhas IH]; intros acc F; cbn [corrigir_linhas].
  - now exists acc.
  - destruct (corrigir_linha_bordas acc l F) as (acc1 & -> & F1).
    cbn [bind]. apply IH, F1.
Qed.

(** X5: the preprocessor is idempotent: given its own output (the header
    it returned followed by the data lines it returned) it returns the
    same header and the same data lines, every one of which is trimmed,
    not blank and with at least two delimiters. *)
Theorem preprocessar_idempotente :
  forall (linha0 : str) (linhas_de_dados : list str),
    exists linhas_corrigidas,
      preprocessar_csv_corrigindo_linhas (Ok (linha0 :: linhas_de_dados))
      = ([], Ok (Some (strip linha0), Some linhas_corrigidas)) /\
      Forall (fun l => strip l = l /\ linha_aceita l = true) linhas_corrigidas /\
      preprocessar_csv_corrigindo_linhas (Ok (strip linha0 :: linhas_corrigidas))
      = ([], Ok (Some (strip linha0), Some linhas_corrigidas)).
Proof.
  intros linha0 dados.
  destruct (corrigir_linhas_bordas dados [] (Forall_nil _)) as (lc & E & F).
  exists lc.
  assert (G : Forall (fun l => strip l = l /\ linha_aceita l = true) lc).
  { eapply Forall_impl; [|exact F]. intros l [Bo A].
    pose proof (bordas_ok_strip l Bo) as S. split; [exact S|].
    unfold linha_aceita. rewrite S. unfold aceita in A.
    destruct l as [|c r]; [cbn in A; lia|].
    apply negb_true_iff, Nat.ltb_ge. exact A. }
  split; [unfold preprocessar_csv_corrigindo_linhas; now rewrite E|].
  split; [exact G|].
  unfold preprocessar_csv_corrigindo_linhas.
  rewrite (corrigir_linhas_aceitas_passam lc)
    by (eapply Forall_impl; [|exact G]; now intros l [_ A]).
  assert (M : map strip lc = lc).
  { clear E F. induction G as [|l lc [S _] G IH]; [reflexivity|].
    cbn [map]. now rewrite S, IH. }
  rewrite strip_strip. cbn [app bind]. now rewrite M.
Qed.

(** ** Row dictionaries *)

Lemma chave_eqb_eq (a b : chave) : chave_eqb a b = true <-> a = b.
Proof.
  destruct a as [x|], b as [y|]; cbn [chave_eqb];
    try (split; [discriminate | discriminate]); [|tauto].
  rewrite str_eqb_eq. split; [now intros -> | now intros [= ->]].
Qed.

Lemma chave_eqb_refl (a : chave) : chave_eqb a a = true.
Proof. now apply chave_eqb_eq. Qed.

Lemma dict_get_set_same (d : dict) (k : chave) (v : valor_csv) :
  dict_get (dict_set d k v) k = Some v.
Proof.
  induction d as [|[k0 v0] d IH]; cbn [dict_set dict_get].
  - now rewrite chave_eqb_refl.
  - destruct (chave_eqb k0 k) eqn:E; cbn [dict_get]; rewrite E;
      [reflexivity | exact IH].
Qed.

Lemma dict_get_set_other (d : dict) (k k' : chave) (v : valor_csv) :
  k <> k' -> dict_get (dict_set d k v) k' = dict_get d k'.
Proof.
  intros N. induction d as [|[k0 v0] d IH]; cbn [dict_set dict_get].
  - destruct (chave_eqb k k') eqn:E; [|reflexivity].
    apply chave_eqb_eq in E. congruence.
  - destruct (chave_eqb k0 k) eqn:E; cbn [dict_get].
    + apply chave_eqb_eq in E. subst k0.
      destruct (chave_eqb k k') eqn:E'; [|reflexivity].
      apply chave_eqb_eq in E'. congruence.
    + destruct (chave_eqb k0 k'); [reflexivity | exact IH].
Qed.

Lemma zipar_get_None (l : list (str * str)) :
  forall d,
    dict_get (fold_left (fun d kv => dict_set d (Some (fst kv)) (VStr (snd kv)))
                l d) None
    = dict_get d None.
Proof.
  induction l as [|[k s] l IH]; intros d; cbn [fold_left]; [reflexivity|].
  rewrite IH. apply dict_get_set_other. discriminate.
Qed.

Lemma zipar_get_notin (l : list (str * str)) (k : str) :
  ~ In k (map fst l) ->
  forall d,
    dict_get (fold_left (fun d kv => dict_set d (Some (fst kv)) (VStr (snd kv)))
                l d) (Some k)
    = dict_get d (Some k).
Proof.
  induction l as [|[k0 s] l IH]; intros N d; cbn [fold_left]; [reflexivity|].
  cbn [map fst In] in N. rewrite IH by tauto.
  apply dict_get_set_other. intros [= ->]. tauto.
Qed.

Lemma zipar_get_in (l : list (str * str)) (k : str) :
  In k (map fst l) ->
  forall d, exists s,
    dict_get (fold_left (fun d kv => dict_set d (Some (fst kv)) (VStr (snd kv)))
                l d) (Some k)
    = Some (VStr s).
Proof.
  induction l as [|[k0 s0] l IH]; intros I d; [destruct I|].
  cbn [fold_left fst snd].
  destruct (in_dec (list_eq_dec N.eq_dec) k (map fst l)) as [Y|Nn].
  - now apply IH.
  - destruct I as [E|I]; [|tauto]. cbn [fst] in E. subst k0.
    exists s0. rewrite zipar_get_notin by assumption.
    apply dict_get_set_same.
Qed.

Lemma map_fst_combine {A B} (f : list A) (row : list B) :
  List.length f <= List.length row -> map fst (combine f row) = f.
Proof.
  revert row; induction f as [|x f IH]; intros [|y row] L; cbn in *;
    try reflexivity; [lia|].
  f_equal. apply IH. lia.
Qed.

Lemma anular_get (ks : list str) (k : chave) :
  forall d, dict_get d k <> None ->
            dict_get (fold_left (fun d k => dict_set d (Some k) VNone) ks d) k
            <> None.
Proof.
  induction ks as [|k0 ks IH]; intros d N; cbn [fold_left]; [exact N|].
  apply IH. destruct (chave_eqb (Some k0) k) eqn:E.
  - apply chave_eqb_eq in E. subst k. rewrite dict_get_set_same. discriminate.
  - rewrite dict_get_set_other; [exact N|].
    intros X. rewrite X, chave_eqb_refl in E. discriminate.
Qed.

Lemma anular_get_in (ks : list str) (k : str) :
  In k ks ->
  forall d, dict_get (fold_left (fun d k => dict_set d (Some k) VNone) ks d)
              (Some k) <> None.
Proof.
  induction ks as [|k0 ks IH]; intros I d; [destruct I|].
  cbn [fold_left]. destruct I as [->|I]; [|now apply IH].
  apply anular_get. rewrite dict_get_set_same. discriminate.
Qed.

Lemma anular_get_None (ks : list str) :
  forall d, dict_get (fold_left (fun d k => dict_set d (Some k) VNone) ks d) None
            = dict_get d None.
Proof.
  induction ks as [|k0 ks IH]; intros d; cbn [fold_left]; [reflexivity|].
  rewrite IH. apply dict_get_set_other. discriminate.
Qed.

Lemma map_fst_combine_firstn {A B} (f : list A) (row : list B) :
  map fst (combine f row) = firstn (List.length row) f.
Proof.
  revert row; induction f as [|x f IH]; intros [|y row]; cbn;
    try reflexivity. f_equal. apply IH.
Qed.

(** Every header name is a key of the dictionary of a row. *)
Lemma dict_of_row_chave (fieldnames row : list str) (k : str) :
  In k fieldnames ->
  dict_get (dict_of_row fieldnames row) (Some k) <> None.
Proof.
  intros I. unfold dict_of_row.
  destruct (Nat.ltb (List.length fieldnames) (List.length row)) eqn:B1.
  - apply Nat.ltb_lt in B1.
    rewrite dict_get_set_other by discriminate.
    destruct (zipar_get_in (combine fieldnames row) k) with (d := @nil (chave * valor_csv))
      as (s & ->); [|discriminate].
    rewrite map_fst_combine by lia. exact I.
  - destruct (Nat.ltb (List.length row) (List.length fieldnames)) eqn:B2.
    + rewrite <- (firstn_skipn (List.length row) fieldnames) in I.
      apply in_app_or in I as [I|I].
      * apply anular_get.
        destruct (zipar_get_in (combine fieldnames row) k)
          with (d := @nil (chave * valor_csv)) as (s & ->); [|discriminate].
        now rewrite map_fst_combine_firstn.
      * now apply anular_get_in.
    + apply Nat.ltb_ge in B1, B2.
      destruct (zipar_get_in (combine fieldnames row) k)
        with (d := @nil (chave * valor_csv)) as (s & ->); [|discriminate].
      rewrite map_fst_combine by lia. exact I.
Qed.

(** A row with a cell for every column has a string under every header
    name. *)
Lemma dict_of_row_celula (fieldnames row : list str) (k : str) :
  In k fieldnames -> List.length fieldnames <= List.length row ->
  exists s, dict_get (dict_of_row fieldnames row) (Some k) = Some (VStr s).
Proof.
  intros I L. unfold dict_of_row.
  assert (Z : exists s,
             dict_get (fold_left
                         (fun d kv => dict_set d (Some (fst kv)) (VStr (snd kv)))
                         (combine fieldnames row) []) (Some k)
             = Some (VStr s)).
  { apply zipar_get_in. now rewrite map_fst_combine. }
  destruct (Nat.ltb (List.length fieldnames) (List.length row)).
  - rewrite dict_get_set_other by discriminate. exact Z.
  - destruct (Nat.ltb (List.length row) (List.length fieldnames)) eqn:B2;
      [apply Nat.ltb_lt in B2; lia | exact Z].
Qed.

(** The surplus cells of a row are under the key [None], and nothing else
    ever is. *)
Lemma dict_of_row_resto (fieldnames row : list str) :
  dict_get (dict_of_row fieldnames row) None
  = if Nat.ltb (List.length fieldnames) (List.length row)
    then Some (VLista (skipn (List.length fieldnames) row))
    else None.
Proof.
  unfold dict_of_row.
  destruct (Nat.ltb (List.length fieldnames) (List.length row)).
  - apply dict_get_set_same.
  - destruct (Nat.ltb (List.length row) (List.length fieldnames)).
    + rewrite anular_get_None. now rewrite zipar_get_None.
    + now rewrite zipar_get_None.
Qed.

Lemma campo_ausente_none (m : mapa) :
  campo_ausente m campos_obrigatorios = None ->
  exists kd ks kv,
    mapa_get m c_data = Some kd /\ mapa_get m c_descricao = Some ks
    /\ mapa_get m c_valor = Some kv.
Proof.
  unfold campos_obrigatorios. cbn [campo_ausente].
  destruct (mapa_get m c_data) as [kd|]; [|discriminate].
  destruct (mapa_get m c_descricao) as [ks|]; [|discriminate].
  destruct (mapa_get m c_valor) as [kv|]; [|discriminate].
  intros _. now exists kd, ks, kv.
Qed.

(** ** Rows: what can be raised, what is kept *)

Section Linhas.
Context `{PyLib}.

Lemma processar_linha_erros (m : mapa) (tipo_conta : str) (i : nat)
  (linha : dict) (kd ks kv : str) (vd vs vv : valor_csv) :
  mapa_get m c_data = Some kd -> dict_get linha (Some kd) = Some vd ->
  mapa_get m c_descricao = Some ks -> dict_get linha (Some ks) = Some vs ->
  mapa_get m c_valor = Some kv -> dict_get linha (Some kv) = Some vv ->
  match processar_linha m tipo_conta i linha with
  | Ok _ => True
  | Raise e =>
    (e = ValueError \/ e = AttributeError \/ e = TypeError) /\
    ((exists a b c, vd = VStr a /\ vs = VStr b /\ vv = VStr c) ->
     e = ValueError)
  end.
Proof.
  intros Kd Vd Ks Vs Kv Vv.
  unfold processar_linha, mapa_index, dict_index.
  rewrite Kd, Ks, Kv. cbn [bind]. rewrite Vd, Vs, Vv. cbn [bind].
  destruct vs as [b| |]; cbn [valor_strip bind];
    try (split; [tauto | intros (? & ? & ? & _ & X & _); discriminate]).
  destruct vd as [a| |]; cbn [valor_strptime bind];
    try (split; [tauto | intros (? & ? & ? & X & _ & _); discriminate]).
  destruct (strptime_dmY a); cbn [bind]; [|split; tauto].
  destruct vv as [c| |]; cbn [valor_float bind];
    try (split; [tauto | intros (? & ? & ? & _ & _ & X); discriminate]).
  destruct (float_of_str (replace ch_comma ch_dot c)); cbn [bind];
    [exact I | split; tauto].
Qed.

Lemma mapa_final_em_cabecalho (cabecalho_str : str) (m : mapa) (c : campo)
  (k : str) :
  mapa_final cabecalho_str = Ok m -> mapa_get m c = Some k ->
  In k (cabecalho_original cabecalho_str).
Proof.
  intros E G. destruct (mapa_final_resolvido cabecalho_str) as (m' & E' & _ & I).
  rewrite E in E'. injection E' as <-. exact (I c k G).
Qed.

(** X6: on the rows the reader yields, with the three mandatory fields
    resolved, the body of the row loop raises nothing but [ValueError],
    [AttributeError] or [TypeError]: the [IndexError] and [KeyError] that
    the [except] clause names never occur; and a row with a cell for every
    column raises nothing but [ValueError], so it is either parsed or
    skipped. *)
Theorem excecoes_de_uma_linha :
  forall (cabecalho_str : str) (m : mapa) (row : list str) (tipo_conta : str)
         (i : nat),
    mapa_final cabecalho_str = Ok m ->
    campo_ausente m campos_obrigatorios = None ->
    match processar_linha m tipo_conta i
            (dict_of_row (cabecalho_original cabecalho_str) row) with
    | Ok _ => True
    | Raise e =>
      (e = ValueError \/ e = AttributeError \/ e = TypeError) /\
      (List.length (cabecalho_original cabecalho_str) <= List.length row ->
       e = ValueError)
    end.
Proof.
  intros cab m row tipo i E A.
  destruct (campo_ausente_none m A) as (kd & ks & kv & Kd & Ks & Kv).
  pose proof (mapa_final_em_cabecalho cab m _ _ E Kd) as Id.
  pose proof (mapa_final_em_cabecalho cab m _ _ E Ks) as Is.
  pose proof (mapa_final_em_cabecalho cab m _ _ E Kv) as Iv.
  destruct (dict_get (dict_of_row (cabecalho_original cab) row) (Some kd))
    as [vd|] eqn:Vd; [|now destruct (dict_of_row_chave _ row _ Id)].
  destruct (dict_get (dict_of_row (cabecalho_original cab) row) (Some ks))
    as [vs|] eqn:Vs; [|now destruct (dict_of_row_chave _ row _ Is)].
  destruct (dict_get (dict_of_row (cabecalho_original cab) row) (Some kv))
    as [vv|] eqn:Vv; [|now destruct (dict_of_row_chave _ row _ Iv)].
  pose proof (processar_linha_erros m tipo i _ _ _ _ _ _ _ Kd Vd Ks Vs Kv Vv) as P.
  destruct (processar_linha m tipo i
              (dict_of_row (cabecalho_original cab) row)) as [t|e];
    [exact I|].
  destruct P as [P1 P2]. split; [exact P1|]. intros L. apply P2.
  destruct (dict_of_row_celula _ row _ Id L) as (a & Ea).
  destruct (dict_of_row_celula _ row _ Is L) as (b & Eb).
  destruct (dict_of_row_celula _ row _ Iv L) as (c & Ec).
  exists a, b, c. rewrite Ea in Vd. rewrite Eb in Vs. rewrite Ec in Vv.
  repeat split; congruence.
Qed.

(** X7: the external id of a parsed row: with an id column resolved it is
    what the row has under that column; with none it is the empty string,
    unless the row has more cells than the header, in which case it is the
    list of the surplus cells. *)
Theorem id_transacao_de_uma_linha :
  forall (m : mapa) (tipo_conta : str) (i : nat) (fieldnames row : list str)
         (t : transacao),
    processar_linha m tipo_conta i (dict_of_row fieldnames row) = Ok t ->
    (mapa_get m c_id_transacao = None ->
     id_transacao t
     = if Nat.ltb (List.length fieldnames) (List.length row)
       then VLista (skipn (List.length fieldnames) row)
       else VStr []) /\
    (forall k, mapa_get m c_id_transacao = Some k -> In k fieldnames ->
               dict_get (dict_of_row fieldnames row) (Some k)
               = Some (id_transacao t)).
Proof.
  intros m tipo i f row t E.
  destruct (processar_linha_ok _ _ _ _ _ E)
    as (ds & desc & vs & d & v & _ & _ & _ & ->).
  cbn [id_transacao]. split.
  - intros ->. unfold dict_get_default. rewrite dict_of_row_resto.
    now destruct (Nat.ltb (List.length f) (List.length row)).
  - intros k -> I. unfold dict_get_default.
    pose proof (dict_of_row_chave f row k I) as N.
    now destruct (dict_get (dict_of_row f row) (Some k)).
Qed.

(** X8: the account type and the position of a row decide nothing but the
    sign of the amount and the identifier: whether a row is parsed, and
    with which exception it fails, is the same for every account type and
    position, and so are the date, the description and the external id. *)
Theorem tipo_e_posicao_de_uma_linha :
  forall (m : mapa) (tipo tipo' : str) (i j : nat) (linha : dict),
    match processar_linha m tipo i linha,
          processar_linha m tipo' j linha with
    | Ok t, Ok t' =>
      data t' = data t /\ descricao t' = descricao t /\
      id_transacao t' = id_transacao t /\
      (valor t' = valor t \/ valor t' = float_neg (valor t)
       \/ valor t = float_neg (valor t')) /\
      (tipo' = tipo -> valor t' = valor t) /\
      (j = i -> fitid t' = fitid t)
    | Raise e, Raise e' => e' = e
    | _, _ => False
    end.
Proof.
  intros m tipo tipo' i j linha.
  unfold processar_linha, mapa_index, dict_index.
  destruct (mapa_get m c_data) as [kd|]; cbn [bind]; [|reflexivity].
  destruct (dict_get linha (Some kd)) as [vd|]; cbn [bind]; [|reflexivity].
  destruct (mapa_get m c_descricao) as [ks|]; cbn [bind]; [|reflexivity].
  destruct (dict_get linha (Some ks)) as [vs|]; cbn [bind]; [|reflexivity].
  destruct vs as [b| |]; cbn [valor_strip bind]; try reflexivity.
  destruct (mapa_get m c_valor) as [kv|]; cbn [bind]; [|reflexivity].
  destruct (dict_get linha (Some kv)) as [vv|]; cbn [bind]; [|reflexivity].
  destruct vd as [a| |]; cbn [valor_strptime bind]; try reflexivity.
  destruct (strptime_dmY a); cbn [bind]; [|reflexivity].
  destruct vv as [c| |]; cbn [valor_float bind]; try reflexivity.
  destruct (float_of_str (replace ch_comma ch_dot c)); cbn [bind];
    [|reflexivity].
  cbn [data descricao valor id_transacao fitid].
  repeat split; try (intros ->; reflexivity).
  destruct (str_eqb tipo credito), (str_eqb tipo' credito); auto.
Qed.

Lemma processar_linhas_contagem (m : mapa) (tipo_conta : str)
  (linhas : list dict) :
  forall (i : nat) (avisos : list diag) (ts : list transacao),
    processar_linhas m tipo_conta i linhas = (avisos, Ok ts) ->
    List.length ts + List.length avisos = List.length linhas /\
    Forall (fun a => exists linha e,
                a = AvisoLinhaIgnorada linha e /\ In linha linhas
                /\ capturada_na_linha e = true) avisos.
Proof.
  induction linhas as [|linha resto IH]; intros i avisos ts E;
    cbn [processar_linhas] in E.
  - injection E as <- <-. split; [reflexivity | constructor].
  - destruct (processar_linha m tipo_conta i linha) as [t|e].
    + destruct (processar_linhas m tipo_conta (S i) resto) as [av [ts'|e']] eqn:R;
        cbn [bind] in E; [|discriminate].
      injection E as <- <-. destruct (IH _ _ _ R) as [L F].
      split; [cbn [List.length]; lia|].
      eapply Forall_impl; [|exact F].
      intros a (l & e & -> & I & C). exists l, e. cbn [In]. auto.
    + destruct (capturada_na_linha e) eqn:C; [|discriminate].
      destruct (processar_linhas m tipo_conta (S i) resto) as [av r] eqn:R.
      injection E as <- ->. destruct (IH _ _ _ R) as [L F].
      split; [cbn [List.length]; lia|].
      constructor; [exists linha, e; cbn [In]; auto|].
      eapply Forall_impl; [|exact F].
      intros a (l & e0 & -> & I & C0). exists l, e0. cbn [In]. auto.
Qed.

(** X9: when the extraction returns, every row the reader yielded is
    accounted for once: the transactions returned and the warnings printed
    are together as many as the rows, and every warning is about one of
    the rows, for an exception the [except] clause names. *)
Theorem linhas_lidas_ou_ignoradas :
  forall (cabecalho_str : str) (linhas_csv : list str) (tipo_conta : str)
         (m : mapa) (avisos : list diag) (ts : list transacao)
         (bank_id acct_id : option str),
    mapa_final cabecalho_str = Ok m ->
    campo_ausente m campos_obrigatorios = None ->
    analisar_transacoes cabecalho_str linhas_csv tipo_conta
      = (avisos, Ok (ts, bank_id, acct_id)) ->
    List.length ts + List.length avisos
    = List.length (fst (DictReader linhas_csv (cabecalho_original cabecalho_str))) /\
    Forall (fun a => exists linha e,
                a = AvisoLinhaIgnorada linha e /\
                In linha (fst (DictReader linhas_csv
                                 (cabecalho_original cabecalho_str))) /\
                capturada_na_linha e = true) avisos.
Proof.
  intros cab linhas tipo m avisos ts b a Em A E.
  unfold analisar_transacoes in E. rewrite Em, A in E.
  destruct (extrair_conta m (cabecalho_original cab) linhas) as [[b0 a0]|e];
    [|discriminate].
  unfold coletar_transacoes in E.
  destruct (DictReader linhas (cabecalho_original cab)) as [rows erro].
  destruct (processar_linhas m tipo 0 rows) as [av [pre|e]] eqn:R;
    cbn [bind] in E; [|discriminate].
  destruct erro; cbn [bind] in E; [discriminate|].
  injection E as <- <- _ _. cbn [fst].
  destruct (processar_linhas_contagem m tipo rows _ _ _ R) as [L F].
  split; [|exact F].
  rewrite <- (Permutation_length (ordenar_perm pre)). exact L.
Qed.

End Linhas.

Lemma excecoes_de_uma_linha_witness :
  mapa_final (u8 "Data;Histórico;Valor") = Ok mapa_exemplo /\
  campo_ausente mapa_exemplo campos_obrigatorios = None /\
  match processar_linha mapa_exemplo (u8 "banco") 0
          (dict_of_row (cabecalho_original (u8 "Data;Histórico;Valor"))
             [u8 "01/03/2024"; u8 "x"]) with
  | Ok _ => True
  | Raise e =>
    (e = ValueError \/ e = AttributeError \/ e = TypeError) /\
    (List.length (cabecalho_original (u8 "Data;Histórico;Valor"))
     <= List.length [u8 "01/03/2024"; u8 "x"] -> e = ValueError)
  end.
Proof.
  assert (H1 : mapa_final (u8 "Data;Histórico;Valor") = Ok mapa_exemplo)
    by (vm_compute; reflexivity).
  assert (H2 : campo_ausente mapa_exemplo campos_obrigatorios = None)
    by reflexivity.
  split; [exact H1|]. split; [exact H2|].
  exact (excecoes_de_uma_linha (u8 "Data;Histórico;Valor") mapa_exemplo
           [u8 "01/03/2024"; u8 "x"] (u8 "banco") 0 H1 H2).
Defined.

Lemma id_transacao_witness :
  exists t,
    processar_linha mapa_exemplo (u8 "banco") 0
      (dict_of_row [u8 "Data"; u8 "Histórico"; u8 "Valor"]
         [u8 "01/03/2024"; u8 "x"; u8 "1,00"; u8 "a"; u8 "b"]) = Ok t /\
    id_transacao t = VLista [u8 "a"; u8 "b"].
Proof.
  destruct (processar_linha mapa_exemplo (u8 "banco") 0
      (dict_of_row [u8 "Data"; u8 "Histórico"; u8 "Valor"]
         [u8 "01/03/2024"; u8 "x"; u8 "1,00"; u8 "a"; u8 "b"])) as [t|e] eqn:E;
    [|vm_compute in E; discriminate].
  exists t. split; [reflexivity|].
  exact (proj1 (id_transacao_de_uma_linha _ _ _ _ _ _ E) eq_refl).
Defined.

Lemma linhas_lidas_ou_ignoradas_witness :
  exists avisos ts,
    analisar_transacoes (u8 "Data;Histórico;Valor")
      [u8 "2024-03-01;A;1,00"; u8 "02/03/2024;B;2,00"; u8 "03/03/2024;C;x"]
      (u8 "banco") = (avisos, Ok (ts, None, None)) /\
    List.length ts + List.length avisos = 3.
Proof.
  assert (H1 : mapa_final (u8 "Data;Histórico;Valor") = Ok mapa_exemplo)
    by (vm_compute; reflexivity).
  assert (H2 : campo_ausente mapa_exemplo campos_obrigatorios = None)
    by reflexivity.
  destruct (analisar_transacoes (u8 "Data;Histórico;Valor")
      [u8 "2024-03-01;A;1,00"; u8 "02/03/2024;B;2,00"; u8 "03/03/2024;C;x"]
      (u8 "banco")) as [avisos [[[ts b] a]|e]] eqn:E.
  - exists avisos, ts.
    destruct (linhas_lidas_ou_ignoradas _ _ _ _ _ _ _ _ H1 H2 E) as [L _].
    assert (A : a = None /\ b = None /\ List.length ts + List.length avisos = 3).
    { clear L. vm_compute in E. injection E as <- <- <- <-. now repeat split. }
    destruct A as (-> & -> & A). split; [reflexivity | exact A].
  - exfalso. vm_compute in E. discriminate.
Defined.

(** ** The reader on lines without quoting *)

Lemma parse_line_simples (s : str) :
  forall r,
    state r = START_FIELD \/ state r = IN_FIELD ->
    Forall char_simples s ->
    (N.of_nat (List.length (field r) + List.length s) < field_limit)%N ->
    exists p ps,
      split ch_semicolon s = p :: ps /\
      parse_line r s
      = Ok (mk_reader START_RECORD []
              (rev ps ++ (rev (field r) ++ p) :: fields r)).
Proof.
  induction s as [|c s IH]; intros r St F L.
  - exists [], []. split; [reflexivity|].
    cbn [parse_line]. unfold parse_process_char.
    destruct St as [-> | ->]; cbn; now rewrite app_nil_r.
  - inversion F as [|? ? (Nq & N10 & N13) F']; subst.
    assert (Bn : is_newline c = false).
    { unfold is_newline. apply orb_false_iff.
      split; now apply N.eqb_neq. }
    assert (Bq : char_eqb c ch_quote = false) by now apply N.eqb_neq.
    cbn [parse_line].
    assert (P : parse_process_char r (Some c)
                = if char_eqb c ch_semicolon
                  then Ok (parse_save_field START_FIELD r)
                  else parse_add_char IN_FIELD r c).
    { unfold parse_process_char, parse_start_field.
      destruct St as [-> | ->];
        cbn [is_eol_or_newline is_char]; rewrite Bn; try rewrite Bq;
        reflexivity. }
    rewrite P. cbn [split]. destruct (char_eqb c ch_semicolon) eqn:Bs.
    + cbn [bind].
      destruct (IH (parse_save_field START_FIELD r)) as (p & ps & Es & Ep);
        [now left | assumption | cbn in *; lia |].
      exists [], (p :: ps). rewrite Es. split; [reflexivity|].
      rewrite Ep. cbn [parse_save_field field fields rev app].
      now rewrite app_nil_r, <- app_assoc.
    + unfold parse_add_char.
      assert (Bl : (field_limit <=? N.of_nat (List.length (field r)))%N = false).
      { apply N.leb_gt. cbn [List.length] in L. lia. }
      rewrite Bl. cbn [bind].
      destruct (IH (mk_reader IN_FIELD (c :: field r) (fields r)))
        as (p & ps & Es & Ep);
        [now right | assumption | cbn in *; lia |].
      exists (c :: p), ps. rewrite Es. split; [reflexivity|].
      rewrite Ep. cbn [field fields rev]. now rewrite <- app_assoc.
Qed.

Lemma csv_reader_simples (linhas : list str) :
  Forall linha_simples linhas ->
  csv_reader linhas = (map (split ch_semicolon) linhas, None).
Proof.
  unfold csv_reader. induction 1 as [|l linhas (Nn & F & L) _ IH];
    [reflexivity|].
  cbn [csv_reader_from map].
  assert (P : parse_line parse_reset l
              = parse_line (mk_reader START_FIELD [] []) l).
  { destruct l as [|c l]; [congruence|]. cbn [parse_line].
    inversion F as [|? ? (Nq & N10 & N13) _]; subst.
    unfold parse_process_char. cbn [state parse_reset].
    replace (is_newline c) with false; [reflexivity|].
    symmetry. unfold is_newline. apply orb_false_iff.
    split; now apply N.eqb_neq. }
  rewrite P.
  destruct (parse_line_simples l (mk_reader START_FIELD [] []))
    as (p & ps & Es & ->); [now left | assumption | exact L |].
  cbn [state parser_state_eqb fields field rev app]. rewrite IH.
  rewrite rev_app_distr. cbn [rev app]. rewrite rev_involutive.
  now rewrite Es.
Qed.

Lemma DictReader_simples (linhas fieldnames : list str) :
  Forall linha_simples linhas ->
  DictReader linhas fieldnames
  = (map (fun l => dict_of_row fieldnames (split ch_semicolon l)) linhas, None).
Proof.
  intros F. unfold DictReader. rewrite (csv_reader_simples linhas F).
  f_equal. clear F. induction linhas as [|l linhas IH]; [reflexivity|].
  cbn [map filter].
  destruct (split ch_semicolon l) as [|p ps] eqn:E;
    [now destruct (split_not_nil _ _ E)|].
  cbn [row_nonempty map]. now rewrite IH.
Qed.

(** ** Account metadata and extraction without failure *)

Lemma index_of_in (x : str) (l : list str) :
  In x l -> exists i, index_of x l = Some i.
Proof.
  induction l as [|y l IH]; [intros []|]. intros I. cbn [index_of].
  destruct (str_eqb y x) eqn:E; [now exists 0|].
  destruct I as [->|I]; [now rewrite str_eqb_refl in E|].
  destruct (IH I) as (i & ->). now exists (S i).
Qed.

Lemma extrair_da_primeira_linha_ok (m : mapa) (cabecalho primeira : list str)
  (c : campo) :
  (forall k, mapa_get m c = Some k -> In k cabecalho) ->
  exists r, extrair_da_primeira_linha m cabecalho primeira c = Ok r.
Proof.
  intros I. unfold extrair_da_primeira_linha.
  destruct (mapa_get m c) as [k|]; [|now exists None].
  destruct (index_of_in k cabecalho (I k eq_refl)) as (i & Ei).
  unfold list_index, list_item. rewrite Ei. cbn [bind].
  destruct (nth_error primeira i); eexists; reflexivity.
Qed.

Lemma extrair_conta_ok (m : mapa) (cabecalho linhas : list str) :
  (forall c k, mapa_get m c = Some k -> In k cabecalho) ->
  exists b a, extrair_conta m cabecalho linhas = Ok (b, a).
Proof.
  intros I. unfold extrair_conta. destruct linhas as [|l0 linhas];
    [now exists None, None|].
  destruct (extrair_da_primeira_linha_ok m cabecalho (split ch_semicolon l0)
              c_bank_id (I c_bank_id)) as (b & ->).
  destruct (extrair_da_primeira_linha_ok m cabecalho (split ch_semicolon l0)
              c_agencia (I c_agencia)) as (g & ->).
  destruct (extrair_da_primeira_linha_ok m cabecalho (split ch_semicolon l0)
              c_acct_id (I c_acct_id)) as (a & ->).
  cbn [bind]. eexists. eexists. reflexivity.
Qed.

Section SemFalha.
Context `{PyLib}.

Lemma linha_completa_so_valor (cabecalho_str : str) (m : mapa)
  (row : list str) (tipo_conta : str) (i : nat) :
  mapa_final cabecalho_str = Ok m ->
  campo_ausente m campos_obrigatorios = None ->
  List.length (cabecalho_original cabecalho_str) <= List.length row ->
  match processar_linha m tipo_conta i
          (dict_of_row (cabecalho_original cabecalho_str) row) with
  | Ok _ => True
  | Raise e => e = ValueError
  end.
Proof.
  intros E A L.
  destruct (campo_ausente_none m A) as (kd & ks & kv & Kd & Ks & Kv).
  destruct (dict_of_row_celula _ row _
              (mapa_final_em_cabecalho _ m _ _ E Kd) L) as (a & Ea).
  destruct (dict_of_row_celula _ row _
              (mapa_final_em_cabecalho _ m _ _ E Ks) L) as (b & Eb).
  destruct (dict_of_row_celula _ row _
              (mapa_final_em_cabecalho _ m _ _ E Kv) L) as (c & Ec).
  pose proof (processar_linha_erros m tipo_conta i _ _ _ _ _ _ _
                Kd Ea Ks Eb Kv Ec) as P.
  destruct (processar_linha m tipo_conta i
              (dict_of_row (cabecalho_original cabecalho_str) row));
    [exact I|].
  apply P. now exists a, b, c.
Qed.

Lemma processar_linhas_sem_erro (m : mapa) (tipo_conta : str)
  (rows : list dict) :
  (forall linha, In linha rows ->
     forall i, match processar_linha m tipo_conta i linha with
               | Ok _ => True
               | Raise e => e = ValueError
               end) ->
  forall i, exists avisos ts,
    processar_linhas m tipo_conta i rows = (avisos, Ok ts).
Proof.
  induction rows as [|linha rows IH]; intros P i; cbn [processar_linhas].
  - now exists [], [].
  - destruct (IH (fun l I => P l (or_intror I)) (S i)) as (av & ts & ->).
    pose proof (P linha (or_introl eq_refl) i) as Q.
    destruct (processar_linha m tipo_conta i linha) as [t|e].
    + cbn [bind]. now exists av, (t :: ts).
    + subst e. cbn [capturada_na_linha].
      now exists (AvisoLinhaIgnorada linha ValueError :: av), ts.
Qed.

(** X10: when no data line has a quote character or a line break inside,
    and every data line has at least as many cells as the header has
    columns, the extraction returns whatever the cells hold: no row can
    end it with an exception, each is parsed or skipped with a warning;
    and with the mandatory fields resolved the transactions and the
    warnings are together as many as the data lines. *)
Theorem extracao_de_linhas_completas :
  forall (cabecalho_str : str) (linhas_csv : list str) (tipo_conta : str),
    Forall (fun l => linha_simples l /\
                     List.length (cabecalho_original cabecalho_str)
                     <= S (count ch_semicolon l)) linhas_csv ->
    exists avisos ts bank_id acct_id,
      analisar_transacoes cabecalho_str linhas_csv tipo_conta
        = (avisos, Ok (ts, bank_id, acct_id)) /\
      forall m, mapa_final cabecalho_str = Ok m ->
                campo_ausente m campos_obrigatorios = None ->
                List.length ts + List.length avisos = List.length linhas_csv.
Proof.
  intros cab linhas tipo F.
  destruct (mapa_final_resolvido cab) as (m & E & _ & Im).
  unfold analisar_transacoes. rewrite E.
  destruct (campo_ausente m campos_obrigatorios) as [c|] eqn:A.
  - eexists. exists [], None, None. split; [reflexivity|].
    intros m' [= <-] A'. congruence.
  - destruct (extrair_conta_ok m (cabecalho_original cab) linhas Im)
      as (b & a & ->).
    assert (Fs : Forall linha_simples linhas)
      by (eapply Forall_impl; [|exact F]; now intros l [S _]).
    unfold coletar_transacoes. rewrite (DictReader_simples linhas _ Fs).
    destruct (processar_linhas_sem_erro m tipo
                (map (fun l => dict_of_row (cabecalho_original cab)
                                 (split ch_semicolon l)) linhas))
      with (i := 0) as (av & pre & R).
    { intros linha I i. apply in_map_iff in I as (l & <- & Il).
      rewrite Forall_forall in F. destruct (F l Il) as [_ L].
      apply (linha_completa_so_valor cab m _ tipo i E A).
      now rewrite split_length. }
    rewrite R. cbn [bind].
    exists av, (ordenar_por_data pre), b, a. split; [reflexivity|].
    intros _ _ _.
    destruct (processar_linhas_contagem m tipo _ _ _ _ R) as [L _].
    rewrite length_map in L.
    rewrite <- (Permutation_length (ordenar_perm pre)). exact L.
Qed.

End SemFalha.

Lemma linha_simplesb_ok (l : str) : linha_simplesb l = true -> linha_simples l.
Proof.
  unfold linha_simplesb, linha_simples.
  rewrite !andb_true_iff, forallb_forall, N.ltb_lt.
  intros [[Nn F] L]. split; [now destruct l|]. split; [|exact L].
  apply Forall_forall. intros c I. specialize (F c I).
  rewrite !andb_true_iff, !negb_true_iff, !N.eqb_neq in F.
  unfold char_simples. tauto.
Qed.

Lemma extracao_de_linhas_completas_witness :
  exists avisos ts bank_id acct_id,
    analisar_transacoes (u8 "Data;Histórico;Valor")
      [u8 "01/03/2024;A;1,00"; u8 "x;B;2,00;mais"; u8 "03/03/2024;C;3,00"]
      (u8 "banco") = (avisos, Ok (ts, bank_id, acct_id)).
Proof.
  assert (F : Forall (fun l => linha_simples l /\
                        List.length (cabecalho_original (u8 "Data;Histórico;Valor"))
                        <= S (count ch_semicolon l))
                [u8 "01/03/2024;A;1,00"; u8 "x;B;2,00;mais";
                 u8 "03/03/2024;C;3,00"]).
  { repeat (constructor;
              [split; [apply linha_simplesb_ok; vm_compute; reflexivity
                      | apply Nat.leb_le; vm_compute; reflexivity]|]).
    constructor. }
  destruct (extracao_de_linhas_completas (u8 "Data;Histórico;Valor") _
              (u8 "banco") F) as (av & ts & b & a & E & _).
  now exists av, ts, b, a.
Defined.

(** X11: reading the account metadata never fails, whatever the first data
    line holds, and reads nothing but that line; an account id read is
    never the empty string. *)
Theorem metadados_da_primeira_linha :
  forall `{PyLib} (cabecalho_str : str) (linhas_csv : list str) (m : mapa),
    mapa_final cabecalho_str = Ok m ->
    exists bank_id acct_id,
      extrair_conta m (cabecalho_original cabecalho_str) linhas_csv
        = Ok (bank_id, acct_id) /\
      extrair_conta m (cabecalho_original cabecalho_str) (firstn 1 linhas_csv)
        = Ok (bank_id, acct_id) /\
      acct_id <> Some [].
Proof.
  intros H cab linhas m E.
  destruct (extrair_conta_ok m (cabecalho_original cab) linhas
              (fun c k G => mapa_final_em_cabecalho cab m c k E G))
    as (b & a & Ea).
  exists b, a. split; [exact Ea|]. split.
  - destruct linhas as [|l0 linhas]; exact Ea.
  - unfold extrair_conta in Ea. destruct linhas as [|l0 linhas];
      [injection Ea as _ <-; discriminate|].
    destruct (extrair_da_primeira_linha m (cabecalho_original cab)
                (split ch_semicolon l0) c_bank_id); [|discriminate].
    destruct (extrair_da_primeira_linha m (cabecalho_original cab)
                (split ch_semicolon l0) c_agencia) as [g|]; [|discriminate].
    destruct (extrair_da_primeira_linha m (cabecalho_original cab)
                (split ch_semicolon l0) c_acct_id) as [c|]; [|discriminate].
    cbn [bind] in Ea. injection Ea as _ <-.
    destruct g as [[|x g]|], c as [[|y c]|]; cbn; discriminate.
Qed.

Lemma metadados_da_primeira_linha_witness :
  exists m,
    mapa_final (u8 "Banco;Agência;Conta;Data;Histórico;Valor") = Ok m /\
    extrair_conta m
      (cabecalho_original (u8 "Banco;Agência;Conta;Data;Histórico;Valor"))
      [u8 "001; 12 ;345;01/03/2024;A;1,00"; u8 "999;9;9;02/03/2024;B;2,00"]
    = Ok (Some (u8 "001"), Some (u8 "12-345")).
Proof.
  destruct (mapa_final (u8 "Banco;Agência;Conta;Data;Histórico;Valor"))
    as [m|e] eqn:E; [|vm_compute in E; discriminate].
  exists m. split; [reflexivity|].
  destruct (metadados_da_primeira_linha
              (u8 "Banco;Agência;Conta;Data;Histórico;Valor")
              [u8 "001; 12 ;345;01/03/2024;A;1,00"; u8 "999;9;9;02/03/2024;B;2,00"]
              m E) as (b & a & Ea & _ & _).
  rewrite Ea.
  assert (M : mapa_final (u8 "Banco;Agência;Conta;Data;Histórico;Valor")
              = Ok [(c_data, u8 "Data"); (c_descricao, u8 "Histórico");
                    (c_valor, u8 "Valor"); (c_bank_id, u8 "Banco");
                    (c_agencia, u8 "Agência"); (c_acct_id, u8 "Conta")])
    by (vm_compute; reflexivity).
  rewrite M in E. injection E as <-.
  rewrite <- Ea. vm_compute. reflexivity.
Defined.

(** ** The sort, again *)


Lemma inserir_menor (t : transacao) (l : list transacao) :
  Forall (data_le t) l -> inserir t l = t :: l.
Proof.
  destruct 1 as [|y l L _]; [reflexivity|].
  cbn [inserir]. unfold data_le in L. now rewrite L.
Qed.

Lemma ordenar_ordenada (l : list transacao) :
  StronglySorted data_le l -> ordenar_por_data l = l.
Proof.
  induction 1 as [|t l S IH F]; [reflexivity|].
  cbn [ordenar_por_data]. rewrite IH. now apply inserir_menor.
Qed.

(** X12: the sort by date leaves a list that is already in date order as
    it is, so rows that come in date order keep their row order; and
    sorting a sorted result again changes nothing. *)
Theorem ordenar_por_data_ordenada :
  forall (l : list transacao),
    (StronglySorted data_le l -> ordenar_por_data l = l) /\
    ordenar_por_data (ordenar_por_data l) = ordenar_por_data l.
Proof.
  intros l. split; [apply ordenar_ordenada|].
  apply ordenar_ordenada, ordenar_sorted.
Qed.



Section Periodo.
Context `{PyLib}.



End Periodo.

Lemma ordenar_por_data_ordenada_witness :
  exists t1 t2,
    StronglySorted data_le [t1; t2] /\
    ordenar_por_data [t1; t2] = [t1; t2] /\
    ordenar_por_data [t2; t1] = [t1; t2].
Proof.
  exists (mk_transacao (mk_datetime 2024 3 1) (u8 "A") (S754_zero false)
            (VStr []) []),
         (mk_transacao (mk_datetime 2024 3 2) (u8 "B") (S754_zero false)
            (VStr []) []).
  assert (S : StronglySorted data_le
                [mk_transacao (mk_datetime 2024 3 1) (u8 "A") (S754_zero false)
                   (VStr []) [];
                 mk_transacao (mk_datetime 2024 3 2) (u8 "B") (S754_zero false)
                   (VStr []) []]).
  { repeat constructor. }
  split; [exact S|]. split; [|reflexivity].
  exact (proj1 (ordenar_por_data_ordenada _) S).
Defined.


(** ** The whole conversion *)

Section Conversao.
Context `{PyLib}.

Lemma processar_linha_tipo (m : mapa) (t1 t2 : str) (i : nat) (linha : dict) :
  str_eqb t1 credito = str_eqb t2 credito ->
  processar_linha m t1 i linha = processar_linha m t2 i linha.
Proof.
  intros E. unfold processar_linha, mapa_index, dict_index.
  destruct (mapa_get m c_data) as [kd|]; cbn [bind]; [|reflexivity].
  destruct (dict_get linha (Some kd)) as [vd|]; cbn [bind]; [|reflexivity].
  destruct (mapa_get m c_descricao) as [ks|]; cbn [bind]; [|reflexivity].
  destruct (dict_get linha (Some ks)) as [vs|]; cbn [bind]; [|reflexivity].
  destruct (valor_strip vs); cbn [bind]; [|reflexivity].
  destruct (mapa_get m c_valor) as [kv|]; cbn [bind]; [|reflexivity].
  destruct (dict_get linha (Some kv)) as [vv|]; cbn [bind]; [|reflexivity].
  destruct (valor_strptime vd) as [[ds d]|]; cbn [bind]; [|reflexivity].
  destruct (valor_float vv) as [[s v]|]; cbn [bind]; [|reflexivity].
  now rewrite E.
Qed.

Lemma processar_linhas_tipo (m : mapa) (t1 t2 : str) (linhas : list dict) :
  str_eqb t1 credito = str_eqb t2 credito ->
  forall i, processar_linhas m t1 i linhas = processar_linhas m t2 i linhas.
Proof.
  intros E. induction linhas as [|l linhas IH]; intros i; [reflexivity|].
  cbn [processar_linhas]. rewrite (processar_linha_tipo m t1 t2 i l E).
  now rewrite IH.
Qed.

Lemma analisar_transacoes_tipo (cabecalho_str : str) (linhas_csv : list str)
  (t1 t2 : str) :
  str_eqb t1 credito = str_eqb t2 credito ->
  analisar_transacoes cabecalho_str linhas_csv t1
  = analisar_transacoes cabecalho_str linhas_csv t2.
Proof.
  intros E. unfold analisar_transacoes, coletar_transacoes.
  destruct (mapa_final cabecalho_str) as [m|e]; [|reflexivity].
  destruct (DictReader linhas_csv (cabecalho_original cabecalho_str))
    as [rows erro].
  now rewrite (processar_linhas_tipo m t1 t2 rows E).
Qed.

Lemma gerar_ofx_tipo (ts : list transacao) (t1 t2 : str)
  (bank_id acct_id : option str) :
  str_eqb t1 credito = str_eqb t2 credito ->
  gerar_ofx ts t1 bank_id acct_id = gerar_ofx ts t2 bank_id acct_id.
Proof. intros E. unfold gerar_ofx. now rewrite E. Qed.

(** X14: the account type is compared with ['credito'] and with nothing
    else: the conversion of a file with any other account type prints and
    writes exactly what it does with ['banco']. *)
Theorem conversao_de_outro_tipo :
  forall (arquivo : res (list str)) (tipo_conta : str),
    tipo_conta <> credito ->
    converter arquivo tipo_conta = converter arquivo (u8 "banco").
Proof.
  intros arquivo tipo N.
  assert (E : str_eqb tipo credito = str_eqb (u8 "banco") credito).
  { rewrite banco_nao_credito. now apply str_eqb_neq. }
  unfold converter.
  destruct (preprocessar_csv_corrigindo_linhas arquivo) as [d1 [[c l]|e]];
    [|reflexivity].
  destruct (cabecalho_e_linhas c l) as [[cab linhas]|]; [|reflexivity].
  rewrite (analisar_transacoes_tipo cab linhas tipo (u8 "banco") E).
  destruct (analisar_transacoes cab linhas (u8 "banco"))
    as [d2 [[[ts b] a]|e]]; [|reflexivity].
  now rewrite (gerar_ofx_tipo ts tipo (u8 "banco") b a E).
Qed.

Lemma processar_linhas_avisos (m : mapa) (tipo_conta : str)
  (linhas : list dict) :
  forall i, Forall (fun a => relata_arquivo a = false)
              (fst (processar_linhas m tipo_conta i linhas)).
Proof.
  induction linhas as [|l linhas IH]; intros i; cbn [processar_linhas];
    [constructor|].
  specialize (IH (S i)).
  destruct (processar_linha m tipo_conta i l) as [t|e].
  - now destruct (processar_linhas m tipo_conta (S i) linhas).
  - destruct (capturada_na_linha e); [|constructor].
    destruct (processar_linhas m tipo_conta (S i) linhas).
    constructor; [reflexivity | exact IH].
Qed.

Lemma analisar_transacoes_avisos (cabecalho_str : str)
  (linhas_csv : list str) (tipo_conta : str) :
  Forall (fun a => relata_arquivo a = false)
    (fst (analisar_transacoes cabecalho_str linhas_csv tipo_conta)).
Proof.
  unfold analisar_transacoes, coletar_transacoes.
  destruct (mapa_final cabecalho_str) as [m|e]; [|constructor].
  destruct (campo_ausente m campos_obrigatorios);
    [repeat constructor|].
  destruct (extrair_conta m (cabecalho_original cabecalho_str) linhas_csv)
    as [[b a]|e]; [|constructor].
  destruct (DictReader linhas_csv (cabecalho_original cabecalho_str))
    as [rows erro].
  pose proof (processar_linhas_avisos m tipo_conta rows 0) as F.
  now destruct (processar_linhas m tipo_conta 0 rows).
Qed.

(** X15: when the conversion ends without an exception, the last message
    is the closing one, and the message that a file was generated, with a
    count that is not zero, is printed exactly when a document is written:
    it then comes right before the closing message, and no other message
    of the run is of that kind. *)
Theorem mensagens_da_conversao :
  forall (arquivo : res (list str)) (tipo_conta : str) (d : list diag)
         (doc : option str),
    converter arquivo tipo_conta = (d, Ok doc) ->
    exists d',
      d = d' ++ [ProcessoFinalizado] /\
      match doc with
      | Some _ =>
        exists d'' n,
          d' = d'' ++ [ArquivoGerado n] /\ 0 < n /\
          Forall (fun a => relata_arquivo a = false) d''
      | None => Forall (fun a => relata_arquivo a = false) d'
      end.
Proof.
  intros arquivo tipo d doc. unfold converter.
  assert (F1 : Forall (fun a => relata_arquivo a = false)
                 (fst (preprocessar_csv_corrigindo_linhas arquivo))).
  { unfold preprocessar_csv_corrigindo_linhas.
    destruct arquivo as [[|l0 dados]|e]; cbn [fst]; try repeat constructor.
    destruct (capturada_na_leitura e); constructor. }
  destruct (preprocessar_csv_corrigindo_linhas arquivo) as [d1 [[c l]|e]];
    [|discriminate]. cbn [fst] in F1.
  destruct (cabecalho_e_linhas c l) as [[cab linhas]|].
  - pose proof (analisar_transacoes_avisos cab linhas tipo) as F2.
    destruct (analisar_transacoes cab linhas tipo) as [d2 [[[ts b] a]|e]];
      [|discriminate]. cbn [fst] in F2.
    unfold gerar_ofx. destruct ts as [|t0 ts].
    + intros [= <- <-]. exists (d1 ++ d2 ++ [NenhumaTransacao]).
      split; [now rewrite <- !app_assoc|].
      apply Forall_app; split; [assumption|].
      apply Forall_app; split; [assumption | repeat constructor].
    + destruct (str_eqb tipo credito); intros [= <- <-];
        (exists ((d1 ++ d2) ++ [ArquivoGerado (List.length (t0 :: ts))]);
         split; [now rewrite <- !app_assoc|];
         exists (d1 ++ d2), (List.length (t0 :: ts));
         split; [reflexivity|]; split; [cbn [List.length]; lia|];
         apply Forall_app; split; assumption).
  - intros [= <- <-]. exists d1. split; [reflexivity | assumption].
Qed.

End Conversao.

Lemma conversao_de_outro_tipo_witness :
  converter (Ok [u8 "Data;Histórico;Valor" ++ nl;
                 u8 "01/03/2024;Compra Loja X;150,00" ++ nl]) (u8 "poupanca")
  = converter (Ok [u8 "Data;Histórico;Valor" ++ nl;
                   u8 "01/03/2024;Compra Loja X;150,00" ++ nl]) (u8 "banco").
Proof.
  apply conversao_de_outro_tipo. apply str_eqb_neq. vm_compute. reflexivity.
Defined.

Lemma mensagens_da_conversao_witness :
  exists doc,
    converter (Ok [u8 "Data;Histórico;Valor" ++ nl;
                   u8 "x;A;1,00" ++ nl;
                   u8 "01/03/2024;Compra Loja X;150,00" ++ nl]) (u8 "banco")
    = ([AvisoLinhaIgnorada
          (dict_of_row [u8 "Data"; u8 "Histórico"; u8 "Valor"]
             [u8 "x"; u8 "A"; u8 "1,00"]) ValueError;
        ArquivoGerado 1; ProcessoFinalizado], Ok (Some doc)) /\
    exists d',
      [AvisoLinhaIgnorada
         (dict_of_row [u8 "Data"; u8 "Histórico"; u8 "Valor"]
            [u8 "x"; u8 "A"; u8 "1,00"]) ValueError;
       ArquivoGerado 1; ProcessoFinalizado] = d' ++ [ProcessoFinalizado] /\
      exists d'' n,
        d' = d'' ++ [ArquivoGerado n] /\ 0 < n /\
        Forall (fun a => relata_arquivo a = false) d''.
Proof.
  assert (E : exists doc,
    converter (Ok [u8 "Data;Histórico;Valor" ++ nl;
                   u8 "x;A;1,00" ++ nl;
                   u8 "01/03/2024;Compra Loja X;150,00" ++ nl]) (u8 "banco")
    = ([AvisoLinhaIgnorada
          (dict_of_row [u8 "Data"; u8 "Histórico"; u8 "Valor"]
             [u8 "x"; u8 "A"; u8 "1,00"]) ValueError;
        ArquivoGerado 1; ProcessoFinalizado], Ok (Some doc))).
  { eexists. vm_compute. reflexivity. }
  destruct E as [doc E]. exists doc.
  split; [exact E|].
  exact (mensagens_da_conversao _ _ _ _ E).
Defined.

(** ** Identifiers over a whole file *)

Lemma textos_de_In (alfabeto : list char) :
  forall (n : nat) (s : str),
    List.length s = n -> Forall (fun c => In c alfabeto) s ->
    In s (textos_de alfabeto n).
Proof.
  induction n as [|n IH]; intros s L F.
  - destruct s; [now left | discriminate].
  - destruct s as [|c s]; [discriminate|].
    injection L as L. inversion F as [|? ? Ic Fs]; subst.
    cbn [textos_de]. apply in_flat_map. exists c. split; [exact Ic|].
    apply in_map. now apply IH.
Qed.

(** Among the values a function of the position takes in a finite set, two
    positions share one. *)
Lemma posicoes_com_mesmo_valor (f : nat -> str) (U : list str) :
  (forall k, In (f k) U) -> exists i j, i <> j /\ f i = f j.
Proof.
  intros H.
  destruct (Permutation_pigeonhole_rel (fun (k : nat) (a : str) => f k = a)
              (l1 := seq 0 (S (List.length U))) (l2 := U))
    as (b & b' & l3 & P & a & _ & Eb & Eb').
  - apply Forall_forall. intros k _. apply Exists_exists.
    exists (f k). split; [apply H | reflexivity].
  - rewrite length_seq. lia.
  - exists b, b'. split; [|now rewrite Eb, Eb'].
    pose proof (Permutation_NoDup P (seq_NoDup _ _)) as N.
    inversion N as [|? ? Nb _]; subst.
    intros ->. apply Nb. now left.
Qed.

Lemma length_flat_map_hex_byte (l : list N) :
  List.length (flat_map Ref.hex_byte l) = 2 * List.length l.
Proof.
  induction l as [|b l IH]; [reflexivity|].
  cbn [flat_map Ref.hex_byte app List.length]. rewrite IH. lia.
Qed.

Lemma hex_digit_alfabeto (x : N) : (x < 16)%N -> In (Ref.hex_digit x) alfabeto_hex.
Proof.
  intros L. unfold alfabeto_hex. apply in_map.
  rewrite <- (N2Nat.id x). apply in_map. apply in_seq. lia.
Qed.

Lemma bytes_le_byte (n : nat) (x b : N) :
  In b (Ref.bytes_le n x) -> (b < 256)%N.
Proof.
  unfold Ref.bytes_le. intros I. apply in_map_iff in I.
  destruct I as (i & <- & _).
  change 255%N with (N.ones 8). rewrite N.land_ones.
  apply N.mod_lt. discriminate.
Qed.

(** The digest is a text of thirty-two hexadecimal characters. *)
Lemma md5_em_textos_de (msg : list N) :
  In (Ref.md5 msg) (textos_de alfabeto_hex 32).
Proof.
  unfold Ref.md5.
  destruct (fold_left Ref.md5_block
              (Ref.blocks (List.length (Ref.words_le (Ref.md5_pad msg)) / 16)
                 (Ref.words_le (Ref.md5_pad msg)))
              (1732584193%N, 4023233417%N, 2562383102%N, 271733878%N))
    as [[[a b] c] d].
  apply textos_de_In.
  - rewrite length_flat_map_hex_byte, !length_app.
    unfold Ref.bytes_le. rewrite !length_map, !length_seq. reflexivity.
  - apply Forall_forall. intros ch I. apply in_flat_map in I.
    destruct I as (x & Ix & Ic).
    assert (L : (x < 256)%N).
    { repeat (apply in_app_or in Ix; destruct Ix as [Ix|Ix];
              [now apply bytes_le_byte in Ix|]).
      now apply bytes_le_byte in Ix. }
    unfold Ref.hex_byte in Ic. destruct Ic as [<-|[<-|[]]].
    + apply hex_digit_alfabeto.
      apply N.Div0.div_lt_upper_bound. exact L.
    + apply hex_digit_alfabeto. apply N.mod_lt. discriminate.
Qed.

Lemma celulas_exemplo :
  celulas mapa_exemplo linha_exemplo (u8 "01/03/2024") (u8 "Compra Loja X")
    (u8 "150,00").
Proof.
  exists (u8 "Data"), (u8 "Histórico"), (u8 "Valor").
  split; [vm_compute; reflexivity|]. split; [vm_compute; reflexivity|].
  split; [vm_compute; reflexivity|]. split; [vm_compute; reflexivity|].
  split; vm_compute; reflexivity.
Qed.

Lemma processar_linha_exemplo (k : nat) :
  processar_linha mapa_exemplo (u8 "banco") k linha_exemplo
  = Ok (transacao_exemplo k).
Proof.
  assert (P : strptime_dmY (u8 "01/03/2024") = Some (mk_datetime 2024 3 1))
    by (vm_compute; reflexivity).
  assert (F : float_of_str (replace ch_comma ch_dot (u8 "150,00"))
              = Some (S754_finite false 5277655813324800 (-45)))
    by (vm_compute; reflexivity).
  etransitivity;
    [exact (processar_linha_eq mapa_exemplo (u8 "banco") k linha_exemplo
              _ _ _ _ _ celulas_exemplo P F)|].
  assert (S : strip (u8 "Compra Loja X") = u8 "Compra Loja X")
    by (vm_compute; reflexivity).
  assert (G : forall s, s = u8 "Compra Loja X" ->
            Ok (mk_transacao (mk_datetime 2024 3 1) (limpar_descricao s)
                  (if str_eqb (u8 "banco") credito
                   then float_neg (S754_finite false 5277655813324800 (-45))
                   else S754_finite false 5277655813324800 (-45))
                  (dict_get_default linha_exemplo
                     (mapa_get mapa_exemplo c_id_transacao))
                  (md5_hexdigest
                     (utf8_encode
                        (texto_fitid (u8 "01/03/2024") s (u8 "150,00") k))))
            = Ok (transacao_exemplo k)).
  { intros s ->. unfold transacao_exemplo. f_equal. }
  exact (G _ S).
Qed.

Lemma processar_linhas_repetidas (n : nat) :
  forall i,
    processar_linhas mapa_exemplo (u8 "banco") i (repeat linha_exemplo n)
    = ([], Ok (map transacao_exemplo (seq i n))).
Proof.
  induction n as [|n IH]; intros i; [reflexivity|].
  cbn [repeat processar_linhas seq map].
  rewrite (processar_linha_exemplo i), (IH (S i)). reflexivity.
Qed.

Lemma transacoes_exemplo_ordenadas (n : nat) :
  forall i, StronglySorted data_le (map transacao_exemplo (seq i n)).
Proof.
  induction n as [|n IH]; intros i; cbn [seq map]; constructor.
  - apply IH.
  - apply Forall_forall. intros t I. apply in_map_iff in I.
    destruct I as (k & <- & _). reflexivity.
Qed.

(** A file of [n] copies of the sample line: every row is parsed, and the
    transactions come back in row order. *)
Lemma analisar_linhas_repetidas (n : nat) :
  analisar_transacoes (u8 "Data;Histórico;Valor")
    (repeat linha_csv_exemplo n) (u8 "banco")
  = ([], Ok (map transacao_exemplo (seq 0 n), None, None)).
Proof.
  assert (Em : mapa_final (u8 "Data;Histórico;Valor") = Ok mapa_exemplo)
    by (vm_compute; reflexivity).
  assert (Eo : cabecalho_original (u8 "Data;Histórico;Valor")
               = [u8 "Data"; u8 "Histórico"; u8 "Valor"])
    by (vm_compute; reflexivity).
  assert (A : campo_ausente mapa_exemplo campos_obrigatorios = None)
    by (vm_compute; reflexivity).
  assert (X : forall linhas,
            extrair_conta mapa_exemplo [u8 "Data"; u8 "Histórico"; u8 "Valor"]
              linhas = Ok (None, None)).
  { intros [|l0 linhas]; vm_compute; reflexivity. }
  assert (Fs : Forall linha_simples (repeat linha_csv_exemplo n)).
  { apply Forall_forall. intros l I. apply repeat_spec in I. subst l.
    apply linha_simplesb_ok. vm_compute. reflexivity. }
  assert (D : DictReader (repeat linha_csv_exemplo n)
                [u8 "Data"; u8 "Histórico"; u8 "Valor"]
              = (repeat linha_exemplo n, None)).
  { etransitivity; [exact (DictReader_simples _ _ Fs)|].
    f_equal. rewrite map_repeat. f_equal. }
  unfold analisar_transacoes. rewrite Em, A, Eo, X.
  unfold coletar_transacoes. rewrite D, (processar_linhas_repetidas n 0).
  cbn [bind].
  rewrite (ordenar_ordenada _ (transacoes_exemplo_ordenadas n 0)).
  reflexivity.
Qed.



(** A digest of thirty-two hexadecimal characters takes finitely many
    values: in a file of enough copies of one line, two rows receive the
    same identifier. *)
Lemma identificadores_repetidos :
  exists (n i j : nat) (ts : list transacao) (ti tj : transacao),
    analisar_transacoes (u8 "Data;Histórico;Valor")
      (repeat linha_csv_exemplo n) (u8 "banco")
    = ([], Ok (ts, None, None)) /\
    List.length ts = n /\
    i <> j /\ nth_error ts i = Some ti /\ nth_error ts j = Some tj /\
    fitid ti = md5_hexdigest
                 (utf8_encode
                    (texto_fitid (u8 "01/03/2024") (u8 "Compra Loja X")
                       (u8 "150,00") i)) /\
    fitid tj = md5_hexdigest
                 (utf8_encode
                    (texto_fitid (u8 "01/03/2024") (u8 "Compra Loja X")
                       (u8 "150,00") j)) /\
    fitid ti = fitid tj.
Proof.
  destruct (posicoes_com_mesmo_valor
              (fun k => fitid (transacao_exemplo k))
              (textos_de alfabeto_hex 32)
              (fun k => md5_em_textos_de _)) as (i & j & N & E).
  exists (S (i + j)), i, j, (map transacao_exemplo (seq 0 (S (i + j)))),
    (transacao_exemplo i), (transacao_exemplo j).
  split; [apply analisar_linhas_repetidas|].
  split; [now rewrite length_map, length_seq|].
  split; [exact N|].
  assert (Nth : forall k, k < S (i + j) ->
            nth_error (map transacao_exemplo (seq 0 (S (i + j)))) k
            = Some (transacao_exemplo k)).
  { intros k L. rewrite nth_error_map, nth_error_seq.
    apply Nat.ltb_lt in L. rewrite L. reflexivity. }
  split; [apply Nth; lia|]. split; [apply Nth; lia|].
  split; [reflexivity|]. split; [reflexivity | exact E].
Qed.
